(** * rdu-temp-forecast-14day: data retrieval and feature construction

    A shallow embedding of the data scripts of the repository
    ([src/data/api_xgb_data.py], [src/data/build_features.py],
    [src/data/test_truth.py]) and the properties their specification
    states about them.

    Modelling conventions.
    - A pandas [Timestamp] is the integer it stores: nanoseconds since
      1970-01-01T00:00 of the naive local calendar ([Timestamp.value]).
      A [Timedelta] is a number of nanoseconds.  [NaT] is not modelled:
      every time column comes from the provider's [hourly.time] array.
    - A float64 is an exact rational ([Q]) kept in lowest terms; [NaN]
      is [None].  Rounding is outside the model; [np.sin], [np.cos] and
      the square root are the fields of the class [Numpy], and every
      theorem holds for all its instances.
    - A raised exception is a value of [exn]; functions that can raise
      return a [result]. *)

From Stdlib Require Import String Ascii ZArith QArith List Bool Lia.
From Stdlib Require Import Permutation Sorted DecimalString.
Import ListNotations.
Open Scope Z_scope.

(* ================================================================== *)
(** * Exceptions *)

Inductive exn : Type :=
| ValueError (msg : string)
| RuntimeError (msg : string)
| AssertionError (msg : string)
| KeyError (key : string)
| TypeError (msg : string).

Inductive result (A : Type) : Type :=
| Ok (a : A)
| Raise (e : exn).
Arguments Ok {A} a.
Arguments Raise {A} e.

Definition bind {A B : Type} (r : result A) (k : A -> result B) : result B :=
  match r with
  | Ok a => k a
  | Raise e => Raise e
  end.

Notation "x <- r ;; k" := (bind r (fun x => k))
  (at level 61, r at next level, right associativity).
Notation "r ;;; k" := (bind r (fun _ => k))
  (at level 61, right associativity).

(* ================================================================== *)
(** * numpy *)

(** The functions of numpy that do not stay within the rationals. *)
Class Numpy : Type := {
  np_sin : Q -> Q;
  np_cos : Q -> Q;
  np_sqrt : Q -> Q
}.

(** [np.pi] is the double 0x400921FB54442D18. *)
Definition np_pi : Q := 884279719003555 # 281474976710656.

(** Sums and means are kept in lowest terms. *)
Definition Qsum (l : list Q) : Q := fold_right (fun x acc => Qred (x + acc)%Q) 0%Q l.

(** The arithmetic mean of a non-empty list of numbers. *)
Definition Qmean (l : list Q) : Q :=
  Qred (Qsum l / inject_Z (Z.of_nat (List.length l)))%Q.

(** The sum of squared deviations from the mean, over [n - ddof]. *)
Definition Qvar (ddof : nat) (w : list Q) : Q :=
  let m := Qmean w in
  Qred (Qsum (map (fun x => (x - m) * (x - m))%Q w)
        / inject_Z (Z.of_nat (List.length w - ddof)))%Q.

(** The values of a float array that are not [NaN]. *)
Definition valid (v : list (option Q)) : list Q :=
  flat_map (fun x => match x with Some q => [q] | None => [] end) v.

(* ================================================================== *)
(** * The proleptic Gregorian calendar of pandas timestamps *)

Module Calendar.

Definition Timestamp := Z.
Definition Timedelta := Z.

Definition NS_PER_HOUR : Z := 3600 * 1000000000.
Definition NS_PER_DAY : Z := 24 * NS_PER_HOUR.

(** [pd.Timedelta(hours=h)]. *)
Definition hours (h : Z) : Timedelta := h * NS_PER_HOUR.

(** Day number (days since 1970-01-01) of a date of the civil calendar. *)
Definition days_from_civil (y m d : Z) : Z :=
  let y' := if m <=? 2 then y - 1 else y in
  let era := y' / 400 in
  let yoe := y' - era * 400 in
  let mp := if 2 <? m then m - 3 else m + 9 in
  let doy := (153 * mp + 2) / 5 + d - 1 in
  let doe := yoe * 365 + yoe / 4 - yoe / 100 + doy in
  era * 146097 + doe - 719468.

(** The date (year, month, day) of a day number. *)
Definition civil_from_days (z : Z) : Z * Z * Z :=
  let z' := z + 719468 in
  let era := z' / 146097 in
  let doe := z' - era * 146097 in
  let yoe := (doe - doe / 1460 + doe / 36524 - doe / 146096) / 365 in
  let y := yoe + era * 400 in
  let doy := doe - (365 * yoe + yoe / 4 - yoe / 100) in
  let mp := (5 * doy + 2) / 153 in
  let d := doy - (153 * mp + 2) / 5 + 1 in
  let m := if mp <? 10 then mp + 3 else mp - 9 in
  (if m <=? 2 then y + 1 else y, m, d).

Definition day_number (t : Timestamp) : Z := t / NS_PER_DAY.

(** The accessors [Timestamp.year], [.month], [.day], [.hour], [.minute]. *)
Definition year_of_day (z : Z) : Z := fst (fst (civil_from_days z)).
Definition year (t : Timestamp) : Z := year_of_day (day_number t).
Definition month (t : Timestamp) : Z := snd (fst (civil_from_days (day_number t))).
Definition day (t : Timestamp) : Z := snd (civil_from_days (day_number t)).
Definition hour (t : Timestamp) : Z := (t mod NS_PER_DAY) / NS_PER_HOUR.
Definition minute (t : Timestamp) : Z := (t mod NS_PER_HOUR) / (60 * 1000000000).

(** [Timestamp.dayofweek]: Monday is 0; 1970-01-01 was a Thursday. *)
Definition dayofweek (t : Timestamp) : Z := (day_number t + 3) mod 7.

(** [Timestamp.dayofyear]: 1 on the first of January. *)
Definition dayofyear (t : Timestamp) : Z :=
  day_number t - days_from_civil (year t) 1 1 + 1.

(** [pd.Timestamp(year=y, month=m, day=d)]: midnight of that date. *)
Definition mk_date (y m d : Z) : Timestamp := days_from_civil y m d * NS_PER_DAY.

(** [pd.Timestamp] of a date and an hour and minute of that day. *)
Definition mk_time (y m d hh mm : Z) : Timestamp :=
  mk_date y m d + hh * NS_PER_HOUR + mm * (60 * 1000000000).

(** Decimal digits of a non-negative number, left-padded with zeros to
    two places, as the [%m] and [%d] directives print. *)
Definition dec (n : Z) : string := NilEmpty.string_of_uint (N.to_uint (Z.to_N n)).
Definition pad2 (n : Z) : string :=
  if n <? 10 then String "0" (dec n) else dec n.

(** [Timestamp.strftime("%Y-%m-%d")]. *)
Definition strftime_ymd (t : Timestamp) : string :=
  (match dec (year t) with EmptyString => "0" | s => s end
   ++ "-" ++ pad2 (month t) ++ "-" ++ pad2 (day t))%string.

(** The first of January of a year, as a day number. *)
Definition jan1 (y : Z) : Z := days_from_civil y 1 1.

(** [f] holds on the [n] integers from [lo] on. *)
Fixpoint forall_from (f : Z -> bool) (lo : Z) (n : nat) : bool :=
  match n with
  | O => true
  | S n' => f lo && forall_from f (lo + 1) n'
  end.

(** The [n] consecutive integers from [a] on, and the integers from [a]
    to [b], both included. *)
Fixpoint Zseq (a : Z) (n : nat) : list Z :=
  match n with
  | O => []
  | S n' => a :: Zseq (a + 1) n'
  end.

Definition Zrange (a b : Z) : list Z := Zseq a (Z.to_nat (b - a + 1)).

End Calendar.

(* ================================================================== *)
(** * [src/data/api_xgb_data.py] *)

Module ApiXgbData.
Import Calendar.

(** ** [make_year_chunks] *)

(** The body of the [while year <= end.year] loop, run for the [n]
    remaining years. *)
Fixpoint year_loop (n : nat) (start end_ : Timestamp) (yr : Z)
  : list (Timestamp * Timestamp) :=
  match n with
  | O => []
  | S n' =>
      let y0 := mk_date yr 1 1 in
      let y1 := mk_date yr 12 31 in
      let s := Z.max start y0 in
      let e := Z.min end_ y1 in
      (s, e) :: year_loop n' start end_ (yr + 1)
  end.

(** The chunks as timestamps, before they are printed.  The loop runs
    while [year <= end.year], that is [end.year - start.year + 1] times
    (no time when that number is not positive). *)
Definition year_chunks_ts (start end_ : Timestamp) : list (Timestamp * Timestamp) :=
  year_loop (Z.to_nat (year end_ - year start + 1)) start end_ (year start).

(** [make_year_chunks(start_date, end_date)], on the parsed dates. *)
Definition make_year_chunks (start end_ : Timestamp) : list (string * string) :=
  map (fun c => (strftime_ymd (fst c), strftime_ymd (snd c)))
      (year_chunks_ts start end_).

(** The calendar days a chunk covers, as day numbers. *)
Definition day_span (c : Timestamp * Timestamp) : list Z :=
  Zrange (day_number (fst c)) (day_number (snd c)).

(** ** The observation table of this script

    [json_to_dataframe] builds every frame of this script with exactly
    the two columns [time] and [temp_obs], so a frame is a list of rows. *)

Record Obs : Type := mkObs { time : Timestamp; temp_obs : option Q }.
Definition Table := list Obs.

Definition times (df : Table) : list Timestamp := map time df.

(** [df.sort_values("time")].  pandas leaves the relative order of rows
    with equal keys to the sorting routine; the model keeps it (a stable
    insertion sort). *)
Fixpoint insert_by_time (r : Obs) (l : Table) : Table :=
  match l with
  | [] => [r]
  | x :: l' => if time r <=? time x then r :: l else x :: insert_by_time r l'
  end.

Definition sort_values (df : Table) : Table := fold_right insert_by_time [] df.

(** [df.drop_duplicates(subset=["time"], keep="first")]: a row is dropped
    when its timestamp was seen on an earlier row. *)
Fixpoint drop_dup_from (seen : list Timestamp) (df : Table) : Table :=
  match df with
  | [] => []
  | r :: df' =>
      if existsb (Z.eqb (time r)) seen then drop_dup_from seen df'
      else r :: drop_dup_from (time r :: seen) df'
  end.

Definition drop_duplicates (df : Table) : Table := drop_dup_from [] df.

(** [Series.is_monotonic_increasing]: no value is smaller than the one
    before it. *)
Fixpoint is_monotonic_increasing (ts : list Timestamp) : bool :=
  match ts with
  | a :: ((b :: _) as tl) => (a <=? b) && is_monotonic_increasing tl
  | _ => true
  end.

(** [range(24)] and [Series.dt.hour.isin(range(24)).all()]. *)
Definition range24 : list Z := map Z.of_nat (seq 0 24).

Definition hours_isin_range24 (ts : list Timestamp) : bool :=
  forallb (fun t => existsb (Z.eqb (hour t)) range24) ts.

(** [Series.diff().dropna()]: the differences of consecutive values. *)
Fixpoint diff (ts : list Timestamp) : list Timedelta :=
  match ts with
  | a :: ((b :: _) as tl) => (b - a) :: diff tl
  | _ => []
  end.

(** [(diffs != pd.Timedelta(hours=1)).sum()]. *)
Definition count_bad_steps (ts : list Timestamp) : nat :=
  length (filter (fun d => negb (d =? hours 1)) (diff ts)).

(** What the merge step of [__main__] saves and reports. *)
Record Normalized : Type := mkNormalized {
  df_all : Table;       (* the table written to the staging file *)
  dropped : Z;          (* [before - len(df_all)] *)
  bad : nat             (* the number of steps that are not one hour *)
}.

(** Lines 113-131 of [__main__]: concatenate the fetched parts, sort,
    drop duplicated timestamps, run the two sanity assertions, count the
    irregular steps. *)
Definition normalize (dfs : list Table) : result Normalized :=
  if (length dfs =? 0)%nat then
    Raise (RuntimeError "No data fetched. Please check your ranges.")
  else
    let df0 := sort_values (concat dfs) in
    let before := Z.of_nat (length df0) in
    let df1 := drop_duplicates df0 in
    let dropped := before - Z.of_nat (length df1) in
    if negb (is_monotonic_increasing (times df1)) then
      Raise (AssertionError "Timestamps are not strictly increasing.")
    else if negb (hours_isin_range24 (times df1)) then
      Raise (AssertionError "There are non-hourly timestamps.")
    else
      Ok (mkNormalized df1 dropped (count_bad_steps (times df1))).

(** A timestamp falls on an hour boundary when it is a whole number of
    hours. *)
Definition on_hour_boundary (t : Timestamp) : Prop := t mod NS_PER_HOUR = 0.

(** Rows in ascending order of time. *)
Definition by_time (a b : Obs) : Prop := time a <= time b.

(** ** Sample tables *)

(** Two fetched parts that share the hour 01:00 (the repeated local
    hour of a fall-back night). *)
Definition part_a : Table :=
  [mkObs (mk_time 2024 11 3 0 0) (Some (15 # 1));
   mkObs (mk_time 2024 11 3 1 0) (Some (14 # 1))].
Definition part_b : Table :=
  [mkObs (mk_time 2024 11 3 1 0) (Some (13 # 1));
   mkObs (mk_time 2024 11 3 2 0) (Some (12 # 1))].

(** The half-hour timestamp 2024-01-01 00:30. *)
Definition half_past : Timestamp := mk_time 2024 1 1 0 30.

(** ** [json_to_dataframe], [clip_to_exact_range] and the fetch loop *)

(** [json_to_dataframe(data)], on the two arrays [hourly.time] (parsed)
    and [hourly.temperature_2m] of the payload: the frame constructor
    refuses arrays of different lengths; the rows are then sorted. *)
Definition json_to_dataframe (hourly_time : list Timestamp)
    (hourly_temperature_2m : list (option Q)) : result Table :=
  if (List.length hourly_time =? List.length hourly_temperature_2m)%nat then
    Ok (sort_values (map (fun p => mkObs (fst p) (snd p))
                         (combine hourly_time hourly_temperature_2m)))
  else Raise (ValueError "All arrays must be of the same length").

(** [clip_to_exact_range(df, start_date, end_date)], on the parsed
    dates: the rows from [start] 00:00 to [end] 23:00. *)
Definition clip_to_exact_range (df : Table) (start_date end_date : Timestamp)
  : Table :=
  let t0 := start_date in
  let t1 := end_date + hours 23 in
  filter (fun r => (t0 <=? time r) && (time r <=? t1)) df.

(** The midnight of the day of a timestamp: what the date string
    [strftime("%Y-%m-%d")] prints parses back to. *)
Definition day_floor (t : Timestamp) : Timestamp := day_number t * NS_PER_DAY.

(** The loop of [__main__] over the chunks, given the arrays the
    provider answers for each chunk: every answer becomes a frame that
    is clipped to the dates of its chunk. *)
Fixpoint collect_parts (chunks : list (Timestamp * Timestamp))
    (answers : list (list Timestamp * list (option Q))) : result (list Table) :=
  match chunks, answers with
  | c :: chunks', d :: answers' =>
      df_part <- json_to_dataframe (fst d) (snd d) ;;
      let df_part :=
        clip_to_exact_range df_part (day_floor (fst c)) (day_floor (snd c)) in
      rest <- collect_parts chunks' answers' ;;
      Ok (df_part :: rest)
  | _, _ => Ok []
  end.

(** [__main__]: the chunks of the configured range are fetched, clipped
    and merged. *)
Definition main (start_date end_date : Timestamp)
    (answers : list (list Timestamp * list (option Q))) : result Normalized :=
  dfs <- collect_parts (year_chunks_ts start_date end_date) answers ;;
  normalize dfs.

(** The answers of the provider for the two chunks of the range
    2024-12-31..2025-01-01; the first also holds the midnight that
    belongs to the second chunk. *)
Definition new_year_answers : list (list Timestamp * list (option Q)) :=
  [([mk_time 2024 12 31 22 0; mk_time 2024 12 31 23 0; mk_time 2025 1 1 0 0],
    [Some (5 # 1); Some (4 # 1); Some (3 # 1)]);
   ([mk_time 2025 1 1 0 0; mk_time 2025 1 1 1 0],
    [Some (3 # 1); Some (2 # 1)])].

(** Every step of a list of timestamps is one hour. *)
Definition all_steps_hourly (ts : list Timestamp) : Prop :=
  forall i a b, nth_error ts i = Some a -> nth_error ts (S i) = Some b ->
                b = a + hours 1.

End ApiXgbData.

(* ================================================================== *)
(** * [src/data/build_features.py] *)

Module BuildFeatures.
Import Calendar.

(** ** Frames with named, typed columns *)

Inductive Series : Type :=
| STime (v : list Timestamp)       (* datetime64[ns] *)
| SInt (v : list Z)                (* int64 *)
| SFloat (v : list (option Q)).    (* float64, [None] is NaN *)

(** A frame keeps its columns in order; [df.columns] is the list of
    their names. *)
Definition DataFrame := list (string * Series).

Definition columns (df : DataFrame) : list string := map fst df.

Definition has_column (df : DataFrame) (c : string) : bool :=
  existsb (String.eqb c) (columns df).

Fixpoint get_col (df : DataFrame) (c : string) : option Series :=
  match df with
  | [] => None
  | (k, s) :: df' => if String.eqb k c then Some s else get_col df' c
  end.

(** [df[c]]. *)
Definition getitem (df : DataFrame) (c : string) : result Series :=
  match get_col df c with
  | Some s => Ok s
  | None => Raise (KeyError c)
  end.

(** [df[c] = s]: an existing column is replaced where it stands, a new
    one is appended. *)
Fixpoint setitem (df : DataFrame) (c : string) (s : Series) : DataFrame :=
  match df with
  | [] => [(c, s)]
  | (k, v) :: df' =>
      if String.eqb k c then (k, s) :: df' else (k, v) :: setitem df' c s
  end.

Definition series_len (s : Series) : nat :=
  match s with
  | STime v => List.length v
  | SInt v => List.length v
  | SFloat v => List.length v
  end.

(** [len(df)]; every column of a frame has the length of the first. *)
Definition nrows (df : DataFrame) : nat :=
  match df with
  | [] => O
  | (_, s) :: _ => series_len s
  end.

(** Rows selected by position, in the order of [idx]. *)
Definition take_list {A : Type} (idx : list nat) (v : list A) : list A :=
  flat_map (fun i => match nth_error v i with Some x => [x] | None => [] end) idx.

Definition take_series (idx : list nat) (s : Series) : Series :=
  match s with
  | STime v => STime (take_list idx v)
  | SInt v => SInt (take_list idx v)
  | SFloat v => SFloat (take_list idx v)
  end.

Definition take (idx : list nat) (df : DataFrame) : DataFrame :=
  map (fun cs => (fst cs, take_series idx (snd cs))) df.

(** The positions at which a boolean mask holds, counted from [i]. *)
Fixpoint mask_index_from (i : nat) (m : list bool) : list nat :=
  match m with
  | [] => []
  | b :: m' =>
      if b then i :: mask_index_from (S i) m' else mask_index_from (S i) m'
  end.

(** [df[mask].reset_index(drop=True)]. *)
Definition select_mask (m : list bool) (df : DataFrame) : DataFrame :=
  take (mask_index_from 0 m) df.

(** [df[cols]]: the named columns, in the order asked. *)
Fixpoint select (df : DataFrame) (cols : list string) : result DataFrame :=
  match cols with
  | [] => Ok []
  | c :: cs =>
      s <- getitem df c ;;
      rest <- select df cs ;;
      Ok ((c, s) :: rest)
  end.

(** [pd.to_datetime(series)].  The time column of a frame read from a
    staging file holds the timestamps its strings parse to; converting
    a numeric column is outside the model. *)
Definition to_datetime (s : Series) : result (list Timestamp) :=
  match s with
  | STime v => Ok v
  | _ => Raise (TypeError "not a datetime column")
  end.

(** The values of a numeric column as floats. *)
Definition to_float (s : Series) : result (list (option Q)) :=
  match s with
  | SFloat v => Ok v
  | SInt v => Ok (map (fun n => Some (inject_Z n)) v)
  | STime _ => Raise (TypeError "not a numeric column")
  end.

(** The positions that sort the keys ascending; rows with equal keys
    keep their order. *)
Fixpoint insert_key (p : Z * nat) (l : list (Z * nat)) : list (Z * nat) :=
  match l with
  | [] => [p]
  | x :: l' => if fst p <=? fst x then p :: l else x :: insert_key p l'
  end.

Definition argsort (ts : list Z) : list nat :=
  map snd (fold_right insert_key [] (combine ts (seq 0 (List.length ts)))).

(** ** [add_time_features] *)

Section TimeFeatures.
Context `{Numpy}.

(** [2 * np.pi * x / d], elementwise. *)
Definition angle (d : Q) (x : option Q) : option Q :=
  option_map (fun q => (2 * np_pi * q / d)%Q) x.

Definition add_time_features (df : DataFrame) (ts_col : string)
  : result DataFrame :=
  let out := df in
  col <- getitem out ts_col ;;
  ts <- to_datetime col ;;
  let out := setitem out "hour" (SInt (map hour ts)) in
  let out := setitem out "day_of_week" (SInt (map dayofweek ts)) in
  dow <- getitem out "day_of_week" ;;
  dow <- to_float dow ;;
  let out := setitem out "is_weekend"
    (SInt (map (fun d => match d with
                         | Some q => if Qle_bool 5 q then 1 else 0
                         | None => 0
                         end) dow)) in
  hr <- getitem out "hour" ;;
  hr <- to_float hr ;;
  let out := setitem out "sin_hour"
    (SFloat (map (fun x => option_map np_sin (angle 24 x)) hr)) in
  hr <- getitem out "hour" ;;
  hr <- to_float hr ;;
  let out := setitem out "cos_hour"
    (SFloat (map (fun x => option_map np_cos (angle 24 x)) hr)) in
  let doy := map (fun t => Some (inject_Z (dayofyear t))) ts in
  let out := setitem out "sin_doy"
    (SFloat (map (fun x => option_map np_sin (angle 365 x)) doy)) in
  let out := setitem out "cos_doy"
    (SFloat (map (fun x => option_map np_cos (angle 365 x)) doy)) in
  Ok out.

End TimeFeatures.

(** The seven columns [add_time_features] writes. *)
Definition time_feature_names : list string :=
  ["hour"; "day_of_week"; "is_weekend"; "sin_hour"; "cos_hour";
   "sin_doy"; "cos_doy"]%string.

(** The frame [add_time_features] returns, given the timestamps [ts]
    of the time column: the seven assignments in the order of the
    source. *)
Definition with_time_features `{Numpy} (ts : list Timestamp) (df : DataFrame)
  : DataFrame :=
  let hr := map (fun n => Some (inject_Z n)) (map hour ts) in
  let dow := map (fun n => Some (inject_Z n)) (map dayofweek ts) in
  let doy := map (fun t => Some (inject_Z (dayofyear t))) ts in
  let out := setitem df "hour" (SInt (map hour ts)) in
  let out := setitem out "day_of_week" (SInt (map dayofweek ts)) in
  let out := setitem out "is_weekend"
    (SInt (map (fun d => match d with
                         | Some q => if Qle_bool 5 q then 1 else 0
                         | None => 0
                         end) dow)) in
  let out := setitem out "sin_hour"
    (SFloat (map (fun x => option_map np_sin (angle 24 x)) hr)) in
  let out := setitem out "cos_hour"
    (SFloat (map (fun x => option_map np_cos (angle 24 x)) hr)) in
  let out := setitem out "sin_doy"
    (SFloat (map (fun x => option_map np_sin (angle 365 x)) doy)) in
  setitem out "cos_doy"
    (SFloat (map (fun x => option_map np_cos (angle 365 x)) doy)).

(** ** [check_hourly] *)

Fixpoint is_monotonic_increasing (ts : list Timestamp) : bool :=
  match ts with
  | a :: ((b :: _) as tl) => (a <=? b) && is_monotonic_increasing tl
  | _ => true
  end.

(** [ts.diff().dropna()]. *)
Fixpoint diff (ts : list Timestamp) : list Timedelta :=
  match ts with
  | a :: ((b :: _) as tl) => (b - a) :: diff tl
  | _ => []
  end.

(** [Series.unique()]: the distinct values, in order of first appearance. *)
Fixpoint unique_from (seen : list Z) (l : list Z) : list Z :=
  match l with
  | [] => []
  | x :: l' =>
      if existsb (Z.eqb x) seen then unique_from seen l'
      else x :: unique_from (x :: seen) l'
  end.

Definition unique (l : list Z) : list Z := unique_from [] l.

(** [{pd.Timedelta(hours=1), pd.Timedelta(0)}]. *)
Definition allowed : list Timedelta := [hours 1; 0].

(** [set(diffs).issubset(allowed)]. *)
Definition issubset (l s : list Z) : bool :=
  forallb (fun d => existsb (Z.eqb d) s) l.

Definition check_hourly (df : DataFrame) (ts_col : string) : result unit :=
  col <- getitem df ts_col ;;
  ts <- to_datetime col ;;
  if negb (is_monotonic_increasing ts) then
    Raise (ValueError "Timestamps are not sorted ascending.")
  else
    let diffs := unique (diff ts) in
    if negb (issubset diffs allowed) then
      Raise (ValueError "Found non-hourly gaps in the time series.")
    else Ok tt.

(** ** [build_train_features] *)

(** [Series.shift(L)]: every value moves [L] rows down, the first [L]
    rows become NaN. *)
Definition shift (L : nat) (v : list (option Q)) : list (option Q) :=
  repeat None (Nat.min L (List.length v)) ++ firstn (List.length v - L) v.

(** Elementwise difference of two float columns. *)
Definition sub_opt (a b : option Q) : option Q :=
  match a, b with
  | Some x, Some y => Some (x - y)%Q
  | _, _ => None
  end.

Definition series_sub (a b : list (option Q)) : list (option Q) :=
  map (fun p => sub_opt (fst p) (snd p)) (combine a b).

(** The rows a window of [W] rows covers when it is evaluated at row
    [i]: rows [i-W+1 .. i], cut at the start of the column. *)
Definition window (W i : nat) (v : list (option Q)) : list (option Q) :=
  skipn (S i - W) (firstn (S i) v).

(** [Series.rolling(W, min_periods=mp).agg()]: at every row the
    aggregate of the values of the window that are not NaN, or NaN when
    there are fewer than [mp] of them. *)
Definition rolling (W mp : nat) (agg : list Q -> option Q)
    (v : list (option Q)) : list (option Q) :=
  map (fun i =>
         let w := valid (window W i v) in
         if (mp <=? List.length w)%nat then agg w else None)
      (seq 0 (List.length v)).

Definition agg_mean (w : list Q) : option Q := Some (Qmean w).

(** [lags = [1, 24, 48, 72, 168]]. *)
Definition lags : list nat := [1; 24; 48; 72; 168]%nat.

(** [f"temp_lag_{L}"]. *)
Definition lag_name (L : nat) : string := ("temp_lag_" ++ dec (Z.of_nat L))%string.

(** [DataFrame.dropna()]: a row stays when none of its cells is NaN. *)
Definition notna_at (s : Series) (i : nat) : bool :=
  match s with
  | SFloat v => match nth_error v i with Some None => false | _ => true end
  | _ => true
  end.

Definition notna_mask (df : DataFrame) : list bool :=
  map (fun i => forallb (fun cs => notna_at (snd cs) i) df) (seq 0 (nrows df)).

Definition dropna (df : DataFrame) : DataFrame := select_mask (notna_mask df) df.

Section Train.
Context `{Numpy}.

(** The sample standard deviation of pandas ([ddof=1]). *)
Definition agg_std (w : list Q) : option Q :=
  if (List.length w <=? 1)%nat then None else Some (np_sqrt (Qvar 1 w)).

(** Steps 1 and 2: the staging frame sorted by time, checked, and cut
    at the cutoff. *)
Definition load_and_clip (staging : DataFrame) (cutoff : Timestamp)
  : result DataFrame :=
  let df := staging in
  if negb (has_column df "time") || negb (has_column df "temp_obs") then
    Raise (ValueError "Staging file must have 'time' and 'temp_obs' columns.")
  else
    col <- getitem df "time" ;;
    ts <- to_datetime col ;;
    let df := setitem df "time" (STime ts) in
    let df := take (argsort ts) df in
    check_hourly df "time" ;;;
    col <- getitem df "time" ;;
    ts <- to_datetime col ;;
    let df := select_mask (map (fun t => t <=? cutoff) ts) df in
    if (nrows df =? 0)%nat then
      Raise (ValueError "Training data is empty after applying the cutoff.")
    else Ok df.

(** Step 4: the lags, the first difference and the rolling statistics
    of [temp_obs].  The source reads [df["temp_obs"]] anew on every
    line; no line writes that column, so it is read once here. *)
Definition add_history_features (df : DataFrame) : result DataFrame :=
  col <- getitem df "temp_obs" ;;
  obs <- to_float col ;;
  let df := fold_left (fun d L => setitem d (lag_name L) (SFloat (shift L obs)))
                      lags df in
  let df := setitem df "temp_diff_1"
              (SFloat (series_sub (shift 1 obs) (shift 2 obs))) in
  let df := setitem df "roll_mean_24" (SFloat (rolling 24 24 agg_mean obs)) in
  let df := setitem df "roll_mean_168" (SFloat (rolling 168 24 agg_mean obs)) in
  let df := setitem df "roll_std_24" (SFloat (rolling 24 24 agg_std obs)) in
  let df := setitem df "roll_std_168" (SFloat (rolling 168 24 agg_std obs)) in
  Ok df.

(** Step 3 and 4: the frame with every feature, before rows are dropped. *)
Definition train_features (df : DataFrame) : result DataFrame :=
  df <- add_time_features df "time" ;;
  add_history_features df.

(** The frame [build_train_features] writes to [out_path]. *)
Definition build_train_features (staging : DataFrame) (cutoff : Timestamp)
  : result DataFrame :=
  df <- load_and_clip staging cutoff ;;
  df <- train_features df ;;
  let df := dropna df in
  let cols := ("time" :: filter (fun c => negb (String.eqb c "time")) (columns df))%string in
  select df cols.

(** ** [build_infer_features] *)

(** [pd.date_range(start, end, freq="h")]: [start] and every full hour
    after it up to [end]. *)
Definition date_range (start end_ : Timestamp) : list Timestamp :=
  if end_ <? start then []
  else map (fun k => start + hours (Z.of_nat k))
           (seq 0 (S (Z.to_nat ((end_ - start) / NS_PER_HOUR)))).

(** The loop over the forbidden column names. *)
Fixpoint check_no_observed (df : DataFrame) (bads : list string) : result unit :=
  match bads with
  | [] => Ok tt
  | b :: bs =>
      if has_column df b then
        Raise (ValueError
          "Inference features should not contain observed temperature columns.")
      else check_no_observed df bs
  end.

Definition build_infer_features (t0 t1 : Timestamp) : result DataFrame :=
  let start := t0 in
  let end_ := t1 + hours 23 in
  let ts := date_range start end_ in
  let df := [("time"%string, STime ts)] in
  df <- add_time_features df "time" ;;
  check_no_observed df ["temp_obs"; "temperature_2m"]%string ;;;
  Ok df.

End Train.

(** ** Reading a cell of a frame *)

(** The float in column [c] at row [i] ([None] when there is no such
    cell, [Some None] when it is NaN). *)
Definition float_at (df : DataFrame) (c : string) (i : nat) : option (option Q) :=
  match get_col df c with
  | Some s => match to_float s with Ok v => nth_error v i | Raise _ => None end
  | None => None
  end.

(** The timestamp in the [time] column at row [i]. *)
Definition time_at (df : DataFrame) (i : nat) : option Timestamp :=
  match get_col df "time" with
  | Some (STime v) => nth_error v i
  | _ => None
  end.

(** Every step of the time column is exactly one hour. *)
Definition strictly_hourly (df : DataFrame) : Prop :=
  forall i t u, time_at df i = Some t -> time_at df (S i) = Some u ->
                u = t + hours 1.

(** Every column of a frame has the length of its index. *)
Definition well_formed (df : DataFrame) : Prop :=
  forallb (fun cs => (series_len (snd cs) =? nrows df)%nat) df = true.

(** A frame of [n] rows, well formed and with a column. *)
Definition frame_of (n : nat) (df : DataFrame) : Prop :=
  well_formed df /\ df <> [] /\ nrows df = n.

(** The consecutive steps of a time column are all one hour or zero. *)
Definition steps_hourly_or_zero (ts : list Timestamp) : Prop :=
  forall i a b, nth_error ts i = Some a -> nth_error ts (S i) = Some b ->
                b - a = hours 1 \/ b - a = 0.

(** The reading of the lag columns that compares timestamps: the lag of
    a row of [out] is the observation of whichever row of [base] is
    dated [L] hours before it. *)
Definition lag_is_obs_hours_earlier (base out : DataFrame) (L : nat) : Prop :=
  forall j t i, time_at out j = Some t ->
                time_at base i = Some (t - hours (Z.of_nat L)) ->
                float_at out (lag_name L) j = float_at base "temp_obs" i.

(** ** Sample tables *)

(** Rational stand-ins for the numpy functions, to evaluate the
    definitions on concrete tables (the first terms of the series of
    the sine and the cosine, one Newton step from 1 for the root).  No
    theorem depends on them. *)
Definition sample_numpy : Numpy := {|
  np_sin := fun x => (x - x * x * x / 6)%Q;
  np_cos := fun x => (1 - x * x / 2)%Q;
  np_sqrt := fun x => ((1 + x) / 2)%Q
|}.

(** The night of 2024-11-03, when local clocks fall back. *)
Definition fall_back : Timestamp := mk_time 2024 11 3 0 0.

(** [n] hourly timestamps from [t]. *)
Definition hourly (t : Timestamp) (n : nat) : list Timestamp :=
  map (fun k => t + hours (Z.of_nat k)) (seq 0 n).

(** The temperatures [a], [a+1], ... of [n] rows. *)
Definition ramp (a n : nat) : list (option Q) :=
  map (fun k => Some (inject_Z (Z.of_nat k))) (seq a n).

(** A staging table of 170 hourly rows, temperature [k] on row [k]. *)
Definition ramp_staging : DataFrame :=
  [("time"%string, STime (hourly fall_back 170));
   ("temp_obs"%string, SFloat (ramp 0 170))].

(** A staging table of 170 rows in which the hour 01:00 comes twice
    (rows 1 and 2, both at 10 degrees); row 0, at 00:00, is at 0
    degrees and row [k >= 3], at hour [k-1], at [k] degrees. *)
Definition dup_staging : DataFrame :=
  [("time"%string,
    STime (fall_back :: fall_back + hours 1 :: hourly (fall_back + hours 1) 168));
   ("temp_obs"%string,
    SFloat (Some 0%Q :: Some (10 # 1) :: Some (10 # 1) :: ramp 3 167))].

(** A cutoff after every row of the sample tables. *)
Definition late_cutoff : Timestamp := mk_time 2025 9 16 23 0.

(** Two rows of a frame that holds only a time column. *)
Definition two_rows : DataFrame :=
  [("time"%string, STime [fall_back; fall_back + hours 1])].

(** ** Closed forms of the training steps *)

(** The time column after [sort_values("time")]. *)
Definition sorted_times (ts : list Timestamp) : list Timestamp :=
  take_list (argsort ts) ts.

(** The frame [add_history_features] returns, given the values [obs]
    of [temp_obs]: the eleven assignments in the order of the source. *)
Definition history_frame `{Numpy} (obs : list (option Q)) (df : DataFrame)
  : DataFrame :=
  let df := setitem df "temp_lag_1" (SFloat (shift 1 obs)) in
  let df := setitem df "temp_lag_24" (SFloat (shift 24 obs)) in
  let df := setitem df "temp_lag_48" (SFloat (shift 48 obs)) in
  let df := setitem df "temp_lag_72" (SFloat (shift 72 obs)) in
  let df := setitem df "temp_lag_168" (SFloat (shift 168 obs)) in
  let df := setitem df "temp_diff_1"
              (SFloat (series_sub (shift 1 obs) (shift 2 obs))) in
  let df := setitem df "roll_mean_24" (SFloat (rolling 24 24 agg_mean obs)) in
  let df := setitem df "roll_mean_168" (SFloat (rolling 168 24 agg_mean obs)) in
  let df := setitem df "roll_std_24" (SFloat (rolling 24 24 agg_std obs)) in
  setitem df "roll_std_168" (SFloat (rolling 168 24 agg_std obs)).

(** The positions of the sorted rows that are not after the cutoff, the
    base table they make, and its time column. *)
Definition clip_rows (cutoff : Timestamp) (ts : list Timestamp) : list nat :=
  mask_index_from 0 (map (fun t => t <=? cutoff) (sorted_times ts)).

Definition train_base (staging : DataFrame) (cutoff : Timestamp)
    (ts : list Timestamp) : DataFrame :=
  take (clip_rows cutoff ts) (take (argsort ts) staging).

Definition base_times (cutoff : Timestamp) (ts : list Timestamp)
  : list Timestamp :=
  take_list (clip_rows cutoff ts) (sorted_times ts).

(** The rows [dropna] keeps, by position. *)
Definition kept_rows (df : DataFrame) : list nat :=
  mask_index_from 0 (notna_mask df).

(** The columns of the training table, in the order it is written. *)
Definition train_columns : list string :=
  ["time"; "temp_obs"; "hour"; "day_of_week"; "is_weekend"; "sin_hour";
   "cos_hour"; "sin_doy"; "cos_doy"; "temp_lag_1"; "temp_lag_24";
   "temp_lag_48"; "temp_lag_72"; "temp_lag_168"; "temp_diff_1";
   "roll_mean_24"; "roll_mean_168"; "roll_std_24"; "roll_std_168"]%string.

(** The ten columns the history step writes, in its order. *)
Definition history_feature_names : list string :=
  ["temp_lag_1"; "temp_lag_24"; "temp_lag_48"; "temp_lag_72"; "temp_lag_168";
   "temp_diff_1"; "roll_mean_24"; "roll_mean_168"; "roll_std_24";
   "roll_std_168"]%string.

(** The column names after [df[c] = ...]. *)
Definition add_name (cols : list string) (c : string) : list string :=
  if existsb (String.eqb c) cols then cols else cols ++ [c].

(** A staging table of three hourly rows. *)
Definition short_staging : DataFrame :=
  [("time"%string, STime (hourly fall_back 3));
   ("temp_obs"%string, SFloat (ramp 0 3))].

End BuildFeatures.

(* ================================================================== *)
(** * [src/data/test_truth.py] *)

Module TestTruth.
Import Calendar.

(** A row of [history_df]: the two columns read from the staging file.
    The helper columns [month], [day], [hour] and [year] are assigned
    from [time] right after loading and are functions of it. *)
Record Row : Type := mkRow { time : Timestamp; temp_obs : option Q }.
Definition History := list Row.

(** [use_climatology_years=[2020, 2021, 2022, 2023, 2024]]. *)
Definition default_years : list Z := [2020; 2021; 2022; 2023; 2024].

Definition isin (x : Z) (l : list Z) : bool := existsb (Z.eqb x) l.

(** [history_df[history_df["time"] == t]["temp_obs"]]. *)
Definition real_at (history : History) (t : Timestamp) : list (option Q) :=
  map temp_obs (filter (fun r => time r =? t) history).

(** The rows of the reference years that share the month, day and hour
    of [t]. *)
Definition same_slot (years : list Z) (t : Timestamp) (r : Row) : bool :=
  (month (time r) =? month t) && (day (time r) =? day t)
  && (hour (time r) =? hour t) && isin (year (time r)) years.

Definition climatology_at (history : History) (years : list Z) (t : Timestamp)
  : list (option Q) :=
  map temp_obs (filter (same_slot years t) history).

(** [Series.mean()]: the mean of the values that are not NaN, NaN when
    there is none. *)
Definition series_mean (v : list (option Q)) : option Q :=
  match valid v with
  | [] => None
  | w => Some (Qmean w)
  end.

(** [get_lag_value(target_time, lag_hours, history_df, years)]. *)
Definition get_lag_value (target_time : Timestamp) (lag_hours : Z)
    (history : History) (years : list Z) : option Q * string :=
  let lag_time := target_time - hours lag_hours in
  let real_value := real_at history lag_time in
  if (0 <? List.length real_value)%nat then
    (nth 0 real_value None, "real"%string)
  else
    let climatology_data := climatology_at history years lag_time in
    if (0 <? List.length climatology_data)%nat then
      (series_mean climatology_data, "climatology"%string)
    else (None, "missing"%string).

(** [[target_time - pd.Timedelta(hours=i) for i in range(1, W + 1)]]. *)
Definition times_needed (target_time : Timestamp) (window_hours : Z)
  : list Timestamp :=
  map (fun i => target_time - hours (Z.of_nat i)) (seq 1 (Z.to_nat window_hours)).

(** The loop that fills [temps]: one value per needed hour that has a
    real row or a climatology row, nothing for the others. *)
Fixpoint gather (history : History) (years : list Z) (ts : list Timestamp)
  : list (option Q) :=
  match ts with
  | [] => []
  | t :: ts' =>
      let real := real_at history t in
      if (0 <? List.length real)%nat then
        nth 0 real None :: gather history years ts'
      else
        let clim := climatology_at history years t in
        if (0 <? List.length clim)%nat then
          series_mean clim :: gather history years ts'
        else gather history years ts'
  end.

(** [max(24, int(window_hours * 0.5))]; [int] truncates towards zero. *)
Definition threshold (window_hours : Z) : Z := Z.max 24 (Z.quot window_hours 2).

(** [np.mean] of a list of floats: NaN as soon as one of them is. *)
Definition np_mean (temps : list (option Q)) : option Q :=
  if forallb (fun x => match x with Some _ => true | None => false end) temps
  then match valid temps with [] => None | w => Some (Qmean w) end
  else None.

Section Rolling.
Context `{Numpy}.

(** [np.std]: the population standard deviation ([ddof=0]). *)
Definition np_std (temps : list (option Q)) : option Q :=
  if forallb (fun x => match x with Some _ => true | None => false end) temps
  then match valid temps with
       | [] => None
       | w => Some (np_sqrt (Qvar 0 w))
       end
  else None.

(** [get_rolling_stats(target_time, window_hours, history_df, years)]. *)
Definition get_rolling_stats (target_time : Timestamp) (window_hours : Z)
    (history : History) (years : list Z) : option Q * option Q :=
  let temps := gather history years (times_needed target_time window_hours) in
  if threshold window_hours <=? Z.of_nat (List.length temps) then
    (np_mean temps, np_std temps)
  else (None, None).

End Rolling.

(** What [get_lag_value] finds for the hour [u] itself, as the list of
    values it contributes to a window: the real observation or its
    climatology substitute, nothing when it is tagged [missing]. *)
Definition value_for (history : History) (years : list Z) (u : Timestamp)
  : list (option Q) :=
  let '(v, src) := get_lag_value u 0 history years in
  if String.eqb src "missing" then [] else [v].

(** A history with the midnight of 17 September in 2023 (18 degrees)
    and in 2024 (20 degrees), and the evening before the test period. *)
Definition sample_history : History :=
  [mkRow (mk_time 2023 9 17 0 0) (Some (18 # 1));
   mkRow (mk_time 2024 9 17 0 0) (Some (20 # 1));
   mkRow (mk_time 2025 9 16 23 0) (Some (21 # 1))].

(** The rows of a history from which the features of the hour [t] can
    come: those dated before [t] and those of the reference years. *)
Definition before_or_reference (t : Timestamp) (years : list Z) (r : Row) : bool :=
  (time r <? t) || isin (year (time r)) years.


End TestTruth.

(* ================================================================== *)
(** * Properties *)

(** ** The calendar *)

Module CalendarFacts.
Import Calendar.

(** Membership in a list of integers, as the code tests it. *)
Lemma existsb_eqb_In (t : Z) (l : list Z) :
  existsb (Z.eqb t) l = true <-> In t l.
Proof.
  rewrite existsb_exists. split.
  - intros (x & Hx & Heq). apply Z.eqb_eq in Heq. now subst.
  - intros Hin. exists t. split; [assumption | apply Z.eqb_refl].
Qed.

Lemma existsb_eqb_notIn (t : Z) (l : list Z) :
  existsb (Z.eqb t) l = false <-> ~ In t l.
Proof.
  rewrite <- existsb_eqb_In. destruct (existsb _ l); split; intros; congruence.
Qed.

Lemma forall_from_spec (f : Z -> bool) (n : nat) :
  forall lo, forall_from f lo n = true ->
  forall z, lo <= z < lo + Z.of_nat n -> f z = true.
Proof.
  induction n as [|n IH]; intros lo Hf z Hz.
  - simpl in Hz. lia.
  - simpl in Hf. apply andb_true_iff in Hf. destruct Hf as [H0 Hrest].
    destruct (Z.eq_dec z lo) as [->|Hne]; [exact H0|].
    apply (IH (lo + 1) Hrest). lia.
Qed.

(** Four hundred years are 146097 days: both conversions commute with a
    shift by whole eras. *)
Lemma days_from_civil_shift (y m d k : Z) :
  days_from_civil (y + 400 * k) m d = days_from_civil y m d + 146097 * k.
Proof.
  unfold days_from_civil.
  destruct (m <=? 2).
  - replace (y + 400 * k - 1) with (y - 1 + k * 400) by ring.
    rewrite Z.div_add by lia.
    replace (y - 1 + k * 400 - ((y - 1) / 400 + k) * 400)
      with (y - 1 - (y - 1) / 400 * 400) by ring.
    ring.
  - replace (y + 400 * k) with (y + k * 400) by ring.
    rewrite Z.div_add by lia.
    replace (y + k * 400 - (y / 400 + k) * 400) with (y - y / 400 * 400) by ring.
    ring.
Qed.

Lemma civil_from_days_shift (z k : Z) :
  civil_from_days (z + 146097 * k) =
  (fst (fst (civil_from_days z)) + 400 * k,
   snd (fst (civil_from_days z)), snd (civil_from_days z)).
Proof.
  unfold civil_from_days.
  replace (z + 146097 * k + 719468) with (z + 719468 + k * 146097) by ring.
  rewrite Z.div_add by lia.
  set (era := (z + 719468) / 146097).
  replace (z + 719468 + k * 146097 - (era + k) * 146097)
    with (z + 719468 - era * 146097) by ring.
  set (doe := z + 719468 - era * 146097).
  set (yoe := (doe - doe / 1460 + doe / 36524 - doe / 146096) / 365).
  cbn [fst snd].
  destruct (_ <=? 2);
    repeat match goal with |- (_, _) = (_, _) => f_equal end; ring.
Qed.

Lemma year_of_day_shift (z k : Z) :
  year_of_day (z + 146097 * k) = year_of_day z + 400 * k.
Proof. unfold year_of_day. rewrite civil_from_days_shift. reflexivity. Qed.

Lemma jan1_shift (y k : Z) : jan1 (y + 400 * k) = jan1 y + 146097 * k.
Proof. apply days_from_civil_shift. Qed.

(** The year of the era: the closed formula of [civil_from_days] picks
    the March-based year in which day [doe] of the era falls. *)
Lemma year_of_era_bounds (doe : Z) :
  0 <= doe < 146097 ->
  let yoe := (doe - doe / 1460 + doe / 36524 - doe / 146096) / 365 in
  0 <= yoe < 400 /\
  365 * yoe + yoe / 4 - yoe / 100 <= doe
    < 365 * (yoe + 1) + (yoe + 1) / 4 - (yoe + 1) / 100
      + (if yoe =? 399 then 1 else 0).
Proof.
  intros Hdoe yoe. subst yoe.
  destruct (_ =? 399) eqn:E; [apply Z.eqb_eq in E | apply Z.eqb_neq in E];
    Z.to_euclidean_division_equations; lia.
Qed.

(** Every day lies in the year the conversion gives it. *)
Lemma year_of_day_bounds (z : Z) :
  jan1 (year_of_day z) <= z < jan1 (year_of_day z + 1).
Proof.
  unfold jan1, year_of_day, days_from_civil, civil_from_days.
  cbn [fst snd]. change (1 <=? 2) with true. change (2 <? 1) with false.
  cbv iota. change ((153 * (1 + 9) + 2) / 5 + 1 - 1) with 306.
  set (era := (z + 719468) / 146097).
  set (doe := z + 719468 - era * 146097).
  assert (Hdoe : 0 <= doe < 146097).
  { subst doe era.
    pose proof (Z.div_mod (z + 719468) 146097 ltac:(lia)).
    pose proof (Z.mod_pos_bound (z + 719468) 146097 ltac:(lia)). lia. }
  replace z with (doe + era * 146097 - 719468) by (subst doe; ring).
  clearbody doe. clearbody era. clear z.
  pose proof (year_of_era_bounds doe Hdoe) as Hc. cbv zeta in Hc.
  set (yoe := (doe - doe / 1460 + doe / 36524 - doe / 146096) / 365) in *.
  clearbody yoe.
  set (doy := doe - (365 * yoe + yoe / 4 - yoe / 100)).
  assert (Hdoy : 0 <= doy <= 365).
  { subst doy.
    destruct (yoe =? 399) eqn:E; [apply Z.eqb_eq in E | apply Z.eqb_neq in E];
      Z.to_euclidean_division_equations; lia. }
  set (mp := (5 * doy + 2) / 153).
  assert (Hmp : (mp < 10 <-> doy < 306) /\ 0 <= mp <= 11)
    by (subst mp; Z.to_euclidean_division_equations; lia).
  clearbody mp. destruct Hc as [Hy Hc].
  destruct (mp <? 10) eqn:Emp; [apply Z.ltb_lt in Emp | apply Z.ltb_ge in Emp].
  - replace (mp + 3 <=? 2) with false by (symmetry; apply Z.leb_gt; lia).
    replace (yoe + era * 400 - 1) with (yoe - 1 + era * 400) by ring.
    replace (yoe + era * 400 + 1 - 1) with (yoe + era * 400) by ring.
    rewrite !Z.div_add by lia.
    destruct (yoe =? 399) eqn:E; [apply Z.eqb_eq in E | apply Z.eqb_neq in E];
      subst doy; Z.to_euclidean_division_equations; lia.
  - replace (mp - 9 <=? 2) with true by (symmetry; apply Z.leb_le; lia).
    replace (yoe + era * 400 + 1 - 1) with (yoe + era * 400) by ring.
    replace (yoe + era * 400 + 1 + 1 - 1) with (yoe + 1 + era * 400) by ring.
    rewrite !Z.div_add by lia.
    destruct (yoe =? 399) eqn:E; [apply Z.eqb_eq in E | apply Z.eqb_neq in E];
      subst doy; Z.to_euclidean_division_equations; lia.
Qed.

(** A year has 365 or 366 days and ends on the 31st of December. *)
Lemma year_length_cycle :
  forall_from (fun y => (365 <=? jan1 (y + 1) - jan1 y)
                        && (jan1 (y + 1) - jan1 y <=? 366)
                        && (days_from_civil y 12 31 =? jan1 (y + 1) - 1))
              0 (Z.to_nat 400) = true.
Proof. vm_compute. reflexivity. Qed.

Lemma year_length (y : Z) :
  365 <= jan1 (y + 1) - jan1 y <= 366 /\
  days_from_civil y 12 31 = jan1 (y + 1) - 1.
Proof.
  set (k := y / 400).
  set (r := y - 400 * k).
  assert (Hr : 0 <= r < 0 + Z.of_nat (Z.to_nat 400)).
  { rewrite Z2Nat.id by discriminate.
    pose proof (Z.div_mod y 400 ltac:(lia)) as Hdm.
    pose proof (Z.mod_pos_bound y 400 ltac:(lia)) as Hb.
    fold k in Hdm. subst r. lia. }
  pose proof (forall_from_spec _ _ _ year_length_cycle r Hr) as Hc.
  cbv beta in Hc.
  apply andb_true_iff in Hc. destruct Hc as [Hc H3].
  apply andb_true_iff in Hc. destruct Hc as [H1 H2].
  apply Z.leb_le in H1. apply Z.leb_le in H2. apply Z.eqb_eq in H3.
  replace y with (r + 400 * k) by (subst r; ring).
  replace (r + 400 * k + 1) with (r + 1 + 400 * k) by ring.
  rewrite days_from_civil_shift, !jan1_shift. lia.
Qed.

Lemma jan1_lt_succ (y : Z) : jan1 y < jan1 (y + 1).
Proof. pose proof (year_length y). lia. Qed.

Lemma jan1_mono (y1 y2 : Z) : y1 <= y2 -> jan1 y1 <= jan1 y2.
Proof.
  intros Hle. replace y2 with (y1 + Z.of_nat (Z.to_nat (y2 - y1))) by lia.
  induction (Z.to_nat (y2 - y1)) as [|n IH].
  - rewrite Z.add_0_r. lia.
  - pose proof (jan1_lt_succ (y1 + Z.of_nat n)).
    replace (y1 + Z.of_nat (S n)) with (y1 + Z.of_nat n + 1) by lia. lia.
Qed.

Lemma jan1_lt_mono (y1 y2 : Z) : y1 < y2 -> jan1 y1 < jan1 y2.
Proof.
  intros Hlt. pose proof (jan1_mono (y1 + 1) y2 ltac:(lia)).
  pose proof (jan1_lt_succ y1). lia.
Qed.

(** The days of year [y] are those from its first of January up to the
    day before the next. *)
Lemma year_of_day_iff (z y : Z) :
  year_of_day z = y <-> jan1 y <= z < jan1 (y + 1).
Proof.
  pose proof (year_of_day_bounds z) as Hb.
  split.
  - intros <-. exact Hb.
  - intros Hy.
    destruct (Z.lt_trichotomy (year_of_day z) y) as [Hlt|[Heq|Hgt]]; [|exact Heq|].
    + pose proof (jan1_mono (year_of_day z + 1) y ltac:(lia)). lia.
    + pose proof (jan1_mono (y + 1) (year_of_day z) ltac:(lia)). lia.
Qed.

Lemma year_of_day_mono (z1 z2 : Z) : z1 <= z2 -> year_of_day z1 <= year_of_day z2.
Proof.
  intros Hle.
  pose proof (year_of_day_bounds z1). pose proof (year_of_day_bounds z2).
  destruct (Z_le_gt_dec (year_of_day z1) (year_of_day z2)) as [|Hgt]; [assumption|].
  pose proof (jan1_mono (year_of_day z2 + 1) (year_of_day z1) ltac:(lia)). lia.
Qed.

Lemma day_number_mk_date (y m d : Z) : day_number (mk_date y m d) = days_from_civil y m d.
Proof. unfold day_number, mk_date. apply Z.div_mul. discriminate. Qed.

Lemma day_number_jan1 (y : Z) : day_number (mk_date y 1 1) = jan1 y.
Proof. apply day_number_mk_date. Qed.

Lemma day_number_mono (a b : Timestamp) : a <= b -> day_number a <= day_number b.
Proof. intros. unfold day_number. apply Z.div_le_mono; [reflexivity | assumption]. Qed.

Lemma day_number_max (a b : Timestamp) :
  day_number (Z.max a b) = Z.max (day_number a) (day_number b).
Proof.
  destruct (Z.le_ge_cases a b) as [Hab|Hab].
  - rewrite (Z.max_r a b Hab), Z.max_r; auto using day_number_mono.
  - rewrite (Z.max_l a b Hab), Z.max_l; auto using day_number_mono.
Qed.

Lemma day_number_min (a b : Timestamp) :
  day_number (Z.min a b) = Z.min (day_number a) (day_number b).
Proof.
  destruct (Z.le_ge_cases a b) as [Hab|Hab].
  - rewrite (Z.min_l a b Hab), Z.min_l; auto using day_number_mono.
  - rewrite (Z.min_r a b Hab), Z.min_r; auto using day_number_mono.
Qed.

Lemma Zseq_app (n m : nat) :
  forall a, Zseq a (n + m) = Zseq a n ++ Zseq (a + Z.of_nat n) m.
Proof.
  induction n as [|n IH]; intros a.
  - simpl. now rewrite Z.add_0_r.
  - cbn [Nat.add Zseq app]. rewrite IH. do 3 f_equal. lia.
Qed.

Lemma Zseq_length (n : nat) : forall a, List.length (Zseq a n) = n.
Proof. induction n; intros; simpl; auto. Qed.

Lemma Zseq_In (n : nat) : forall a z, In z (Zseq a n) <-> a <= z < a + Z.of_nat n.
Proof.
  induction n as [|n IH]; intros a z.
  - simpl. lia.
  - cbn [Zseq In]. rewrite IH. lia.
Qed.

Lemma Zseq_NoDup (n : nat) : forall a, NoDup (Zseq a n).
Proof.
  induction n as [|n IH]; intros a; simpl; constructor; auto.
  rewrite Zseq_In. lia.
Qed.

Lemma Zrange_app (a b c : Z) :
  a <= b + 1 -> b <= c -> Zrange a b ++ Zrange (b + 1) c = Zrange a c.
Proof.
  intros Hab Hbc. unfold Zrange.
  replace (Z.to_nat (c - a + 1)) with (Z.to_nat (b - a + 1) + Z.to_nat (c - (b + 1) + 1))%nat by lia.
  rewrite Zseq_app. do 2 f_equal. lia.
Qed.

Lemma Zrange_In (a b z : Z) : In z (Zrange a b) <-> a <= z <= b.
Proof. unfold Zrange. rewrite Zseq_In. lia. Qed.

End CalendarFacts.

(* ================================================================== *)
(** ** The range chunker *)

Module ChunkerFacts.
Import Calendar CalendarFacts ApiXgbData.

Lemma year_loop_length (n : nat) :
  forall start end_ y, List.length (year_loop n start end_ y) = n.
Proof. induction n; intros; simpl; auto. Qed.

Lemma year_loop_nth (n : nat) :
  forall start end_ y i c,
    nth_error (year_loop n start end_ y) i = Some c ->
    c = (Z.max start (mk_date (y + Z.of_nat i) 1 1),
         Z.min end_ (mk_date (y + Z.of_nat i) 12 31)).
Proof.
  induction n as [|n IH]; intros start end_ y i c Hnth.
  - destruct i; discriminate.
  - destruct i as [|i]; cbn [year_loop nth_error] in Hnth.
    + injection Hnth as <-. now rewrite Z.add_0_r.
    + apply IH in Hnth. subst c. do 3 f_equal; lia.
Qed.

(** The day span of the chunk of year [y]. *)
Lemma day_span_chunk (start end_ : Timestamp) (y : Z) :
  day_span (Z.max start (mk_date y 1 1), Z.min end_ (mk_date y 12 31)) =
  Zrange (Z.max (day_number start) (jan1 y))
         (Z.min (day_number end_) (jan1 (y + 1) - 1)).
Proof.
  unfold day_span. cbn [fst snd].
  rewrite day_number_max, day_number_min, day_number_jan1, day_number_mk_date.
  now rewrite (proj2 (year_length y)).
Qed.

(** The loop invariant: the chunks of the years [y .. end.year] cover
    the days from the later of [start] and the first of January of [y]
    up to [end]. *)
Lemma year_loop_days (n : nat) :
  forall start end_ y,
    day_number start < jan1 (y + 1) ->
    day_number start <= day_number end_ ->
    year end_ = y + Z.of_nat n ->
    concat (map day_span (year_loop (S n) start end_ y)) =
    Zrange (Z.max (day_number start) (jan1 y)) (day_number end_).
Proof.
  induction n as [|n IH]; intros start end_ y Hs Hle Hye.
  - cbn [year_loop map concat]. rewrite app_nil_r, day_span_chunk.
    pose proof (year_of_day_bounds (day_number end_)) as Hb.
    change (year_of_day (day_number end_)) with (year end_) in Hb.
    rewrite Hye, Z.add_0_r in Hb.
    f_equal. lia.
  - remember (S n) as m eqn:Hm.
    cbn [year_loop map concat]. rewrite day_span_chunk.
    rewrite (IH start end_ (y + 1)); subst m.
    + pose proof (year_of_day_bounds (day_number end_)) as Hb.
      change (year_of_day (day_number end_)) with (year end_) in Hb.
      pose proof (jan1_mono (y + 1) (year end_) ltac:(lia)) as Hm.
      pose proof (jan1_lt_succ y) as Hy.
      rewrite (Z.min_r (day_number end_) (jan1 (y + 1) - 1)) by lia.
      rewrite (Z.max_r (day_number start) (jan1 (y + 1))) by lia.
      replace (jan1 (y + 1)) with (jan1 (y + 1) - 1 + 1) at 2 by ring.
      apply Zrange_app; lia.
    + pose proof (jan1_lt_succ (y + 1)). lia.
    + exact Hle.
    + lia.
Qed.

(** The chunks of a valid range: one per year, clipped, covering the
    days of the range in order. *)
Lemma year_chunks_cover (start end_ : Timestamp) :
  start <= end_ ->
  Z.of_nat (List.length (year_chunks_ts start end_)) = year end_ - year start + 1
  /\ (forall i c, nth_error (year_chunks_ts start end_) i = Some c ->
        let y := year start + Z.of_nat i in
        year start <= y <= year end_
        /\ c = (Z.max start (mk_date y 1 1), Z.min end_ (mk_date y 12 31))
        /\ year (fst c) = y /\ year (snd c) = y
        /\ day_number (fst c) <= day_number (snd c))
  /\ concat (map day_span (year_chunks_ts start end_))
     = Zrange (day_number start) (day_number end_).
Proof.
  intros Hle.
  pose proof (day_number_mono _ _ Hle) as Hd.
  pose proof (year_of_day_mono _ _ Hd) as Hy.
  pose proof (year_of_day_bounds (day_number start)) as Hbs.
  pose proof (year_of_day_bounds (day_number end_)) as Hbe.
  unfold year_chunks_ts, year.
  set (ys := year_of_day (day_number start)) in *.
  set (ye := year_of_day (day_number end_)) in *.
  assert (Hn : Z.to_nat (ye - ys + 1) = S (Z.to_nat (ye - ys))) by lia.
  split; [rewrite year_loop_length; lia|].
  split.
  - intros i c Hnth. set (y := ys + Z.of_nat i).
    assert (Hi : (i < Z.to_nat (ye - ys + 1))%nat).
    { rewrite <- (year_loop_length (Z.to_nat (ye - ys + 1)) start end_ ys).
      apply nth_error_Some. congruence. }
    apply year_loop_nth in Hnth. fold y in Hnth.
    assert (Hyr : ys <= y <= ye) by (subst y; lia).
    pose proof (jan1_mono (ys + 1) (y + 1) ltac:(lia)).
    pose proof (jan1_mono y ye ltac:(lia)).
    pose proof (jan1_lt_succ y).
    pose proof (proj2 (year_length y)) as Hdec.
    split; [exact Hyr|]. split; [exact Hnth|].
    rewrite Hnth. cbn [fst snd].
    rewrite day_number_max, day_number_min, day_number_jan1,
      day_number_mk_date, Hdec.
    split; [apply year_of_day_iff; lia|].
    split; [apply year_of_day_iff; lia|]. lia.
  - rewrite Hn, year_loop_days; [f_equal; lia | lia | exact Hd |].
    unfold year. fold ye. lia.
Qed.

(** The scenario of the specification. *)
Lemma make_year_chunks_scenario :
  make_year_chunks (mk_date 2024 1 1) (mk_date 2025 9 16)
  = [("2024-01-01", "2024-12-31"); ("2025-01-01", "2025-09-16")]%string.
Proof. vm_compute. reflexivity. Qed.

Lemma scenario_range_valid : mk_date 2024 1 1 <= mk_date 2025 9 16.
Proof. vm_compute. discriminate. Qed.

(** C4.  For a date range with [start <= end], [make_year_chunks]
    returns one chunk per calendar year from [start.year] to
    [end.year], in order; the chunk of year [y] is the range clipped to
    that year ([max(start, Jan 1 y)], [min(end, Dec 31 y)]), lies
    within [y] and is not empty; the days of the chunks, one chunk after
    the other, are exactly the days of the range, each once; and
    chunking 2024-01-01..2025-09-16 gives the two chunks of the
    scenario. *)
Theorem make_year_chunks_partition (start end_ : Timestamp) :
  start <= end_ ->
  (make_year_chunks start end_
    = map (fun c => (strftime_ymd (fst c), strftime_ymd (snd c)))
          (year_chunks_ts start end_)
   /\ Z.of_nat (List.length (year_chunks_ts start end_))
      = year end_ - year start + 1
   /\ (forall i c, nth_error (year_chunks_ts start end_) i = Some c ->
         let y := year start + Z.of_nat i in
         year start <= y <= year end_
         /\ c = (Z.max start (mk_date y 1 1), Z.min end_ (mk_date y 12 31))
         /\ year (fst c) = y /\ year (snd c) = y
         /\ day_number (fst c) <= day_number (snd c))
   /\ concat (map day_span (year_chunks_ts start end_))
      = Zrange (day_number start) (day_number end_)
   /\ NoDup (concat (map day_span (year_chunks_ts start end_))))
  /\ make_year_chunks (mk_date 2024 1 1) (mk_date 2025 9 16)
     = [("2024-01-01", "2024-12-31"); ("2025-01-01", "2025-09-16")]%string.
Proof.
  intros Hle.
  destruct (year_chunks_cover start end_ Hle) as (Hlen & Hnth & Hdays).
  split; [|exact make_year_chunks_scenario].
  split; [reflexivity|].
  split; [exact Hlen|].
  split; [exact Hnth|].
  split; [exact Hdays|].
  rewrite Hdays. apply Zseq_NoDup.
Qed.

(** The theorem at the range of the scenario. *)
Lemma make_year_chunks_partition_witness :
  mk_date 2024 1 1 <= mk_date 2025 9 16
  /\ make_year_chunks (mk_date 2024 1 1) (mk_date 2025 9 16)
     = [("2024-01-01", "2024-12-31"); ("2025-01-01", "2025-09-16")]%string.
Proof.
  split; [exact scenario_range_valid|].
  exact (proj2 (make_year_chunks_partition _ _ scenario_range_valid)).
Defined.

End ChunkerFacts.

(* ================================================================== *)
(** ** The normalizer *)

Module NormalizerFacts.
Import Calendar CalendarFacts ApiXgbData.

(** *** Sorting *)

Lemma insert_by_time_perm (r : Obs) (l : Table) :
  Permutation (insert_by_time r l) (r :: l).
Proof.
  induction l as [|x l IH]; simpl; [reflexivity|].
  destruct (time r <=? time x); [reflexivity|].
  rewrite IH. apply perm_swap.
Qed.

Lemma sort_values_perm (l : Table) : Permutation (sort_values l) l.
Proof.
  induction l as [|r l IH]; simpl; [reflexivity|].
  rewrite insert_by_time_perm. now constructor.
Qed.

Lemma insert_by_time_sorted (r : Obs) (l : Table) :
  StronglySorted by_time l -> StronglySorted by_time (insert_by_time r l).
Proof.
  induction 1 as [|x l Hs IH Hx]; simpl.
  - repeat constructor.
  - destruct (time r <=? time x) eqn:E.
    + apply Z.leb_le in E. constructor; [now constructor|].
      constructor; [exact E|].
      eapply Forall_impl; [|exact Hx]. unfold by_time. intros; lia.
    + apply Z.leb_gt in E. constructor; [exact IH|].
      apply (Permutation_Forall (Permutation_sym (insert_by_time_perm r l))).
      constructor; [unfold by_time; lia | exact Hx].
Qed.

Lemma sort_values_sorted (l : Table) : StronglySorted by_time (sort_values l).
Proof.
  induction l; simpl; [constructor | now apply insert_by_time_sorted].
Qed.

(** *** Dropping duplicated timestamps *)

Lemma drop_dup_from_In (l : Table) :
  forall seen row, In row (drop_dup_from seen l) ->
                   In row l /\ ~ In (time row) seen.
Proof.
  induction l as [|r l IH]; intros seen row Hin; simpl in *; [contradiction|].
  destruct (existsb (Z.eqb (time r)) seen) eqn:E.
  - apply IH in Hin. tauto.
  - apply existsb_eqb_notIn in E. destruct Hin as [<-|Hin]; [tauto|].
    apply IH in Hin. simpl in Hin. tauto.
Qed.

Lemma drop_dup_from_NoDup (l : Table) :
  forall seen, NoDup (times (drop_dup_from seen l)).
Proof.
  induction l as [|r l IH]; intros seen; simpl; [constructor|].
  destruct (existsb (Z.eqb (time r)) seen); [apply IH|].
  cbn [times map]. constructor; [|apply IH].
  intros Hin. apply in_map_iff in Hin. destruct Hin as (row & Heq & Hin).
  apply drop_dup_from_In in Hin. simpl in Hin. intuition congruence.
Qed.

Lemma drop_dup_from_complete (l : Table) :
  forall seen t, In t (times l) -> ~ In t seen ->
                 In t (times (drop_dup_from seen l)).
Proof.
  induction l as [|r l IH]; intros seen t Hin Hseen; simpl in *; [contradiction|].
  destruct (existsb (Z.eqb (time r)) seen) eqn:E.
  - apply existsb_eqb_In in E. destruct Hin as [<-|Hin]; [contradiction|].
    now apply IH.
  - cbn [times map In]. destruct (Z.eq_dec (time r) t) as [Heq|Hne]; [now left|].
    right. destruct Hin as [Heq|Hin]; [contradiction|].
    apply IH; [assumption|]. simpl. tauto.
Qed.

(** The rows that are dropped: each repeats a timestamp that was seen
    before or that is kept. *)
Lemma drop_dup_from_removed (l : Table) :
  forall seen, exists removed,
    Permutation l (drop_dup_from seen l ++ removed) /\
    forall x, In x removed ->
      In (time x) seen \/ In (time x) (times (drop_dup_from seen l)).
Proof.
  induction l as [|r l IH]; intros seen; simpl.
  - exists []. split; [reflexivity | contradiction].
  - destruct (existsb (Z.eqb (time r)) seen) eqn:E.
    + apply existsb_eqb_In in E.
      destruct (IH seen) as (removed & Hperm & Hrem).
      exists (r :: removed). split.
      * rewrite <- Permutation_middle. now constructor.
      * intros x [<-|Hx]; [now left | now apply Hrem].
    + destruct (IH (time r :: seen)) as (removed & Hperm & Hrem).
      exists removed. split; [simpl; now constructor|].
      intros x Hx. cbn [times map In].
      destruct (Hrem x Hx) as [[Heq|Hs]|Hk]; tauto.
Qed.

Lemma drop_dup_from_Forall (P : Obs -> Prop) (l : Table) (seen : list Timestamp) :
  Forall P l -> Forall P (drop_dup_from seen l).
Proof.
  rewrite !Forall_forall. intros HP row Hin.
  apply drop_dup_from_In in Hin. now apply HP.
Qed.

Lemma drop_dup_from_sorted (l : Table) :
  forall seen, StronglySorted by_time l ->
               StronglySorted by_time (drop_dup_from seen l).
Proof.
  induction l as [|r l IH]; intros seen Hs; simpl; [constructor|].
  inversion Hs as [|? ? Hs' Hr]; subst.
  destruct (existsb (Z.eqb (time r)) seen); [now apply IH|].
  constructor; [now apply IH | now apply drop_dup_from_Forall].
Qed.

(** A kept row is the first row of the table that carries its
    timestamp. *)
Lemma drop_dup_from_first (l : Table) :
  forall seen row, In row (drop_dup_from seen l) ->
    exists l1 l2, l = l1 ++ row :: l2 /\
                  forall x, In x l1 -> time x <> time row.
Proof.
  induction l as [|r l IH]; intros seen row Hin; simpl in *; [contradiction|].
  destruct (existsb (Z.eqb (time r)) seen) eqn:E.
  - apply existsb_eqb_In in E.
    pose proof (drop_dup_from_In _ _ _ Hin) as [_ Hns].
    destruct (IH _ _ Hin) as (l1 & l2 & -> & Hl1).
    exists (r :: l1), l2. split; [reflexivity|].
    intros x [<-|Hx]; [|now apply Hl1].
    intros Heq. apply Hns. now rewrite <- Heq.
  - destruct Hin as [<-|Hin].
    + exists [], l. split; [reflexivity | contradiction].
    + pose proof (drop_dup_from_In _ _ _ Hin) as [_ Hns].
      destruct (IH _ _ Hin) as (l1 & l2 & -> & Hl1).
      exists (r :: l1), l2. split; [reflexivity|].
      intros x [<-|Hx]; [|now apply Hl1].
      intros Heq. apply Hns. now left.
Qed.

(** Sorted rows with pairwise distinct timestamps increase strictly. *)
Lemma sorted_NoDup_strict (l : Table) :
  StronglySorted by_time l -> NoDup (times l) ->
  StronglySorted Z.lt (times l).
Proof.
  induction 1 as [|x l Hs IH Hx]; intros Hnd; cbn [times map]; [constructor|].
  inversion Hnd as [|? ? Hnin Hnd']; subst.
  constructor; [now apply IH|].
  apply Forall_forall. intros t Ht.
  apply in_map_iff in Ht. destruct Ht as (row & <- & Hrow).
  rewrite Forall_forall in Hx. specialize (Hx row Hrow). unfold by_time in Hx.
  assert (time x <> time row) by (intros Heq; apply Hnin; rewrite Heq; now apply in_map).
  lia.
Qed.

Lemma sorted_is_monotonic (l : Table) :
  StronglySorted by_time l -> is_monotonic_increasing (times l) = true.
Proof.
  induction 1 as [|x l Hs IH Hx]; [reflexivity|].
  destruct l as [|y l]; [reflexivity|].
  change (is_monotonic_increasing (times (x :: y :: l)))
    with ((time x <=? time y) && is_monotonic_increasing (times (y :: l))).
  rewrite IH, andb_true_r. apply Z.leb_le.
  inversion Hx; subst. assumption.
Qed.

(** *** The hour assertion *)

Lemma hour_range (t : Timestamp) : 0 <= hour t < 24.
Proof.
  unfold hour, NS_PER_DAY.
  pose proof (Z.mod_pos_bound t (24 * NS_PER_HOUR) ltac:(reflexivity)) as Hb.
  unfold NS_PER_HOUR in *.
  split; [apply Z.div_pos; lia | apply Z.div_lt_upper_bound; lia].
Qed.

Lemma hour_isin_range24 (t : Timestamp) :
  existsb (Z.eqb (hour t)) range24 = true.
Proof.
  apply existsb_eqb_In. unfold range24.
  apply in_map_iff. exists (Z.to_nat (hour t)).
  pose proof (hour_range t).
  split; [lia | apply in_seq; lia].
Qed.

(** Whatever the timestamps are, the assertion on the hours holds. *)
Lemma hours_isin_range24_always (ts : list Timestamp) :
  hours_isin_range24 ts = true.
Proof.
  unfold hours_isin_range24. apply forallb_forall.
  intros t _. apply hour_isin_range24.
Qed.

(** *** The merge step as a whole *)

(** With at least one fetched part, neither assertion fails and the
    step returns the sorted table without its duplicated timestamps. *)
Lemma normalize_nonempty (dfs : list Table) :
  dfs <> [] ->
  normalize dfs =
  Ok (mkNormalized
        (drop_duplicates (sort_values (concat dfs)))
        (Z.of_nat (List.length (sort_values (concat dfs)))
         - Z.of_nat (List.length (drop_duplicates (sort_values (concat dfs)))))
        (count_bad_steps (times (drop_duplicates (sort_values (concat dfs)))))).
Proof.
  intros Hne. unfold normalize.
  destruct dfs as [|d dfs]; [contradiction|]. cbn [List.length Nat.eqb].
  rewrite sorted_is_monotonic
    by (apply drop_dup_from_sorted, sort_values_sorted).
  rewrite hours_isin_range24_always. reflexivity.
Qed.

(** C7.  For every non-empty collection of input tables the merge step
    succeeds; its output increases strictly in time (sorted ascending,
    no timestamp twice); it is the sorted concatenation with some rows
    removed, every removed row repeating a timestamp that is kept; each
    kept row is the first row of the sorted table with its timestamp;
    the reported count is the number of removed rows; and when exactly
    one timestamp occurs twice among the inputs the output has one row
    fewer and the reported count is 1. *)
Theorem normalize_sorted_dedup (dfs : list Table) :
  dfs <> [] ->
  exists r removed,
    normalize dfs = Ok r
    /\ StronglySorted Z.lt (times (df_all r))
    /\ NoDup (times (df_all r))
    /\ Permutation (concat dfs) (df_all r ++ removed)
    /\ (forall x, In x removed -> In (time x) (times (df_all r)))
    /\ (forall row, In row (df_all r) ->
          exists l1 l2, sort_values (concat dfs) = l1 ++ row :: l2
                        /\ forall x, In x l1 -> time x <> time row)
    /\ dropped r = Z.of_nat (List.length removed)
    /\ (forall t l, Permutation (times (concat dfs)) (t :: l) ->
          NoDup l -> In t l ->
          List.length (df_all r) = (List.length (concat dfs) - 1)%nat
          /\ dropped r = 1).
Proof.
  intros Hne. rewrite (normalize_nonempty dfs Hne).
  set (df0 := sort_values (concat dfs)).
  pose proof (sort_values_perm (concat dfs)) as Hperm. fold df0 in Hperm.
  pose proof (sort_values_sorted (concat dfs)) as Hsorted. fold df0 in Hsorted.
  unfold drop_duplicates.
  set (df1 := drop_dup_from [] df0).
  pose proof (drop_dup_from_NoDup df0 []) as Hnd. fold df1 in Hnd.
  destruct (drop_dup_from_removed df0 []) as (removed & Hrem & Hwhy).
  fold df1 in Hrem, Hwhy.
  assert (Hlen : Z.of_nat (List.length df0) - Z.of_nat (List.length df1)
                 = Z.of_nat (List.length removed)).
  { rewrite (Permutation_length Hrem), length_app. lia. }
  exists (mkNormalized df1 (Z.of_nat (List.length df0) - Z.of_nat (List.length df1))
                       (count_bad_steps (times df1))), removed.
  cbn [df_all dropped].
  split; [reflexivity|].
  split; [apply sorted_NoDup_strict; [now apply drop_dup_from_sorted | exact Hnd]|].
  split; [exact Hnd|].
  split; [now rewrite <- Hrem, Hperm|].
  split; [intros x Hx; destruct (Hwhy x Hx) as [[]|Hk]; exact Hk|].
  split; [intros row Hrow; now apply (drop_dup_from_first df0 [])|].
  split; [exact Hlen|].
  intros t l Hpt Hndl Htl.
  assert (Hsame : Permutation (times df1) l).
  { apply NoDup_Permutation; [exact Hnd | exact Hndl|]. intros x. split.
    - intros Hx. apply in_map_iff in Hx. destruct Hx as (row & <- & Hrow).
      apply drop_dup_from_In in Hrow. destruct Hrow as [Hrow _].
      assert (Hin : In (time row) (t :: l)).
      { apply (Permutation_in _ Hpt). apply in_map.
        now apply (Permutation_in _ Hperm). }
      destruct Hin as [<-|Hin]; assumption.
    - intros Hx. apply drop_dup_from_complete; [|intros []].
      apply (Permutation_in _ (Permutation_map time (Permutation_sym Hperm))).
      apply (Permutation_in _ (Permutation_sym Hpt)). now right. }
  apply Permutation_length in Hsame. unfold times in Hsame.
  rewrite length_map in Hsame.
  apply Permutation_length in Hpt. unfold times in Hpt.
  rewrite length_map in Hpt. cbn [List.length] in Hpt.
  apply Permutation_length in Hperm.
  split; lia.
Qed.

Lemma normalize_sorted_dedup_witness :
  exists r removed,
    normalize [part_a; part_b] = Ok r
    /\ StronglySorted Z.lt (times (df_all r))
    /\ NoDup (times (df_all r))
    /\ Permutation (concat [part_a; part_b]) (df_all r ++ removed)
    /\ (forall x, In x removed -> In (time x) (times (df_all r)))
    /\ (forall row, In row (df_all r) ->
          exists l1 l2, sort_values (concat [part_a; part_b]) = l1 ++ row :: l2
                        /\ forall x, In x l1 -> time x <> time row)
    /\ dropped r = Z.of_nat (List.length removed)
    /\ (forall t l, Permutation (times (concat [part_a; part_b])) (t :: l) ->
          NoDup l -> In t l ->
          List.length (df_all r) = (List.length (concat [part_a; part_b]) - 1)%nat
          /\ dropped r = 1).
Proof.
  apply (normalize_sorted_dedup [part_a; part_b]). discriminate.
Defined.

(** C5.  The table holding the single timestamp 2024-01-01 00:30, which
    is not on an hour boundary, passes the merge step: the assertion
    "There are non-hourly timestamps." compares the hour of each
    timestamp with [range(24)], which holds whatever the minutes are;
    the step raises nothing but the error for an empty collection. *)
Theorem normalize_accepts_off_hour :
  ~ on_hour_boundary half_past
  /\ minute half_past = 30
  /\ normalize [[mkObs half_past (Some 1%Q)]]
     = Ok (mkNormalized [mkObs half_past (Some 1%Q)] 0 0)
  /\ (forall ts, Forall on_hour_boundary ts -> hours_isin_range24 ts = true)
  /\ (forall dfs e, normalize dfs = Raise e ->
        dfs = [] /\ e = RuntimeError "No data fetched. Please check your ranges.").
Proof.
  split; [unfold on_hour_boundary; vm_compute; discriminate|].
  split; [vm_compute; reflexivity|].
  split; [vm_compute; reflexivity|].
  split; [intros ts _; apply hours_isin_range24_always|].
  intros dfs e Hraise. destruct dfs as [|d dfs].
  - cbn in Hraise. injection Hraise as <-. split; reflexivity.
  - rewrite normalize_nonempty in Hraise by discriminate. discriminate.
Qed.

End NormalizerFacts.

(* ================================================================== *)
(** ** Frames *)

Module FrameFacts.
Import Calendar BuildFeatures.

Lemma get_col_setitem (df : DataFrame) (c c' : string) (s : Series) :
  get_col (setitem df c s) c' = if String.eqb c c' then Some s else get_col df c'.
Proof.
  induction df as [|[k v] df IH]; simpl.
  - reflexivity.
  - destruct (String.eqb k c) eqn:Ekc; simpl.
    + apply String.eqb_eq in Ekc. subst k.
      destruct (String.eqb c c'); reflexivity.
    + destruct (String.eqb k c') eqn:Ekc'.
      * apply String.eqb_eq in Ekc'. subst k. now rewrite String.eqb_sym, Ekc.
      * exact IH.
Qed.

Lemma get_col_setitem_same (df : DataFrame) (c : string) (s : Series) :
  get_col (setitem df c s) c = Some s.
Proof. now rewrite get_col_setitem, String.eqb_refl. Qed.

(** Writing to a column the value it holds changes nothing. *)
Lemma setitem_same (df : DataFrame) (c : string) (s : Series) :
  get_col df c = Some s -> setitem df c s = df.
Proof.
  induction df as [|[k v] df IH]; simpl; [discriminate|].
  destruct (String.eqb k c); intros Hget.
  - now injection Hget as ->.
  - now rewrite IH.
Qed.

Lemma has_column_get_col (df : DataFrame) (c : string) :
  has_column df c = true <-> exists s, get_col df c = Some s.
Proof.
  unfold has_column, columns.
  induction df as [|[k v] df IH]; simpl.
  - split; [discriminate | intros [? ?]; discriminate].
  - rewrite (String.eqb_sym c k). destruct (String.eqb k c); simpl.
    + split; [eauto | reflexivity].
    + exact IH.
Qed.

Lemma columns_setitem (df : DataFrame) (c : string) (s : Series) :
  columns (setitem df c s) =
  if has_column df c then columns df else columns df ++ [c].
Proof.
  unfold has_column, columns.
  induction df as [|[k v] df IH]; simpl; [reflexivity|].
  rewrite (String.eqb_sym c k). destruct (String.eqb k c); simpl.
  - reflexivity.
  - rewrite IH. now destruct (existsb _ _).
Qed.

Lemma getitem_Ok (df : DataFrame) (c : string) (s : Series) :
  getitem df c = Ok s <-> get_col df c = Some s.
Proof.
  unfold getitem. destruct (get_col df c); split; intros Heq;
    try discriminate; now injection Heq as ->.
Qed.

Section TimeFeatureFacts.
Context `{Numpy}.

(** [add_time_features], in closed form. *)
Lemma add_time_features_eq (df : DataFrame) (ts_col : string) :
  add_time_features df ts_col =
  (col <- getitem df ts_col ;;
   ts <- to_datetime col ;;
   Ok (with_time_features ts df)).
Proof.
  unfold add_time_features, with_time_features.
  destruct (getitem df ts_col) as [col|e]; [|reflexivity]. cbn [bind].
  destruct (to_datetime col) as [ts|e]; [|reflexivity]. cbn [bind].
  unfold getitem.
  repeat (rewrite !get_col_setitem; cbn [String.eqb Ascii.eqb Bool.eqb bind to_float]).
  reflexivity.
Qed.

Lemma add_time_features_Ok (df out : DataFrame) (ts_col : string) :
  add_time_features df ts_col = Ok out <->
  exists ts, get_col df ts_col = Some (STime ts) /\ out = with_time_features ts df.
Proof.
  rewrite add_time_features_eq. unfold getitem.
  destruct (get_col df ts_col) as [[ts|v|v]|]; cbn [bind to_datetime]; split;
    try discriminate;
    try (intros (ts' & Hget & _); discriminate).
  - intros Heq. injection Heq as <-. eauto.
  - intros (ts' & Hget & ->). now injection Hget as ->.
Qed.

(** The columns [with_time_features] writes hold what it wrote; the
    others are untouched. *)
Lemma get_col_with_time_features (ts : list Timestamp) (df : DataFrame) (c : string) :
  get_col (with_time_features ts df) c =
  if existsb (String.eqb c) time_feature_names
  then get_col (with_time_features ts []) c
  else get_col df c.
Proof.
  unfold with_time_features, time_feature_names.
  rewrite !get_col_setitem. cbn [existsb].
  rewrite !(String.eqb_sym c).
  repeat match goal with
         | |- context [String.eqb ?a c] =>
             is_ground a; destruct (String.eqb a c); cbn [orb]; [reflexivity|]
         end.
  reflexivity.
Qed.

Lemma with_time_features_twice (ts : list Timestamp) (df : DataFrame) :
  with_time_features ts (with_time_features ts df) = with_time_features ts df.
Proof.
  set (out := with_time_features ts df).
  unfold with_time_features at 1.
  cbv zeta.
  repeat (rewrite (setitem_same out) by
            (subst out; unfold with_time_features;
             rewrite !get_col_setitem; reflexivity)).
  reflexivity.
Qed.

(** C8.  On a frame whose time column holds the timestamps [ts] (and is
    not itself one of the seven feature columns), [add_time_features]
    succeeds; applied again to its own output it returns that output
    unchanged; the seven feature columns are the same for any two frames
    with the same time column; and every other column of the input is
    left as it was. *)
Theorem add_time_features_idempotent (df : DataFrame) (ts_col : string)
    (ts : list Timestamp) :
  existsb (String.eqb ts_col) time_feature_names = false ->
  get_col df ts_col = Some (STime ts) ->
  exists out,
    add_time_features df ts_col = Ok out
    /\ add_time_features out ts_col = Ok out
    /\ (forall df' out',
          get_col df' ts_col = Some (STime ts) ->
          add_time_features df' ts_col = Ok out' ->
          forall c, In c time_feature_names -> get_col out' c = get_col out c)
    /\ (forall c, In c time_feature_names -> exists s, get_col out c = Some s)
    /\ (forall c, ~ In c time_feature_names -> get_col out c = get_col df c).
Proof.
  intros Hcol Hget.
  assert (Hin : forall c, In c time_feature_names ->
                          existsb (String.eqb c) time_feature_names = true).
  { intros c Hc. apply existsb_exists. exists c. split; [exact Hc|].
    apply String.eqb_refl. }
  exists (with_time_features ts df).
  split; [apply add_time_features_Ok; eauto|].
  split.
  { apply add_time_features_Ok. exists ts. split.
    - now rewrite get_col_with_time_features, Hcol.
    - symmetry. apply with_time_features_twice. }
  split.
  { intros df' out' Hget' Hout' c Hc.
    apply add_time_features_Ok in Hout'. destruct Hout' as (ts' & Hts' & ->).
    rewrite Hget' in Hts'. injection Hts' as <-.
    rewrite (get_col_with_time_features ts df'), (get_col_with_time_features ts df).
    now rewrite (Hin c Hc). }
  split.
  { intros c Hc. rewrite get_col_with_time_features, (Hin c Hc).
    unfold time_feature_names in Hc. cbn [In] in Hc.
    decompose [or] Hc; try contradiction; subst c; eexists; reflexivity. }
  intros c Hc. rewrite get_col_with_time_features.
  destruct (existsb (String.eqb c) time_feature_names) eqn:E; [|reflexivity].
  exfalso. apply Hc. apply existsb_exists in E. destruct E as (x & Hx & Heq).
  apply String.eqb_eq in Heq. now subst.
Qed.

End TimeFeatureFacts.

(** The theorem at a frame of two rows. *)
Lemma add_time_features_idempotent_witness :
  exists out,
    @add_time_features sample_numpy two_rows "time" = Ok out
    /\ @add_time_features sample_numpy out "time" = Ok out.
Proof.
  destruct (@add_time_features_idempotent sample_numpy two_rows "time"
              [fall_back; fall_back + hours 1] eq_refl eq_refl)
    as (out & Hrun & Hagain & _).
  exists out. split; assumption.
Defined.

End FrameFacts.

(* ================================================================== *)
(** ** The inference frame and the cadence check *)

Module CadenceFacts.
Import Calendar CalendarFacts BuildFeatures FrameFacts.

(** The steps of a column, by position. *)
Lemma diff_In (ts : list Timestamp) (d : Timedelta) :
  In d (diff ts) <->
  exists i a b, nth_error ts i = Some a /\ nth_error ts (S i) = Some b
                /\ d = b - a.
Proof.
  induction ts as [|a ts IH]; [|destruct ts as [|b ts]].
  - simpl. split; [contradiction|]. intros (i & a & b & Ha & _). destruct i; discriminate.
  - simpl. split; [contradiction|]. intros (i & x & y & _ & Hb & _).
    destruct i as [|[|i]]; discriminate.
  - change (diff (a :: b :: ts)) with ((b - a) :: diff (b :: ts)).
    cbn [In]. rewrite IH. split.
    + intros [<-|(i & x & y & Hx & Hy & ->)].
      * exists O, a, b. repeat split.
      * exists (S i), x, y. repeat split; assumption.
    + intros (i & x & y & Hx & Hy & ->). destruct i as [|i].
      * left. cbn in Hx, Hy. congruence.
      * right. exists i, x, y. repeat split; assumption.
Qed.

Lemma is_monotonic_increasing_iff (ts : list Timestamp) :
  is_monotonic_increasing ts = true <-> forall d, In d (diff ts) -> 0 <= d.
Proof.
  induction ts as [|a ts IH]; [|destruct ts as [|b ts]].
  - simpl. split; [contradiction | reflexivity].
  - simpl. split; [contradiction | reflexivity].
  - change (is_monotonic_increasing (a :: b :: ts))
      with ((a <=? b) && is_monotonic_increasing (b :: ts)).
    change (diff (a :: b :: ts)) with ((b - a) :: diff (b :: ts)).
    rewrite andb_true_iff, IH, Z.leb_le. cbn [In]. split.
    + intros [Hab Hrest] d [<-|Hd]; [lia | now apply Hrest].
    + intros Hall. split; [specialize (Hall (b - a) (or_introl eq_refl)); lia|].
      intros d Hd. apply Hall. now right.
Qed.

Lemma unique_from_In (l : list Z) :
  forall seen d, In d (unique_from seen l) <-> In d l /\ ~ In d seen.
Proof.
  induction l as [|x l IH]; intros seen d; simpl; [tauto|].
  destruct (existsb (Z.eqb x) seen) eqn:E.
  - apply existsb_eqb_In in E. rewrite IH. split; [tauto|].
    intros [[<-|Hd] Hns]; tauto.
  - assert (Hx : ~ In x seen) by (rewrite <- existsb_eqb_In, E; discriminate).
    cbn [In]. rewrite IH. cbn [In]. split.
    + intros [<-|[Hd Hns]]; tauto.
    + intros [[<-|Hd] Hns]; [now left|].
      destruct (Z.eq_dec x d) as [->|Hne]; [now left | right; tauto].
Qed.

Lemma issubset_unique_allowed (l : list Z) :
  issubset (unique l) allowed = true <->
  forall d, In d l -> d = hours 1 \/ d = 0.
Proof.
  unfold issubset, unique. rewrite forallb_forall. split.
  - intros Hall d Hd.
    specialize (Hall d ltac:(apply unique_from_In; split; [exact Hd | intros []])).
    apply existsb_eqb_In in Hall. unfold allowed in Hall. cbn [In] in Hall.
    intuition auto.
  - intros Hall d Hd. apply unique_from_In in Hd. destruct Hd as [Hd _].
    apply existsb_eqb_In. unfold allowed. cbn [In].
    destruct (Hall d Hd); auto.
Qed.

Lemma steps_hourly_or_zero_diff (ts : list Timestamp) :
  steps_hourly_or_zero ts <-> forall d, In d (diff ts) -> d = hours 1 \/ d = 0.
Proof.
  unfold steps_hourly_or_zero. split.
  - intros Hs d Hd. apply diff_In in Hd. destruct Hd as (i & a & b & Ha & Hb & ->).
    exact (Hs i a b Ha Hb).
  - intros Hall i a b Ha Hb. apply Hall. apply diff_In.
    exists i, a, b. repeat split; assumption.
Qed.

(** [check_hourly] on a frame with a time column: it accepts when every
    step is one hour or zero and raises a [ValueError] when not. *)
Lemma check_hourly_spec (df : DataFrame) (ts_col : string) (ts : list Timestamp) :
  get_col df ts_col = Some (STime ts) ->
  (check_hourly df ts_col = Ok tt <-> steps_hourly_or_zero ts)
  /\ (check_hourly df ts_col = Ok tt
      \/ exists msg, check_hourly df ts_col = Raise (ValueError msg)).
Proof.
  intros Hget. unfold check_hourly, getitem. rewrite Hget. cbn [bind to_datetime].
  rewrite steps_hourly_or_zero_diff.
  destruct (is_monotonic_increasing ts) eqn:Emono; cbn [negb].
  - destruct (issubset (unique (diff ts)) allowed) eqn:Esub; cbn [negb].
    + split; [|now left]. split; [|reflexivity].
      intros _. now apply issubset_unique_allowed.
    + split; [|right; eauto]. split; [discriminate|].
      intros Hall. apply issubset_unique_allowed in Hall. congruence.
  - split; [|right; eauto]. split; [discriminate|].
    intros Hall.
    assert (Hm : is_monotonic_increasing ts = true).
    { apply is_monotonic_increasing_iff. intros d Hd.
      destruct (Hall d Hd) as [-> | ->]; [unfold hours, NS_PER_HOUR|]; lia. }
    congruence.
Qed.

Section WithNumpy.
Context `{Numpy}.

(** C9.  For every pair of dates [build_infer_features] returns a frame
    and never raises: the frame holds the generated time column and the
    seven calendar columns, so neither [temp_obs] nor [temperature_2m]
    is among its columns. *)
Theorem build_infer_features_never_leaks (t0 t1 : Timestamp) :
  exists df,
    build_infer_features t0 t1 = Ok df
    /\ columns df = ("time" :: time_feature_names)%string
    /\ get_col df "time" = Some (STime (date_range t0 (t1 + hours 23)))
    /\ has_column df "temp_obs" = false
    /\ has_column df "temperature_2m" = false.
Proof.
  unfold build_infer_features. rewrite add_time_features_eq.
  generalize (date_range t0 (t1 + hours 23)). intros ts.
  exists (with_time_features ts [("time"%string, STime ts)]).
  repeat split; reflexivity.
Qed.

(** The training pipeline on the table with the repeated hour: two rows
    remain, and the second (hour 168 of the table) takes its
    [temp_lag_168] from row 1, the first of the two rows of 01:00. *)
Lemma dup_staging_run :
  exists out,
    build_train_features dup_staging late_cutoff = Ok out
    /\ nrows out = 2%nat
    /\ time_at out 1 = Some (fall_back + hours 168)
    /\ float_at out (lag_name 168) 1 = Some (Some (10 # 1)).
Proof.
  eexists. split; [vm_compute; reflexivity|].
  repeat split; vm_compute; reflexivity.
Qed.

Lemma dup_staging_base :
  exists base,
    load_and_clip dup_staging late_cutoff = Ok base
    /\ base = dup_staging.
Proof. eexists. split; vm_compute; reflexivity. Qed.

(** C10.  On a frame with a time column [check_hourly] accepts exactly
    when every step between consecutive timestamps is one hour or zero
    hours, and raises a [ValueError] otherwise; so the table in which
    01:00 comes twice passes, and [build_train_features] builds its lags
    by position over it: the row of hour 168 gets as [temp_lag_168] the
    temperature of row 1, dated 01:00. *)
Theorem check_hourly_accepts_duplicates :
  (forall df ts_col ts,
      get_col df ts_col = Some (STime ts) ->
      (check_hourly df ts_col = Ok tt <-> steps_hourly_or_zero ts)
      /\ (check_hourly df ts_col = Ok tt
          \/ exists msg, check_hourly df ts_col = Raise (ValueError msg)))
  /\ check_hourly dup_staging "time" = Ok tt
  /\ time_at dup_staging 1 = Some (fall_back + hours 1)
  /\ time_at dup_staging 2 = Some (fall_back + hours 1)
  /\ float_at dup_staging "temp_obs" 1 = Some (Some (10 # 1))
  /\ exists out,
       build_train_features dup_staging late_cutoff = Ok out
       /\ time_at out 1 = Some (fall_back + hours 168)
       /\ float_at out (lag_name 168) 1 = Some (Some (10 # 1)).
Proof.
  split; [exact check_hourly_spec|].
  split; [vm_compute; reflexivity|].
  split; [vm_compute; reflexivity|].
  split; [vm_compute; reflexivity|].
  split; [vm_compute; reflexivity|].
  destruct dup_staging_run as (out & Hrun & _ & Ht & Hlag).
  exists out. auto.
Qed.

End WithNumpy.

End CadenceFacts.

(* ================================================================== *)
(** ** The training frame *)

Module TrainFacts.
Import Calendar BuildFeatures FrameFacts.

(** *** Selecting rows by position *)

Lemma take_list_cons {A : Type} (i : nat) (idx : list nat) (v : list A) (x : A) :
  nth_error v i = Some x -> take_list (i :: idx) v = x :: take_list idx v.
Proof. intros Hx. unfold take_list. cbn [flat_map]. now rewrite Hx. Qed.

Lemma take_list_nth {A : Type} (v : list A) (idx : list nat) :
  Forall (fun i => (i < List.length v)%nat) idx ->
  forall j i, nth_error idx j = Some i ->
              nth_error (take_list idx v) j = nth_error v i.
Proof.
  induction 1 as [|k idx Hk Hall IH]; intros j i Hj.
  - destruct j; discriminate.
  - destruct (nth_error v k) as [x|] eqn:Ex;
      [|apply nth_error_None in Ex; lia].
    rewrite (take_list_cons _ _ _ _ Ex).
    destruct j as [|j]; cbn [nth_error] in *.
    + injection Hj as <-. now rewrite Ex.
    + now apply IH.
Qed.

Lemma take_list_length {A : Type} (v : list A) (idx : list nat) :
  Forall (fun i => (i < List.length v)%nat) idx ->
  List.length (take_list idx v) = List.length idx.
Proof.
  induction 1 as [|k idx Hk Hall IH]; [reflexivity|].
  destruct (nth_error v k) as [x|] eqn:Ex;
    [|apply nth_error_None in Ex; lia].
  rewrite (take_list_cons _ _ _ _ Ex). cbn [List.length]. now rewrite IH.
Qed.

Lemma take_series_length (s : Series) (idx : list nat) :
  Forall (fun i => (i < series_len s)%nat) idx ->
  series_len (take_series idx s) = List.length idx.
Proof. destruct s; cbn [series_len take_series]; apply take_list_length. Qed.

Lemma get_col_take (idx : list nat) (df : DataFrame) (c : string) :
  get_col (take idx df) c = option_map (take_series idx) (get_col df c).
Proof.
  induction df as [|[k v] df IH]; [reflexivity|].
  cbn [take map get_col fst snd]. destruct (String.eqb k c); [reflexivity | exact IH].
Qed.

Lemma columns_take (idx : list nat) (df : DataFrame) :
  columns (take idx df) = columns df.
Proof. unfold columns, take. rewrite map_map. reflexivity. Qed.

Lemma mask_index_from_In (m : list bool) :
  forall k i, In i (mask_index_from k m) <->
              (k <= i)%nat /\ nth_error m (i - k) = Some true.
Proof.
  induction m as [|b m IH]; intros k i.
  - cbn [mask_index_from In]. split; [contradiction|].
    intros [_ Hn]. destruct (i - k)%nat; discriminate.
  - assert (Hrest : In i (mask_index_from (S k) m) <->
                    (k < i)%nat /\ nth_error (b :: m) (i - k) = Some true).
    { rewrite IH. split; intros [Hle Hn]; (split; [lia|]).
      - replace (i - k)%nat with (S (i - S k)) by lia. exact Hn.
      - replace (i - k)%nat with (S (i - S k)) in Hn by lia. exact Hn. }
    cbn [mask_index_from]. destruct b; cbn [In]; rewrite Hrest.
    + split.
      * intros [<-|[Hlt Hn]]; [rewrite Nat.sub_diag; split; [lia|reflexivity]|].
        split; [lia | exact Hn].
      * intros [Hle Hn]. destruct (Nat.eq_dec k i) as [Heq|Hne]; [now left|].
        right. split; [lia | exact Hn].
    + split.
      * intros [Hlt Hn]. split; [lia | exact Hn].
      * intros [Hle Hn]. split; [|exact Hn].
        destruct (Nat.eq_dec k i) as [<-|Hne]; [|lia].
        rewrite Nat.sub_diag in Hn. discriminate.
Qed.

Lemma mask_index_bound (m : list bool) :
  Forall (fun i => (i < List.length m)%nat) (mask_index_from 0 m).
Proof.
  apply Forall_forall. intros i Hi. apply mask_index_from_In in Hi.
  destruct Hi as [_ Hn]. rewrite Nat.sub_0_r in Hn.
  apply nth_error_Some. congruence.
Qed.

(** *** Frames whose columns have one length *)

Lemma well_formed_iff (df : DataFrame) :
  well_formed df <-> forall c s, In (c, s) df -> series_len s = nrows df.
Proof.
  unfold well_formed. rewrite forallb_forall. split.
  - intros Hall c s Hin. specialize (Hall (c, s) Hin).
    now apply Nat.eqb_eq in Hall.
  - intros Hall [c s] Hin. apply Nat.eqb_eq. exact (Hall c s Hin).
Qed.

Lemma get_col_In (df : DataFrame) (c : string) (s : Series) :
  get_col df c = Some s -> In (c, s) df.
Proof.
  induction df as [|[k v] df IH]; cbn [get_col]; [discriminate|].
  destruct (String.eqb k c) eqn:E.
  - apply String.eqb_eq in E. subst k. intros [= ->]. now left.
  - intros Hget. right. now apply IH.
Qed.

Lemma get_col_columns (df : DataFrame) (c : string) (s : Series) :
  get_col df c = Some s -> In c (columns df).
Proof.
  intros Hget. apply get_col_In in Hget. unfold columns.
  apply in_map_iff. exists (c, s). now split.
Qed.

Lemma well_formed_get_col (df : DataFrame) (c : string) (s : Series) :
  well_formed df -> get_col df c = Some s -> series_len s = nrows df.
Proof.
  intros Hwf Hget. apply (proj1 (well_formed_iff df) Hwf c).
  now apply get_col_In.
Qed.

Lemma setitem_In (df : DataFrame) (c : string) (s : Series) (k : string) (v : Series) :
  In (k, v) (setitem df c s) -> In (k, v) df \/ v = s.
Proof.
  induction df as [|[k' v'] df IH]; cbn [setitem].
  - intros [[= <- <-]|[]]. now right.
  - destruct (String.eqb k' c).
    + intros [[= <- <-]|Hin]; [now right | left; now right].
    + intros [Heq|Hin]; [left; now left|].
      destruct (IH Hin); [left; now right | now right].
Qed.

Lemma nrows_setitem (df : DataFrame) (c : string) (s : Series) :
  df <> [] -> series_len s = nrows df -> nrows (setitem df c s) = nrows df.
Proof.
  destruct df as [|[k v] df]; [contradiction|]. intros _ Hlen.
  cbn [setitem]. destruct (String.eqb k c); cbn [nrows]; [exact Hlen | reflexivity].
Qed.

Lemma setitem_nonempty (df : DataFrame) (c : string) (s : Series) :
  setitem df c s <> [].
Proof.
  destruct df as [|[k v] df]; cbn [setitem]; [discriminate|].
  destruct (String.eqb k c); discriminate.
Qed.

Lemma well_formed_setitem (df : DataFrame) (c : string) (s : Series) :
  well_formed df -> df <> [] -> series_len s = nrows df ->
  well_formed (setitem df c s).
Proof.
  intros Hwf Hne Hlen. apply well_formed_iff. intros k v Hin.
  rewrite (nrows_setitem df c s Hne Hlen).
  destruct (setitem_In _ _ _ _ _ Hin) as [Hold| ->]; [|exact Hlen].
  now apply (proj1 (well_formed_iff df) Hwf k).
Qed.

Lemma well_formed_take (df : DataFrame) (idx : list nat) :
  well_formed df -> Forall (fun i => (i < nrows df)%nat) idx ->
  well_formed (take idx df) /\ (df <> [] -> nrows (take idx df) = List.length idx).
Proof.
  intros Hwf Hidx. rewrite well_formed_iff in Hwf.
  assert (Hlen : forall c s, In (c, s) df ->
                             series_len (take_series idx s) = List.length idx).
  { intros c s Hin. apply take_series_length.
    rewrite (Hwf c s Hin). exact Hidx. }
  assert (Hn : df <> [] -> nrows (take idx df) = List.length idx).
  { destruct df as [|[k v] df]; [contradiction|]. intros _.
    cbn [take map nrows fst snd]. apply (Hlen k). now left. }
  split; [|exact Hn].
  apply well_formed_iff. intros c s Hin.
  unfold take in Hin. apply in_map_iff in Hin.
  destruct Hin as ([k v] & [= <- <-] & Hin).
  rewrite Hn by (intros ->; contradiction).
  now apply (Hlen k).
Qed.

Lemma take_nonempty (df : DataFrame) (idx : list nat) :
  df <> [] -> take idx df <> [].
Proof. destruct df; [contradiction | discriminate]. Qed.

(** *** Sorting positions *)

Lemma insert_key_In (p q : Z * nat) (l : list (Z * nat)) :
  In p (insert_key q l) -> p = q \/ In p l.
Proof.
  induction l as [|x l IH]; cbn [insert_key].
  - intros [<-|[]]. now left.
  - destruct (fst q <=? fst x).
    + intros [<-|Hin]; [now left | now right].
    + intros [<-|Hin]; [right; now left|].
      destruct (IH Hin); [now left | right; now right].
Qed.

Lemma argsort_bound (ts : list Z) :
  Forall (fun i => (i < List.length ts)%nat) (argsort ts).
Proof.
  unfold argsort. apply Forall_forall. intros i Hi.
  apply in_map_iff in Hi. destruct Hi as ([t k] & <- & Hin). cbn [snd].
  assert (Hsub : forall l p, In p (fold_right insert_key [] l) -> In p l).
  { induction l as [|x l IH]; cbn [fold_right]; intros p Hp; [contradiction|].
    destruct (insert_key_In _ _ _ Hp) as [->|Hp']; [now left | right; auto]. }
  apply Hsub in Hin. apply in_combine_r in Hin. apply in_seq in Hin. lia.
Qed.

(** *** The clipped base table *)

Section WithNumpy.
Context `{Numpy}.

Lemma load_and_clip_base (staging base : DataFrame) (cutoff : Timestamp) :
  well_formed staging ->
  load_and_clip staging cutoff = Ok base ->
  well_formed base /\ base <> []
  /\ exists ts, get_col base "time" = Some (STime ts).
Proof.
  intros Hwf. unfold load_and_clip.
  destruct (negb (has_column staging "time") || negb (has_column staging "temp_obs"));
    [discriminate|].
  unfold getitem at 1.
  destruct (get_col staging "time") as [col|] eqn:Hget; [|discriminate].
  cbn [bind].
  destruct col as [ts|v|v]; cbn [to_datetime bind]; try discriminate.
  rewrite (setitem_same _ _ _ Hget).
  assert (Hne : staging <> []) by (intros ->; discriminate).
  pose proof (well_formed_get_col _ _ _ Hwf Hget) as Hlen. cbn [series_len] in Hlen.
  destruct (well_formed_take staging (argsort ts) Hwf) as [Hwf1 Hn1].
  { rewrite <- Hlen. apply argsort_bound. }
  set (df1 := take (argsort ts) staging) in *.
  destruct (check_hourly df1 "time"); [|discriminate]. cbn [bind].
  unfold getitem. subst df1. rewrite get_col_take, Hget.
  cbn [option_map take_series bind to_datetime].
  set (df1 := take (argsort ts) staging) in *.
  set (ts1 := take_list (argsort ts) ts).
  assert (Hget1 : get_col df1 "time" = Some (STime ts1)).
  { subst df1. now rewrite get_col_take, Hget. }
  pose proof (well_formed_get_col _ _ _ Hwf1 Hget1) as Hlen1.
  cbn [series_len] in Hlen1.
  unfold select_mask.
  set (idx := mask_index_from 0 (map (fun t => t <=? cutoff) ts1)).
  destruct (well_formed_take df1 idx Hwf1) as [Hwf2 Hn2].
  { subst idx. eapply Forall_impl; [|apply mask_index_bound].
    intros i Hi. cbv beta in Hi. rewrite length_map in Hi.
    rewrite <- Hlen1. exact Hi. }
  destruct (nrows (take idx df1) =? 0)%nat; [discriminate|].
  intros [= <-].
  split; [exact Hwf2|].
  split; [apply take_nonempty, take_nonempty, Hne|].
  exists (take_list idx ts1). now rewrite get_col_take, Hget1.
Qed.

End WithNumpy.

(** *** Shifted columns *)

Lemma shift_length (L : nat) (v : list (option Q)) :
  List.length (shift L v) = List.length v.
Proof. unfold shift. rewrite length_app, repeat_length, length_firstn. lia. Qed.

Lemma shift_nth (L : nat) (v : list (option Q)) (i : nat) :
  (i < List.length v)%nat ->
  nth_error (shift L v) i =
  if (i <? L)%nat then Some None else nth_error v (i - L).
Proof.
  intros Hi. unfold shift.
  destruct (i <? L)%nat eqn:E; [apply Nat.ltb_lt in E | apply Nat.ltb_ge in E].
  - rewrite nth_error_app1 by (rewrite repeat_length; lia).
    apply nth_error_repeat. lia.
  - rewrite nth_error_app2 by (rewrite repeat_length; lia).
    rewrite repeat_length, nth_error_firstn.
    replace (Nat.min L (List.length v)) with L by lia.
    destruct (Nat.ltb_spec (i - L) (List.length v - L)); [reflexivity | lia].
Qed.

(** A cell of a shifted column that is not NaN is the cell [L] rows
    above it. *)
Lemma shift_value (L : nat) (v : list (option Q)) (i : nat) (q : Q) :
  nth_error (shift L v) i = Some (Some q) ->
  (L <= i)%nat /\ nth_error v (i - L) = Some (Some q).
Proof.
  intros Hn.
  assert (Hi : (i < List.length v)%nat).
  { rewrite <- (shift_length L v). apply nth_error_Some. congruence. }
  rewrite (shift_nth L v i Hi) in Hn.
  destruct (i <? L)%nat eqn:E; [discriminate|].
  apply Nat.ltb_ge in E. now split.
Qed.

Lemma rolling_length (W mp : nat) (agg : list Q -> option Q) (v : list (option Q)) :
  List.length (rolling W mp agg v) = List.length v.
Proof. unfold rolling. now rewrite length_map, length_seq. Qed.

Lemma series_sub_length (a b : list (option Q)) :
  List.length a = List.length b -> List.length (series_sub a b) = List.length a.
Proof. intros Hab. unfold series_sub. rewrite length_map, length_combine. lia. Qed.

Lemma to_float_length (s : Series) (v : list (option Q)) :
  to_float s = Ok v -> List.length v = series_len s.
Proof.
  destruct s; cbn [to_float series_len]; intros [= <-];
    [now rewrite length_map | reflexivity].
Qed.

(** *** The feature columns *)

Lemma frame_of_setitem (n : nat) (df : DataFrame) (c : string) (s : Series) :
  frame_of n df -> series_len s = n -> frame_of n (setitem df c s).
Proof.
  intros (Hwf & Hne & Hn) Hlen. subst n. repeat split.
  - now apply well_formed_setitem.
  - apply setitem_nonempty.
  - now apply nrows_setitem.
Qed.

Lemma lag_names :
  map lag_name lags
  = ["temp_lag_1"; "temp_lag_24"; "temp_lag_48"; "temp_lag_72"; "temp_lag_168"]%string.
Proof. reflexivity. Qed.

Section WithNumpy.
Context `{Numpy}.

Lemma frame_of_with_time_features (ts : list Timestamp) (df : DataFrame) :
  frame_of (List.length ts) df -> frame_of (List.length ts) (with_time_features ts df).
Proof.
  intros Hf. unfold with_time_features. cbv zeta.
  repeat (apply frame_of_setitem;
          [|cbn [series_len]; now rewrite ?length_map]).
  exact Hf.
Qed.

(** The columns of the frame with every feature, before rows are
    dropped: the time column and [temp_obs] as in the base table, the
    lags as shifts of [temp_obs], the rolling statistics over it. *)
Lemma train_features_cols (base feat : DataFrame) (ts : list Timestamp) :
  well_formed base -> base <> [] ->
  get_col base "time" = Some (STime ts) ->
  train_features base = Ok feat ->
  exists s obs,
    get_col base "temp_obs" = Some s /\ to_float s = Ok obs
    /\ List.length obs = List.length ts
    /\ frame_of (List.length ts) feat
    /\ get_col feat "time" = Some (STime ts)
    /\ (forall L, In L lags ->
          get_col feat (lag_name L) = Some (SFloat (shift L obs)))
    /\ get_col feat "roll_mean_24" = Some (SFloat (rolling 24 24 agg_mean obs))
    /\ get_col feat "roll_mean_168" = Some (SFloat (rolling 168 24 agg_mean obs))
    /\ get_col feat "roll_std_24" = Some (SFloat (rolling 24 24 agg_std obs))
    /\ get_col feat "roll_std_168" = Some (SFloat (rolling 168 24 agg_std obs)).
Proof.
  intros Hwf Hne Hget. unfold train_features.
  rewrite add_time_features_eq. unfold getitem at 1. rewrite Hget.
  cbn [bind to_datetime]. unfold add_history_features, getitem.
  rewrite get_col_with_time_features. cbn [existsb time_feature_names String.eqb Ascii.eqb Bool.eqb orb].
  destruct (get_col base "temp_obs") as [s|] eqn:Hobs; [|discriminate].
  cbn [bind]. destruct (to_float s) as [obs|e] eqn:Hfl; [|discriminate].
  cbn [bind]. intros [= <-].
  pose proof (well_formed_get_col _ _ _ Hwf Hget) as Hlt. cbn [series_len] in Hlt.
  pose proof (well_formed_get_col _ _ _ Hwf Hobs) as Hlo.
  rewrite <- (to_float_length _ _ Hfl) in Hlo.
  assert (Hlen : List.length obs = List.length ts) by congruence.
  assert (Hbase : frame_of (List.length ts) base) by (repeat split; auto).
  apply frame_of_with_time_features in Hbase.
  set (df := with_time_features ts base) in *.
  assert (Htime : get_col df "time" = Some (STime ts)).
  { subst df. rewrite get_col_with_time_features. exact Hget. }
  clearbody df.
  exists s, obs. split; [reflexivity|]. split; [exact Hfl|].
  split; [exact Hlen|].
  cbn [fold_left lags].
  change (lag_name 1) with "temp_lag_1"%string.
  change (lag_name 24) with "temp_lag_24"%string.
  change (lag_name 48) with "temp_lag_48"%string.
  change (lag_name 72) with "temp_lag_72"%string.
  change (lag_name 168) with "temp_lag_168"%string.
  split.
  { repeat (apply frame_of_setitem;
            [|cbn [series_len];
              try rewrite series_sub_length by (now rewrite !shift_length);
              rewrite ?rolling_length, ?shift_length; exact Hlen]).
    exact Hbase. }
  split.
  { rewrite !get_col_setitem. exact Htime. }
  split.
  { intros L HL. cbn [In] in HL.
    destruct HL as [<-|[<-|[<-|[<-|[<-|[]]]]]];
      match goal with
      | |- get_col _ (lag_name ?k) = _ =>
          let n := eval vm_compute in (lag_name k) in
          change (lag_name k) with n
      end;
      rewrite !get_col_setitem; reflexivity. }
  repeat split; rewrite !get_col_setitem; reflexivity.
Qed.

End WithNumpy.

(** *** Dropping rows and ordering columns *)

Lemma dropna_kept (n : nat) (feat : DataFrame) :
  frame_of n feat ->
  Forall (fun i => (i < n)%nat) (mask_index_from 0 (notna_mask feat))
  /\ forall i, In i (mask_index_from 0 (notna_mask feat)) ->
       forall c s, get_col feat c = Some s -> notna_at s i = true.
Proof.
  intros (Hwf & Hne & Hn). split.
  - eapply Forall_impl; [|apply mask_index_bound].
    intros i Hi. cbv beta in Hi. unfold notna_mask in Hi.
    rewrite length_map, length_seq in Hi. lia.
  - intros i Hi c s Hget. apply mask_index_from_In in Hi.
    destruct Hi as [_ Hi]. rewrite Nat.sub_0_r in Hi.
    unfold notna_mask in Hi. rewrite nth_error_map, nth_error_seq in Hi.
    destruct (i <? nrows feat)%nat; [|discriminate].
    cbn [option_map Nat.add] in Hi. injection Hi as Hi.
    rewrite forallb_forall in Hi.
    exact (Hi (c, s) (get_col_In _ _ _ Hget)).
Qed.

Lemma select_get (df : DataFrame) :
  forall cols out, select df cols = Ok out ->
    columns out = cols
    /\ forall c, In c cols -> get_col out c = get_col df c.
Proof.
  induction cols as [|c cols IH]; intros out; cbn [select].
  - intros [= <-]. split; [reflexivity | contradiction].
  - unfold getitem. destruct (get_col df c) as [s|] eqn:Hget; [|discriminate].
    cbn [bind]. destruct (select df cols) as [rest|e]; [|discriminate].
    cbn [bind]. intros [= <-]. destruct (IH rest eq_refl) as [Hcols Hrest].
    split; [cbn [columns map fst]; f_equal; exact Hcols|].
    intros c' Hc'. cbn [get_col].
    destruct (String.eqb c c') eqn:E.
    + apply String.eqb_eq in E. now subst c'.
    + destruct Hc' as [->|Hc']; [now rewrite String.eqb_refl in E|].
      now apply Hrest.
Qed.

(** In a strictly hourly table the row [k] positions above a row is
    dated [k] hours before it. *)
Lemma hourly_back (base : DataFrame) :
  strictly_hourly base ->
  forall k i t, time_at base i = Some t -> (k <= i)%nat ->
                time_at base (i - k) = Some (t - hours (Z.of_nat k)).
Proof.
  intros Hh. induction k as [|k IH]; intros i t Hi Hk.
  - rewrite Nat.sub_0_r, Hi. f_equal. unfold hours. cbn. lia.
  - specialize (IH i t Hi ltac:(lia)).
    destruct (time_at base (i - S k)) as [u|] eqn:Hu.
    + replace (i - k)%nat with (S (i - S k)) in IH by lia.
      pose proof (Hh _ _ _ Hu IH) as Hstep. f_equal.
      unfold hours in *. lia.
    + exfalso. unfold time_at in *.
      destruct (get_col base "time") as [[v| |]|]; try discriminate.
      apply nth_error_None in Hu.
      assert (i < List.length v)%nat by (apply nth_error_Some; congruence).
      lia.
Qed.

(** *** The lags of the retained rows *)

Section Lags.
Context `{Numpy}.

(** C1, as the code has it.  Every row that [build_train_features]
    retains is a row [i] of the sorted, clipped table; for each lag [L]
    of 1, 24, 48, 72 and 168 its [temp_lag_L] is the observed
    temperature of row [i - L] of that table (a shift by [L] rows), and
    when the timestamps of the table advance by exactly one hour per row
    that row is dated [L] hours earlier. *)
Theorem train_lags_positional (staging out : DataFrame) (cutoff : Timestamp) :
  well_formed staging ->
  build_train_features staging cutoff = Ok out ->
  exists base kept,
    load_and_clip staging cutoff = Ok base
    /\ nrows out = List.length kept
    /\ forall j i, nth_error kept j = Some i ->
         exists t,
           time_at base i = Some t /\ time_at out j = Some t
           /\ forall L, In L lags ->
                (L <= i)%nat
                /\ (exists q,
                      float_at out (lag_name L) j = Some (Some q)
                      /\ float_at base "temp_obs" (i - L) = Some (Some q))
                /\ (strictly_hourly base ->
                    time_at base (i - L) = Some (t - hours (Z.of_nat L))).
Proof.
  intros Hwf Hrun. unfold build_train_features in Hrun.
  destruct (load_and_clip staging cutoff) as [base|e] eqn:Hbase; [|discriminate].
  cbn [bind] in Hrun.
  destruct (load_and_clip_base _ _ _ Hwf Hbase) as (Hwfb & Hneb & ts & Htime).
  destruct (train_features base) as [feat|e] eqn:Hfeat; [|discriminate].
  cbn [bind] in Hrun.
  destruct (train_features_cols _ _ _ Hwfb Hneb Htime Hfeat)
    as (s & obs & Hobs & Hfl & Hlen & Hframe & Hftime & Hlags & _).
  destruct (dropna_kept _ _ Hframe) as [Hbound Hnotna].
  unfold dropna, select_mask in Hrun.
  set (kept := mask_index_from 0 (notna_mask feat)) in *.
  apply select_get in Hrun. destruct Hrun as [Hcols Hsel].
  rewrite columns_take in Hcols, Hsel.
  assert (Hout : forall c x, get_col feat c = Some x ->
                             get_col out c = Some (take_series kept x)).
  { intros c x Hx. rewrite Hsel, get_col_take, Hx; [reflexivity|].
    destruct (String.eqb c "time") eqn:E.
    - apply String.eqb_eq in E. subst c. now left.
    - right. apply filter_In. split; [now apply (get_col_columns _ _ x)|].
      now rewrite E. }
  exists base, kept. split; [reflexivity|].
  split.
  { destruct out as [|[c0 s0] out]; [discriminate|].
    cbn [columns map fst] in Hcols. injection Hcols as -> _.
    pose proof (Hout _ _ Hftime) as Hot. cbn [get_col] in Hot.
    rewrite String.eqb_refl in Hot. injection Hot as ->.
    cbn [nrows take_series series_len]. now apply take_list_length. }
  intros j i Hj.
  assert (Hi : In i kept) by (eapply nth_error_In; exact Hj).
  assert (Hin : (i < List.length ts)%nat)
    by (rewrite Forall_forall in Hbound; now apply Hbound).
  destruct (nth_error ts i) as [t|] eqn:Ht;
    [|apply nth_error_None in Ht; lia].
  assert (Htb : time_at base i = Some t) by (unfold time_at; now rewrite Htime).
  exists t. split; [exact Htb|].
  split.
  { unfold time_at. rewrite (Hout _ _ Hftime). cbn [take_series].
    now rewrite (take_list_nth ts kept Hbound j i Hj). }
  intros L HL.
  pose proof (Hlags L HL) as Hlag.
  pose proof (Hnotna i Hi _ _ Hlag) as Hna. cbn [notna_at] in Hna.
  assert (Hbound' : Forall (fun k => (k < List.length (shift L obs))%nat) kept)
    by (now rewrite shift_length, Hlen).
  destruct (nth_error (shift L obs) i) as [[q|]|] eqn:Hcell;
    [| discriminate
     | apply nth_error_None in Hcell; rewrite shift_length in Hcell; lia].
  destruct (shift_value _ _ _ _ Hcell) as [HLi Hsrc].
  split; [exact HLi|]. split.
  - exists q. split.
    + unfold float_at. rewrite (Hout _ _ Hlag). cbn [take_series to_float].
      now rewrite (take_list_nth _ kept Hbound' j i Hj).
    + unfold float_at. now rewrite Hobs, Hfl.
  - intros Hh. now apply hourly_back.
Qed.

End Lags.

(** The lemma at the sample table of 170 hourly rows. *)
Lemma train_lags_positional_witness :
  exists out base kept,
    @build_train_features sample_numpy ramp_staging late_cutoff = Ok out
    /\ load_and_clip ramp_staging late_cutoff = Ok base
    /\ nrows out = List.length kept
    /\ forall j i, nth_error kept j = Some i ->
         exists t,
           time_at base i = Some t /\ time_at out j = Some t
           /\ forall L, In L lags ->
                (L <= i)%nat
                /\ (exists q,
                      float_at out (lag_name L) j = Some (Some q)
                      /\ float_at base "temp_obs" (i - L) = Some (Some q))
                /\ (strictly_hourly base ->
                    time_at base (i - L) = Some (t - hours (Z.of_nat L))).
Proof.
  assert (Hwf : well_formed ramp_staging) by reflexivity.
  destruct (@build_train_features sample_numpy ramp_staging late_cutoff)
    as [out|e] eqn:Hrun; [|vm_compute in Hrun; discriminate].
  destruct (@train_lags_positional sample_numpy ramp_staging out late_cutoff Hwf Hrun)
    as (base & kept & Hb & Hn & Hrows).
  exists out, base, kept. auto.
Defined.

(** C1, read by timestamps, fails on the table in which 01:00 comes
    twice: the retained row of hour 168 has [temp_lag_168 = 10], the
    temperature of row 1 (01:00), while the row dated 168 hours earlier
    is row 0 (00:00), at 0 degrees. *)
Lemma lag_not_hours_earlier_on_duplicate :
  exists base out,
    well_formed dup_staging
    /\ load_and_clip dup_staging late_cutoff = Ok base
    /\ @build_train_features sample_numpy dup_staging late_cutoff = Ok out
    /\ time_at out 1 = Some (fall_back + hours 168)
    /\ time_at base 0 = Some (fall_back + hours 168 - hours 168)
    /\ float_at out (lag_name 168) 1 = Some (Some (10 # 1))
    /\ float_at base "temp_obs" 0 = Some (Some 0%Q)
    /\ ~ lag_is_obs_hours_earlier base out 168.
Proof.
  destruct (@CadenceFacts.dup_staging_run sample_numpy) as (out & Hrun & _ & Ht & Hlag).
  destruct CadenceFacts.dup_staging_base as (base & Hbase & ->).
  assert (Ht0 : time_at dup_staging 0 = Some (fall_back + hours 168 - hours 168))
    by (vm_compute; reflexivity).
  assert (Hv0 : float_at dup_staging "temp_obs" 0 = Some (Some 0%Q))
    by (vm_compute; reflexivity).
  exists dup_staging, out.
  split; [reflexivity|].
  repeat (split; [assumption|]).
  intros Hclaim.
  specialize (Hclaim 1%nat _ 0%nat Ht Ht0).
  rewrite Hlag, Hv0 in Hclaim. discriminate.
Qed.

(** *** Rolling windows *)

Lemma rolling_nth (W mp : nat) (agg : list Q -> option Q)
    (v : list (option Q)) (i : nat) :
  (i < List.length v)%nat ->
  nth_error (rolling W mp agg v) i =
  Some (if (mp <=? List.length (valid (window W i v)))%nat
        then agg (valid (window W i v)) else None).
Proof.
  intros Hi. unfold rolling.
  rewrite nth_error_map, nth_error_seq.
  destruct (Nat.ltb_spec i (List.length v)); [reflexivity | lia].
Qed.

(** The window evaluated at row [i] ends with row [i] itself. *)
Lemma window_last (W i : nat) (v : list (option Q)) (x : option Q) :
  (0 < W)%nat -> nth_error v i = Some x ->
  exists pre, window W i v = pre ++ [x].
Proof.
  intros HW Hx. unfold window.
  assert (Hi : (i < List.length v)%nat) by (apply nth_error_Some; congruence).
  assert (Hsplit : firstn (S i) v = firstn i v ++ [x]).
  { clear HW. revert i Hx Hi. induction v as [|y v IH]; intros i Hx Hi.
    - cbn in Hi. lia.
    - destruct i as [|i]; cbn [nth_error] in Hx.
      + injection Hx as ->. reflexivity.
      + cbn [firstn app]. f_equal. apply IH; [exact Hx | cbn in Hi; lia]. }
  rewrite Hsplit, skipn_app, length_firstn.
  replace (S i - W - Nat.min i (List.length v))%nat with O by lia.
  exists (skipn (S i - W) (firstn i v)). reflexivity.
Qed.

Section RollingLeak.
Context `{Numpy}.

(** C2 on the code.  The rolling statistics of row [i] aggregate a
    window that ends with row [i] itself; on the table of 170 hourly
    rows with temperature [k] on row [k], the retained row of hour 168
    has [temp_obs = 168] and [roll_mean_24 = 156.5], the mean of rows
    145..168, where the window ending at the row before gives 155.5. *)
Theorem rolling_window_includes_current_row :
  (forall W mp agg v i x,
      (0 < W)%nat -> nth_error v i = Some x ->
      (exists pre, window W i v = pre ++ [x])
      /\ nth_error (rolling W mp agg v) i =
         Some (if (mp <=? List.length (valid (window W i v)))%nat
               then agg (valid (window W i v)) else None))
  /\ Qmean (valid (window 24 168 (ramp 0 170))) = 313 # 2
  /\ Qmean (valid (window 24 167 (ramp 0 170))) = 311 # 2
  /\ exists out,
       build_train_features ramp_staging late_cutoff = Ok out
       /\ float_at out "temp_obs" 0 = Some (Some (168 # 1))
       /\ float_at out "roll_mean_24" 0 = Some (Some (313 # 2)).
Proof.
  split.
  { intros W mp agg v i x HW Hx. split; [now apply window_last|].
    apply rolling_nth. apply nth_error_Some. congruence. }
  split; [vm_compute; reflexivity|].
  split; [vm_compute; reflexivity|].
  eexists. split; [vm_compute; reflexivity|].
  split; vm_compute; reflexivity.
Qed.

End RollingLeak.

End TrainFacts.

(* ================================================================== *)
(** ** The climatology fallback *)

Module TestTruthFacts.
Import Calendar TestTruth.

Lemma filter_nil_find {A : Type} (f : A -> bool) (l : list A) :
  find f l = None -> filter f l = [].
Proof.
  induction l as [|x l IH]; cbn [find filter]; [reflexivity|].
  destruct (f x); [discriminate | exact IH].
Qed.

Lemma filter_cons_find {A : Type} (f : A -> bool) (l : list A) (r : A) :
  find f l = Some r -> exists rest, filter f l = r :: rest.
Proof.
  induction l as [|x l IH]; cbn [find filter]; [discriminate|].
  destruct (f x); [intros [= ->]; eauto | exact IH].
Qed.

Lemma find_time_None (history : History) (t : Timestamp) :
  find (fun r => time r =? t) history = None <->
  forall r, In r history -> time r <> t.
Proof.
  split.
  - intros Hnone r Hin Heq.
    pose proof (find_none _ _ Hnone r Hin) as Hf. cbv beta in Hf.
    apply Z.eqb_neq in Hf. contradiction.
  - intros Hall. destruct (find _ history) as [r|] eqn:Hf; [|reflexivity].
    apply find_some in Hf. destruct Hf as [Hin Heq]. apply Z.eqb_eq in Heq.
    now destruct (Hall r Hin).
Qed.

Lemma same_slot_iff (years : list Z) (t : Timestamp) (r : Row) :
  same_slot years t r = true <->
  month (time r) = month t /\ day (time r) = day t
  /\ hour (time r) = hour t /\ In (year (time r)) years.
Proof.
  unfold same_slot, isin. rewrite !andb_true_iff, !Z.eqb_eq.
  rewrite existsb_exists. split.
  - intros [[[Hm Hd] Hh] (y & Hy & Heq)]. apply Z.eqb_eq in Heq. subst y. tauto.
  - intros (Hm & Hd & Hh & Hy). repeat split; try assumption.
    exists (year (time r)). split; [exact Hy | apply Z.eqb_refl].
Qed.

(** The mean of values none of which is missing. *)
Lemma valid_map_Some (qs : list Q) : valid (map Some qs) = qs.
Proof.
  induction qs as [|q qs IH]; [reflexivity|].
  change (valid (map Some (q :: qs))) with (q :: valid (map Some qs)).
  now rewrite IH.
Qed.

Lemma series_mean_all_present (qs : list Q) :
  qs <> [] -> series_mean (map Some qs) = Some (Qmean qs).
Proof.
  intros Hne. unfold series_mean. rewrite valid_map_Some.
  destruct qs; [contradiction | reflexivity].
Qed.

(** C3.  [get_lag_value(t, L)] looks at [t - L] hours.  When the history
    holds a row at that time it returns the observation of the first
    such row, tagged [real]; when it holds none but some rows of the
    reference years share the month, day and hour of [t - L], it returns
    their mean, tagged [climatology] (the arithmetic mean, when none of
    them is missing); when it holds neither, it returns a missing value
    tagged [missing]. *)
Theorem get_lag_value_cases (target_time : Timestamp) (lag_hours : Z)
    (history : History) (years : list Z) :
  let lag_time := target_time - hours lag_hours in
  let matches := filter (same_slot years lag_time) history in
  (forall r, find (fun r => time r =? lag_time) history = Some r ->
             get_lag_value target_time lag_hours history years
             = (temp_obs r, "real"%string))
  /\ (find (fun r => time r =? lag_time) history = None ->
      matches <> [] ->
      get_lag_value target_time lag_hours history years
      = (series_mean (map temp_obs matches), "climatology"%string)
      /\ forall qs, map temp_obs matches = map Some qs ->
                    series_mean (map temp_obs matches) = Some (Qmean qs))
  /\ (find (fun r => time r =? lag_time) history = None ->
      matches = [] ->
      get_lag_value target_time lag_hours history years
      = (None, "missing"%string))
  /\ (find (fun r => time r =? lag_time) history = None <->
      forall r, In r history -> time r <> lag_time)
  /\ (forall r, In r matches <->
                In r history
                /\ month (time r) = month lag_time /\ day (time r) = day lag_time
                /\ hour (time r) = hour lag_time /\ In (year (time r)) years).
Proof.
  intros lag_time matches.
  split.
  { intros r Hfind. unfold get_lag_value, real_at. fold lag_time.
    destruct (filter_cons_find _ _ _ Hfind) as (rest & ->). reflexivity. }
  split.
  { intros Hfind Hne. unfold get_lag_value, real_at, climatology_at.
    fold lag_time. rewrite (filter_nil_find _ _ Hfind). fold matches.
    cbn [map List.length Nat.ltb Nat.leb].
    destruct matches as [|m ms] eqn:Em; [contradiction|].
    split; [reflexivity|].
    intros qs Hqs. rewrite Hqs. apply series_mean_all_present.
    destruct qs; [discriminate | discriminate]. }
  split.
  { intros Hfind Hnil. unfold get_lag_value, real_at, climatology_at.
    fold lag_time. rewrite (filter_nil_find _ _ Hfind). fold matches.
    rewrite Hnil. reflexivity. }
  split; [apply find_time_None|].
  intros r. subst matches. rewrite filter_In, same_slot_iff. tauto.
Qed.

(** The three cases on the sample history: the hour before
    2025-09-17 00:00 is observed; the hour before 01:00 is not, and the
    reference years give 18 and 20 degrees for it; the hour before 02:00
    has neither. *)
Example get_lag_value_real :
  get_lag_value (mk_time 2025 9 17 0 0) 1 sample_history default_years
  = (Some (21 # 1), "real"%string).
Proof. vm_compute. reflexivity. Qed.

Example get_lag_value_climatology :
  get_lag_value (mk_time 2025 9 17 1 0) 1 sample_history default_years
  = (Some (19 # 1), "climatology"%string).
Proof. vm_compute. reflexivity. Qed.

Example get_lag_value_missing :
  get_lag_value (mk_time 2025 9 17 2 0) 1 sample_history default_years
  = (None, "missing"%string).
Proof. vm_compute. reflexivity. Qed.

(** The loop of [get_rolling_stats] takes for every hour what
    [get_lag_value] finds for it. *)
Lemma gather_value_for (history : History) (years : list Z) (ts : list Timestamp) :
  gather history years ts = flat_map (value_for history years) ts.
Proof.
  induction ts as [|u ts IH]; [reflexivity|].
  cbn [gather flat_map]. rewrite IH. unfold value_for, get_lag_value.
  change (hours 0) with 0. rewrite Z.sub_0_r.
  destruct (0 <? List.length (real_at history u))%nat; [reflexivity|].
  destruct (0 <? List.length (climatology_at history years u))%nat; reflexivity.
Qed.

Lemma times_needed_nth (target_time : Timestamp) (window_hours : Z) (k : nat) :
  (k < Z.to_nat window_hours)%nat ->
  nth_error (times_needed target_time window_hours) k
  = Some (target_time - hours (Z.of_nat (S k))).
Proof.
  intros Hk. unfold times_needed.
  rewrite nth_error_map, nth_error_seq.
  destruct (Nat.ltb_spec k (Z.to_nat window_hours)); [reflexivity | lia].
Qed.

Lemma threshold_half (window_hours : Z) :
  0 <= window_hours -> threshold window_hours = Z.max 24 (window_hours / 2).
Proof.
  intros Hw. unfold threshold. now rewrite Z.quot_div_nonneg by lia.
Qed.

Section RollingStats.
Context `{Numpy}.

(** C6.  [get_rolling_stats(t, W)] goes through the [W] hours
    [t-1, ..., t-W]; each contributes the value [get_lag_value] finds
    for it (the real observation, else the climatology substitute) or
    nothing; with at least [max(24, W/2)] values (24 for [W = 24], 84
    for [W = 168]) the result is their [np.mean] and [np.std], the mean
    and the population standard deviation when none is missing, and
    with fewer both results are missing. *)
Theorem get_rolling_stats_cases (target_time : Timestamp) (window_hours : Z)
    (history : History) (years : list Z) :
  let hours_before := times_needed target_time window_hours in
  let temps := flat_map (value_for history years) hours_before in
  List.length hours_before = Z.to_nat window_hours
  /\ (forall k, (k < Z.to_nat window_hours)%nat ->
        nth_error hours_before k
        = Some (target_time - hours (Z.of_nat (S k))))
  /\ (0 <= window_hours -> threshold window_hours = Z.max 24 (window_hours / 2))
  /\ threshold 24 = 24 /\ threshold 168 = 84
  /\ (threshold window_hours <= Z.of_nat (List.length temps) ->
      get_rolling_stats target_time window_hours history years
      = (np_mean temps, np_std temps))
  /\ (Z.of_nat (List.length temps) < threshold window_hours ->
      get_rolling_stats target_time window_hours history years = (None, None))
  /\ (forall qs, temps = map Some qs -> qs <> [] ->
        np_mean temps = Some (Qmean qs)
        /\ np_std temps = Some (np_sqrt (Qvar 0 qs))).
Proof.
  intros hours_before temps.
  split; [unfold hours_before, times_needed; now rewrite length_map, length_seq|].
  split; [apply times_needed_nth|].
  split; [apply threshold_half|].
  split; [reflexivity|]. split; [reflexivity|].
  assert (Hrun : get_rolling_stats target_time window_hours history years
                 = if threshold window_hours <=? Z.of_nat (List.length temps)
                   then (np_mean temps, np_std temps) else (None, None)).
  { unfold get_rolling_stats. now rewrite gather_value_for. }
  split.
  { intros Hge. rewrite Hrun.
    now destruct (Z.leb_spec (threshold window_hours) (Z.of_nat (List.length temps))); [|lia]. }
  split.
  { intros Hlt. rewrite Hrun.
    now destruct (Z.leb_spec (threshold window_hours) (Z.of_nat (List.length temps))); [lia|]. }
  intros qs -> Hne. unfold np_mean, np_std.
  assert (Hall : forallb (fun x : option Q =>
                            match x with Some _ => true | None => false end)
                         (map Some qs) = true).
  { apply forallb_forall. intros x Hx. apply in_map_iff in Hx.
    now destruct Hx as (q & <- & _). }
  rewrite Hall, valid_map_Some.
  destruct qs; [contradiction|]. split; reflexivity.
Qed.

End RollingStats.

End TestTruthFacts.

(* ================================================================== *)
(** ** More on the fetch script *)

Module ApiFacts.
Import Calendar CalendarFacts ApiXgbData NormalizerFacts.

(** Sorting a table that is in order returns it as it is. *)
Lemma sort_values_sorted_id (l : Table) :
  StronglySorted by_time l -> sort_values l = l.
Proof.
  induction 1 as [|x l Hs IH Hx]; [reflexivity|].
  cbn [sort_values fold_right]. fold (sort_values l). rewrite IH.
  destruct l as [|y l]; [reflexivity|].
  cbn [insert_by_time]. inversion Hx as [|? ? Hxy _]; subst.
  unfold by_time in Hxy. now rewrite (proj2 (Z.leb_le _ _) Hxy).
Qed.

Lemma drop_dup_from_id (l : Table) :
  forall seen, NoDup (times l) ->
               (forall t, In t (times l) -> ~ In t seen) ->
               drop_dup_from seen l = l.
Proof.
  induction l as [|r l IH]; intros seen Hnd Hseen; [reflexivity|].
  cbn [times map] in Hnd. inversion Hnd as [|? ? Hnin Hnd']; subst.
  cbn [drop_dup_from].
  rewrite (proj2 (existsb_eqb_notIn (time r) seen))
    by (apply Hseen; now left).
  f_equal. apply IH; [exact Hnd'|].
  intros t Ht [<-|Hs]; [contradiction|].
  apply (Hseen t); [now right | exact Hs].
Qed.

Lemma strict_sorted_by_time (l : Table) :
  StronglySorted Z.lt (times l) -> StronglySorted by_time l /\ NoDup (times l).
Proof.
  induction l as [|r l IH]; intros Hs; [split; constructor|].
  cbn [times map] in Hs. inversion Hs as [|? ? Hs' Hr]; subst.
  destruct (IH Hs') as [Hsorted Hnd]. split.
  - constructor; [exact Hsorted|].
    apply Forall_forall. intros x Hx. unfold by_time.
    rewrite Forall_forall in Hr. specialize (Hr (time x) (in_map time _ _ Hx)). lia.
  - cbn [times map]. constructor; [|exact Hnd].
    intros Hin. rewrite Forall_forall in Hr. specialize (Hr _ Hin). lia.
Qed.

(** X1.  The merge step applied to its own output changes nothing and
    reports no duplicate. *)
Theorem normalize_idempotent (dfs : list Table) (r : Normalized) :
  normalize dfs = Ok r ->
  normalize [df_all r] = Ok (mkNormalized (df_all r) 0 (bad r)).
Proof.
  intros Hrun.
  assert (Hne : dfs <> []) by (intros ->; discriminate).
  rewrite (normalize_nonempty dfs Hne) in Hrun. injection Hrun as <-.
  cbn [df_all bad].
  set (df1 := drop_duplicates (sort_values (concat dfs))).
  assert (Hstrict : StronglySorted Z.lt (times df1)).
  { apply sorted_NoDup_strict.
    - apply drop_dup_from_sorted, sort_values_sorted.
    - apply drop_dup_from_NoDup. }
  destruct (strict_sorted_by_time _ Hstrict) as [Hsorted Hnd].
  rewrite normalize_nonempty by discriminate.
  cbn [concat]. rewrite app_nil_r.
  rewrite (sort_values_sorted_id _ Hsorted).
  unfold drop_duplicates at 1 2 3.
  rewrite (drop_dup_from_id df1 [] Hnd) by (intros t _ []).
  now rewrite Z.sub_diag.
Qed.

Lemma normalize_idempotent_witness :
  normalize [df_all (mkNormalized
                       [mkObs (mk_time 2024 11 3 0 0) (Some (15 # 1));
                        mkObs (mk_time 2024 11 3 1 0) (Some (14 # 1));
                        mkObs (mk_time 2024 11 3 2 0) (Some (12 # 1))] 1 0)]
  = Ok (mkNormalized
          [mkObs (mk_time 2024 11 3 0 0) (Some (15 # 1));
           mkObs (mk_time 2024 11 3 1 0) (Some (14 # 1));
           mkObs (mk_time 2024 11 3 2 0) (Some (12 # 1))] 0 0).
Proof.
  apply (normalize_idempotent [part_a; part_b]). vm_compute. reflexivity.
Defined.

(** X2.  The reported count of dropped rows is zero exactly when no
    timestamp occurs twice among the fetched rows, and it accounts for
    every row that is not saved. *)
Theorem normalize_dropped_zero (dfs : list Table) (r : Normalized) :
  normalize dfs = Ok r ->
  0 <= dropped r
  /\ Z.of_nat (List.length (df_all r)) + dropped r
     = Z.of_nat (List.length (concat dfs))
  /\ (dropped r = 0 <-> NoDup (times (concat dfs)))
  /\ (dropped r = 0 -> df_all r = sort_values (concat dfs)).
Proof.
  intros Hrun.
  assert (Hne : dfs <> []) by (intros ->; discriminate).
  rewrite (normalize_nonempty dfs Hne) in Hrun. injection Hrun as <-.
  cbn [df_all dropped]. unfold drop_duplicates.
  set (df0 := sort_values (concat dfs)).
  pose proof (sort_values_perm (concat dfs)) as Hperm. fold df0 in Hperm.
  destruct (drop_dup_from_removed df0 []) as (removed & Hrem & _).
  pose proof (drop_dup_from_NoDup df0 []) as Hnd.
  set (df1 := drop_dup_from [] df0) in *.
  pose proof (Permutation_length Hrem) as Hlen. rewrite length_app in Hlen.
  pose proof (Permutation_length Hperm) as Hlen0.
  split; [lia|]. split; [lia|].
  assert (Hid : NoDup (times (concat dfs)) -> df1 = df0).
  { intros Hnd0. subst df1. apply drop_dup_from_id; [|intros t _ []].
    apply (Permutation_NoDup (Permutation_map time (Permutation_sym Hperm)) Hnd0). }
  assert (Hzero : Z.of_nat (List.length df0) - Z.of_nat (List.length df1) = 0 ->
                  NoDup (times (concat dfs))).
  { intros Hz. assert (removed = []) by (destruct removed; [reflexivity | cbn in Hlen; lia]).
    subst removed. rewrite app_nil_r in Hrem.
    apply (Permutation_NoDup (Permutation_map time
             (Permutation_trans (Permutation_sym Hrem) Hperm)) Hnd). }
  split.
  - split; [exact Hzero|]. intros Hnd0. rewrite (Hid Hnd0). lia.
  - intros Hz. apply Hid. now apply Hzero.
Qed.

Lemma normalize_dropped_zero_witness :
  0 <= 1
  /\ Z.of_nat (List.length (df_all (mkNormalized (drop_duplicates
        (sort_values (concat [part_a; part_b]))) 1 0))) + 1
     = Z.of_nat (List.length (concat [part_a; part_b])).
Proof.
  destruct (normalize_dropped_zero [part_a; part_b]
              (mkNormalized (drop_duplicates (sort_values (concat [part_a; part_b]))) 1 0))
    as (H0 & Hsum & _); [vm_compute; reflexivity|].
  split; [exact H0 | exact Hsum].
Defined.

(** *** Irregular steps *)

Lemma diff_steps (ts : list Timestamp) (d : Timedelta) :
  In d (diff ts) <->
  exists i a b, nth_error ts i = Some a /\ nth_error ts (S i) = Some b
                /\ d = b - a.
Proof.
  induction ts as [|a ts IH]; [|destruct ts as [|b ts]].
  - simpl. split; [contradiction|]. intros (i & a & b & Ha & _). destruct i; discriminate.
  - simpl. split; [contradiction|]. intros (i & x & y & _ & Hb & _).
    destruct i as [|[|i]]; discriminate.
  - change (diff (a :: b :: ts)) with ((b - a) :: diff (b :: ts)).
    cbn [In]. rewrite IH. split.
    + intros [<-|(i & x & y & Hx & Hy & ->)].
      * exists O, a, b. repeat split.
      * exists (S i), x, y. repeat split; assumption.
    + intros (i & x & y & Hx & Hy & ->). destruct i as [|i].
      * left. cbn in Hx, Hy. congruence.
      * right. exists i, x, y. repeat split; assumption.
Qed.

Lemma count_bad_steps_zero (ts : list Timestamp) :
  count_bad_steps ts = O <-> all_steps_hourly ts.
Proof.
  unfold count_bad_steps, all_steps_hourly. split.
  - intros Hz i a b Ha Hb.
    assert (Hin : In (b - a) (diff ts)) by (apply diff_steps; eauto 6).
    destruct (b - a =? hours 1) eqn:E; [apply Z.eqb_eq in E; lia|].
    assert (Hf : In (b - a) (filter (fun d => negb (d =? hours 1)) (diff ts)))
      by (apply filter_In; split; [exact Hin | now rewrite E]).
    apply length_zero_iff_nil in Hz. rewrite Hz in Hf. contradiction.
  - intros Hall.
    destruct (filter (fun d => negb (d =? hours 1)) (diff ts)) as [|d l] eqn:Ef;
      [reflexivity|].
    assert (Hd : In d (filter (fun d => negb (d =? hours 1)) (diff ts)))
      by (rewrite Ef; now left).
    apply filter_In in Hd. destruct Hd as [Hd Hneg].
    apply diff_steps in Hd. destruct Hd as (i & a & b & Ha & Hb & ->).
    rewrite (Hall i a b Ha Hb) in Hneg.
    replace (a + hours 1 - a) with (hours 1) in Hneg by (unfold Timestamp in *; lia).
    now rewrite Z.eqb_refl in Hneg.
Qed.

Lemma all_steps_hourly_nth (ts : list Timestamp) (t0 : Timestamp) :
  all_steps_hourly ts -> nth_error ts 0 = Some t0 ->
  forall i t, nth_error ts i = Some t -> t = t0 + hours (Z.of_nat i).
Proof.
  intros Hall H0. induction i as [|i IH]; intros t Ht.
  - rewrite H0 in Ht. injection Ht as <-. unfold hours. cbn. lia.
  - destruct (nth_error ts i) as [u|] eqn:Hu.
    + rewrite (Hall i u t Hu Ht), (IH u eq_refl). unfold hours. lia.
    + apply nth_error_None in Hu.
      assert (S i < List.length ts)%nat by (apply nth_error_Some; congruence).
      lia.
Qed.

(** X3.  The merge step reports no irregular step exactly when every
    step of the saved table is one hour; the table is then the
    unbroken run of hours from its first timestamp. *)
Theorem normalize_bad_zero_hourly (dfs : list Table) (r : Normalized) :
  normalize dfs = Ok r ->
  (bad r = O <-> all_steps_hourly (times (df_all r)))
  /\ (bad r = O ->
      forall t0 i t, nth_error (times (df_all r)) 0 = Some t0 ->
                     nth_error (times (df_all r)) i = Some t ->
                     t = t0 + hours (Z.of_nat i)).
Proof.
  intros Hrun.
  assert (Hne : dfs <> []) by (intros ->; discriminate).
  rewrite (normalize_nonempty dfs Hne) in Hrun. injection Hrun as <-.
  cbn [df_all bad]. split; [apply count_bad_steps_zero|].
  intros Hz t0 i t H0 Ht.
  apply count_bad_steps_zero in Hz.
  exact (all_steps_hourly_nth _ _ Hz H0 i t Ht).
Qed.

Lemma normalize_bad_zero_hourly_witness :
  bad (mkNormalized (drop_duplicates (sort_values (concat [part_a; part_b]))) 1 0) = O
  <-> all_steps_hourly (times (df_all
        (mkNormalized (drop_duplicates (sort_values (concat [part_a; part_b]))) 1 0))).
Proof.
  refine (proj1 (normalize_bad_zero_hourly [part_a; part_b] _ _)).
  vm_compute. reflexivity.
Defined.

(** *** Frames from the payload *)



(** *** The fetch loop *)

Lemma collect_parts_nth (chunks : list (Timestamp * Timestamp)) :
  forall answers dfs i df,
    collect_parts chunks answers = Ok dfs ->
    nth_error dfs i = Some df ->
    exists c d tbl,
      nth_error chunks i = Some c /\ nth_error answers i = Some d
      /\ json_to_dataframe (fst d) (snd d) = Ok tbl
      /\ df = clip_to_exact_range tbl (day_floor (fst c)) (day_floor (snd c)).
Proof.
  induction chunks as [|c chunks IH]; intros answers dfs i df Hrun Hnth.
  - cbn in Hrun. injection Hrun as <-. destruct i; discriminate.
  - destruct answers as [|d answers].
    + cbn in Hrun. injection Hrun as <-. destruct i; discriminate.
    + cbn [collect_parts] in Hrun.
      destruct (json_to_dataframe (fst d) (snd d)) as [tbl|e] eqn:Hj; [|discriminate].
      cbn [bind] in Hrun.
      destruct (collect_parts chunks answers) as [rest|e] eqn:Hrest; [|discriminate].
      cbn [bind] in Hrun. injection Hrun as <-.
      destruct i as [|i]; cbn [nth_error] in Hnth.
      * injection Hnth as <-. exists c, d, tbl. repeat split; assumption.
      * destruct (IH answers rest i df Hrest Hnth) as (c' & d' & tbl' & H1 & H2 & H3 & H4).
        exists c', d', tbl'. repeat split; assumption.
Qed.

Lemma clip_In (df : Table) (a b : Timestamp) (r : Obs) :
  In r (clip_to_exact_range df a b) <->
  In r df /\ a <= time r <= b + hours 23.
Proof.
  unfold clip_to_exact_range. rewrite filter_In, andb_true_iff, !Z.leb_le. tauto.
Qed.

Lemma day_floor_le (a t : Timestamp) :
  day_floor a <= t <-> day_number a <= day_number t.
Proof.
  unfold day_floor, day_number, NS_PER_DAY, NS_PER_HOUR.
  Z.to_euclidean_division_equations; lia.
Qed.

Lemma le_day_floor_23 (t e : Timestamp) :
  t <= day_floor e + hours 23 -> day_number t <= day_number e.
Proof.
  unfold day_floor, day_number, hours, NS_PER_DAY, NS_PER_HOUR.
  Z.to_euclidean_division_equations; lia.
Qed.

Lemma year_mono (a b : Timestamp) : a <= b -> year a <= year b.
Proof. intros Hab. apply year_of_day_mono, day_number_mono, Hab. Qed.

(** The rows of the part fetched for chunk [i]: they lie in the
    calendar year of the chunk and within the configured range, and
    their timestamps are among those the provider answered. *)
Lemma collect_parts_rows (start_date end_date : Timestamp)
    (answers : list (list Timestamp * list (option Q))) (dfs : list Table) :
  start_date <= end_date ->
  collect_parts (year_chunks_ts start_date end_date) answers = Ok dfs ->
  forall i df row, nth_error dfs i = Some df -> In row df ->
    year (time row) = year start_date + Z.of_nat i
    /\ day_floor start_date <= time row <= day_floor end_date + hours 23
    /\ exists d, nth_error answers i = Some d /\ In (time row) (fst d).
Proof.
  intros Hle Hrun i df row Hnth Hrow.
  destruct (collect_parts_nth _ _ _ _ _ Hrun Hnth) as (c & d & tbl & Hc & Hd & Hj & ->).
  apply clip_In in Hrow. destruct Hrow as [Hin [Hlo Hhi]].
  destruct (ChunkerFacts.year_chunks_cover _ _ Hle) as (_ & Hchunk & _).
  destruct (Hchunk i c Hc) as (_ & Hceq & Hy1 & Hy2 & _). cbv zeta in *.
  pose proof Hhi as Hhi'.
  apply day_floor_le in Hlo. apply le_day_floor_23 in Hhi.
  assert (Hs : day_number start_date <= day_number (fst c)).
  { apply day_number_mono. rewrite Hceq. cbn [fst]. lia. }
  assert (He : day_number (snd c) <= day_number end_date).
  { apply day_number_mono. rewrite Hceq. cbn [snd]. lia. }
  split.
  { pose proof (year_of_day_mono _ _ Hlo) as H1.
    pose proof (year_of_day_mono _ _ Hhi) as H2.
    unfold year in *. lia. }
  split.
  { split; [apply day_floor_le; lia|].
    unfold day_floor in *. unfold NS_PER_DAY, NS_PER_HOUR in *. lia. }
  exists d. split; [exact Hd|].
  unfold json_to_dataframe in Hj.
  destruct (_ =? _)%nat; [|discriminate]. injection Hj as <-.
  apply (Permutation_in _ (sort_values_perm _)) in Hin.
  apply in_map_iff in Hin. destruct Hin as ([t v] & <- & Hin).
  apply in_combine_l in Hin. exact Hin.
Qed.

(** X5.  The parts fetched for different chunks do not meet: every row of
    an earlier chunk is dated before every row of a later one, in the
    calendar year of its own chunk. *)
Theorem chunk_parts_ordered (start_date end_date : Timestamp)
    (answers : list (list Timestamp * list (option Q))) (dfs : list Table) :
  start_date <= end_date ->
  collect_parts (year_chunks_ts start_date end_date) answers = Ok dfs ->
  forall i j di dj ri rj,
    (i < j)%nat ->
    nth_error dfs i = Some di -> nth_error dfs j = Some dj ->
    In ri di -> In rj dj ->
    year (time ri) = year start_date + Z.of_nat i
    /\ year (time rj) = year start_date + Z.of_nat j
    /\ time ri < time rj.
Proof.
  intros Hle Hrun i j di dj ri rj Hij Hi Hj Hri Hrj.
  destruct (collect_parts_rows _ _ _ _ Hle Hrun i di ri Hi Hri) as (Hyi & _).
  destruct (collect_parts_rows _ _ _ _ Hle Hrun j dj rj Hj Hrj) as (Hyj & _).
  split; [exact Hyi|]. split; [exact Hyj|].
  destruct (Z_lt_le_dec (time ri) (time rj)) as [Hlt|Hge]; [exact Hlt|].
  pose proof (year_mono _ _ Hge). lia.
Qed.

Lemma chunk_parts_ordered_witness :
  year (mk_time 2024 12 31 23 0) = year (mk_date 2024 12 31) + Z.of_nat 0
  /\ year (mk_time 2025 1 1 0 0) = year (mk_date 2024 12 31) + Z.of_nat 1
  /\ mk_time 2024 12 31 23 0 < mk_time 2025 1 1 0 0.
Proof.
  set (d0 := [mkObs (mk_time 2024 12 31 22 0) (Some (5 # 1));
              mkObs (mk_time 2024 12 31 23 0) (Some (4 # 1))]).
  set (d1 := [mkObs (mk_time 2025 1 1 0 0) (Some (3 # 1));
              mkObs (mk_time 2025 1 1 1 0) (Some (2 # 1))]).
  assert (Hle : mk_date 2024 12 31 <= mk_date 2025 1 1)
    by (vm_compute; discriminate).
  assert (Hrun : collect_parts (year_chunks_ts (mk_date 2024 12 31) (mk_date 2025 1 1))
                               new_year_answers = Ok [d0; d1])
    by (vm_compute; reflexivity).
  apply (chunk_parts_ordered _ _ _ _ Hle Hrun 0%nat 1%nat d0 d1
           (mkObs (mk_time 2024 12 31 23 0) (Some (4 # 1)))
           (mkObs (mk_time 2025 1 1 0 0) (Some (3 # 1)))).
  - constructor.
  - reflexivity.
  - reflexivity.
  - right. left. reflexivity.
  - left. reflexivity.
Defined.

(** X6.  What [__main__] saves lies between the first hour of the start
    date and the last hour of the end date, increases strictly, and
    holds only timestamps the provider answered. *)
Theorem main_rows_within_range (start_date end_date : Timestamp)
    (answers : list (list Timestamp * list (option Q))) (r : Normalized) :
  start_date <= end_date ->
  main start_date end_date answers = Ok r ->
  StronglySorted Z.lt (times (df_all r))
  /\ forall row, In row (df_all r) ->
       day_floor start_date <= time row <= day_floor end_date + hours 23
       /\ exists d, In d answers /\ In (time row) (fst d).
Proof.
  intros Hle Hrun. unfold main in Hrun.
  destruct (collect_parts _ answers) as [dfs|e] eqn:Hparts; [|discriminate].
  cbn [bind] in Hrun.
  assert (Hne : dfs <> []) by (intros ->; discriminate).
  rewrite (normalize_nonempty dfs Hne) in Hrun. injection Hrun as <-.
  cbn [df_all]. split.
  { apply sorted_NoDup_strict;
      [apply drop_dup_from_sorted, sort_values_sorted | apply drop_dup_from_NoDup]. }
  intros row Hrow. apply drop_dup_from_In in Hrow. destruct Hrow as [Hrow _].
  apply (Permutation_in _ (sort_values_perm _)) in Hrow.
  apply in_concat in Hrow. destruct Hrow as (df & Hdf & Hrow).
  apply In_nth_error in Hdf. destruct Hdf as (i & Hi).
  destruct (collect_parts_rows _ _ _ _ Hle Hparts i df row Hi Hrow)
    as (_ & Hrange & d & Hd & Hin).
  split; [exact Hrange|].
  exists d. split; [eapply nth_error_In; exact Hd | exact Hin].
Qed.

Lemma main_rows_within_range_witness :
  exists r,
    main (mk_date 2024 12 31) (mk_date 2025 1 1) new_year_answers = Ok r
    /\ StronglySorted Z.lt (times (df_all r)).
Proof.
  destruct (main (mk_date 2024 12 31) (mk_date 2025 1 1) new_year_answers)
    as [r|e] eqn:Hrun; [|vm_compute in Hrun; discriminate].
  exists r. split; [reflexivity|].
  refine (proj1 (main_rows_within_range _ _ _ r _ Hrun)).
  vm_compute. discriminate.
Defined.

End ApiFacts.

(* ================================================================== *)
(** ** More on the feature builders *)

Module PipelineFacts.
Import Calendar CalendarFacts BuildFeatures FrameFacts CadenceFacts TrainFacts.

(** *** The calendar columns *)

Lemma dayofweek_range (t : Timestamp) : 0 <= dayofweek t <= 6.
Proof.
  unfold dayofweek.
  pose proof (Z.mod_pos_bound (day_number t + 3) 7 ltac:(lia)). lia.
Qed.

Lemma dayofyear_range (t : Timestamp) : 1 <= dayofyear t <= 366.
Proof.
  unfold dayofyear, year. fold (jan1 (year_of_day (day_number t))).
  pose proof (year_of_day_bounds (day_number t)).
  pose proof (year_length (year_of_day (day_number t))). lia.
Qed.

Lemma Qle_bool_inject_Z (a b : Z) :
  Qle_bool (inject_Z a) (inject_Z b) = (a <=? b).
Proof. unfold Qle_bool, inject_Z. cbn [Qnum Qden]. now rewrite !Z.mul_1_r. Qed.

Section TimeColumns.
Context `{Numpy}.

(** X7.  The calendar columns of [add_time_features], row by row: the
    hour lies in 0..23, the day of the week in 0..6 (Monday is 0), the
    day of the year in 1..366, and the weekend flag is 1 exactly on
    days 5 and 6, else 0. *)
Theorem time_feature_ranges (df out : DataFrame) (ts_col : string)
    (ts : list Timestamp) :
  get_col df ts_col = Some (STime ts) ->
  add_time_features df ts_col = Ok out ->
  get_col out "hour" = Some (SInt (map hour ts))
  /\ get_col out "day_of_week" = Some (SInt (map dayofweek ts))
  /\ get_col out "is_weekend"
     = Some (SInt (map (fun t => if 5 <=? dayofweek t then 1 else 0) ts))
  /\ get_col out "sin_doy"
     = Some (SFloat (map (fun t =>
                Some (np_sin (2 * np_pi * inject_Z (dayofyear t) / 365)%Q)) ts))
  /\ get_col out "cos_hour"
     = Some (SFloat (map (fun t =>
                Some (np_cos (2 * np_pi * inject_Z (hour t) / 24)%Q)) ts))
  /\ forall t, In t ts ->
       0 <= hour t <= 23 /\ 0 <= dayofweek t <= 6 /\ 1 <= dayofyear t <= 366
       /\ ((if 5 <=? dayofweek t then 1 else 0) = 1
           <-> dayofweek t = 5 \/ dayofweek t = 6).
Proof.
  intros Hget Hrun. apply add_time_features_Ok in Hrun.
  destruct Hrun as (ts' & Hget' & ->). rewrite Hget in Hget'.
  injection Hget' as <-.
  unfold with_time_features. cbv zeta.
  rewrite !get_col_setitem.
  cbn [String.eqb Ascii.eqb Bool.eqb].
  split; [reflexivity|]. split; [reflexivity|].
  split.
  { do 2 f_equal. rewrite !map_map. apply map_ext. intros t.
    change 5%Q with (inject_Z 5). now rewrite Qle_bool_inject_Z. }
  split; [now rewrite !map_map|].
  split; [now rewrite !map_map|].
  intros t _.
  pose proof (NormalizerFacts.hour_range t).
  pose proof (dayofweek_range t) as Hd. pose proof (dayofyear_range t).
  repeat split; try lia.
  - destruct (Z.leb_spec 5 (dayofweek t)); [lia | discriminate].
  - intros Hw. destruct (Z.leb_spec 5 (dayofweek t)); [reflexivity | lia].
Qed.

End TimeColumns.

Lemma time_feature_ranges_witness :
  exists out,
    @add_time_features sample_numpy two_rows "time" = Ok out
    /\ get_col out "hour" = Some (SInt (map hour [fall_back; fall_back + hours 1]))
    /\ get_col out "day_of_week"
       = Some (SInt (map dayofweek [fall_back; fall_back + hours 1])).
Proof.
  destruct (@add_time_features sample_numpy two_rows "time") as [out|e] eqn:Hrun;
    [|vm_compute in Hrun; discriminate].
  destruct (@time_feature_ranges sample_numpy two_rows out "time"
              [fall_back; fall_back + hours 1] eq_refl Hrun)
    as (Hh & Hd & _).
  exists out. repeat split; assumption.
Defined.

(** *** Sorting by time *)

Lemma insert_key_perm (p : Z * nat) (l : list (Z * nat)) :
  Permutation (insert_key p l) (p :: l).
Proof.
  induction l as [|x l IH]; cbn [insert_key]; [reflexivity|].
  destruct (fst p <=? fst x); [reflexivity|].
  rewrite IH. apply perm_swap.
Qed.

Lemma sort_keys_perm (l : list (Z * nat)) :
  Permutation (fold_right insert_key [] l) l.
Proof.
  induction l as [|x l IH]; cbn [fold_right]; [reflexivity|].
  rewrite insert_key_perm. now constructor.
Qed.

Lemma insert_key_sorted (p : Z * nat) (l : list (Z * nat)) :
  StronglySorted (fun a b => fst a <= fst b) l ->
  StronglySorted (fun a b => fst a <= fst b) (insert_key p l).
Proof.
  induction 1 as [|x l Hs IH Hx]; cbn [insert_key].
  - repeat constructor.
  - destruct (fst p <=? fst x) eqn:E.
    + apply Z.leb_le in E. constructor; [now constructor|].
      constructor; [exact E|].
      eapply Forall_impl; [|exact Hx]. cbv beta. intros; lia.
    + apply Z.leb_gt in E. constructor; [exact IH|].
      apply (Permutation_Forall (Permutation_sym (insert_key_perm p l))).
      constructor; [lia | exact Hx].
Qed.

Lemma sort_keys_sorted (l : list (Z * nat)) :
  StronglySorted (fun a b => fst a <= fst b) (fold_right insert_key [] l).
Proof.
  induction l; cbn [fold_right]; [constructor | now apply insert_key_sorted].
Qed.

Lemma combine_seq_nth (ts : list Z) :
  forall k t i, In (t, i) (combine ts (seq k (List.length ts))) ->
                (k <= i)%nat /\ nth_error ts (i - k) = Some t.
Proof.
  induction ts as [|a ts IH]; intros k t i Hin; [contradiction|].
  cbn [List.length seq combine In] in Hin. destruct Hin as [[= <- <-]|Hin].
  - rewrite Nat.sub_diag. split; [lia | reflexivity].
  - destruct (IH (S k) t i Hin) as [Hk Hn]. split; [lia|].
    replace (i - k)%nat with (S (i - S k)) by lia. exact Hn.
Qed.

Lemma map_fst_combine_seq (ts : list Z) :
  forall k, map fst (combine ts (seq k (List.length ts))) = ts.
Proof.
  induction ts as [|a ts IH]; intros k; [reflexivity|].
  cbn [List.length seq combine map fst]. now rewrite IH.
Qed.

Lemma take_list_pairs (ts : list Z) (pairs : list (Z * nat)) :
  Forall (fun p => nth_error ts (snd p) = Some (fst p)) pairs ->
  take_list (map snd pairs) ts = map fst pairs.
Proof.
  induction 1 as [|p pairs Hp Hall IH]; [reflexivity|].
  cbn [map]. rewrite (take_list_cons _ _ _ _ Hp). now rewrite IH.
Qed.

(** Sorting keeps every timestamp and puts them in ascending order. *)
Lemma sorted_times_spec (ts : list Z) :
  StronglySorted Z.le (sorted_times ts) /\ Permutation (sorted_times ts) ts.
Proof.
  unfold sorted_times, argsort, Timestamp.
  set (pairs := fold_right insert_key [] (combine ts (seq 0 (List.length ts)))).
  assert (Hperm : Permutation pairs (combine ts (seq 0 (List.length ts))))
    by apply sort_keys_perm.
  assert (Hok : Forall (fun p => nth_error ts (snd p) = Some (fst p)) pairs).
  { apply Forall_forall. intros [t i] Hin.
    apply (Permutation_in _ Hperm) in Hin.
    apply combine_seq_nth in Hin. destruct Hin as [_ Hn].
    now rewrite Nat.sub_0_r in Hn. }
  rewrite (take_list_pairs ts pairs Hok). split.
  - pose proof (sort_keys_sorted (combine ts (seq 0 (List.length ts)))) as Hs.
    fold pairs in Hs. clear - Hs.
    induction Hs as [|x l Hs IH Hx]; cbn [map]; constructor; [exact IH|].
    apply Forall_forall. intros t Ht. apply in_map_iff in Ht.
    destruct Ht as (y & <- & Hy). rewrite Forall_forall in Hx. now apply Hx.
  - rewrite (Permutation_map fst Hperm). now rewrite map_fst_combine_seq.
Qed.

Lemma sorted_le_monotonic (ts : list Timestamp) :
  StronglySorted Z.le ts -> is_monotonic_increasing ts = true.
Proof.
  induction 1 as [|x l Hs IH Hx]; [reflexivity|].
  destruct l as [|y l]; [reflexivity|].
  change (is_monotonic_increasing (x :: y :: l))
    with ((x <=? y) && is_monotonic_increasing (y :: l)).
  rewrite IH, andb_true_r. apply Z.leb_le. now inversion Hx.
Qed.

Lemma sorted_nth_le (ts : list Timestamp) :
  StronglySorted Z.le ts ->
  forall i k a b, (i < k)%nat -> nth_error ts i = Some a ->
                  nth_error ts k = Some b -> a <= b.
Proof.
  induction 1 as [|x l Hs IH Hx]; intros i k a b Hik Ha Hb.
  - destruct i; discriminate.
  - destruct k as [|k]; [lia|]. cbn [nth_error] in Hb.
    destruct i as [|i]; cbn [nth_error] in Ha.
    + injection Ha as <-. rewrite Forall_forall in Hx. apply Hx.
      eapply nth_error_In; exact Hb.
    + apply (IH i k a b); [lia | assumption | assumption].
Qed.

(** *** [check_hourly], error by error *)

Lemma check_hourly_sorted (df : DataFrame) (ts_col : string) (ts : list Timestamp) :
  get_col df ts_col = Some (STime ts) ->
  is_monotonic_increasing ts = true ->
  check_hourly df ts_col =
  if issubset (unique (diff ts)) allowed then Ok tt
  else Raise (ValueError "Found non-hourly gaps in the time series.").
Proof.
  intros Hget Hmono. unfold check_hourly, getitem. rewrite Hget.
  cbn [bind to_datetime]. rewrite Hmono. cbn [negb].
  now destruct (issubset _ _).
Qed.

(** X8.  [check_hourly] raises [KeyError] when the frame has no such
    column; on a time column with a step backwards it raises
    "Timestamps are not sorted ascending."; on an ascending one with a
    step other than one hour or zero it raises "Found non-hourly gaps
    in the time series.". *)
Theorem check_hourly_errors (df : DataFrame) (ts_col : string) :
  (get_col df ts_col = None -> check_hourly df ts_col = Raise (KeyError ts_col))
  /\ forall ts, get_col df ts_col = Some (STime ts) ->
       ((exists i a b, nth_error ts i = Some a /\ nth_error ts (S i) = Some b
                       /\ b < a) ->
        check_hourly df ts_col
        = Raise (ValueError "Timestamps are not sorted ascending."))
       /\ ((forall i a b, nth_error ts i = Some a -> nth_error ts (S i) = Some b ->
                          a <= b) ->
           ~ steps_hourly_or_zero ts ->
           check_hourly df ts_col
           = Raise (ValueError "Found non-hourly gaps in the time series.")).
Proof.
  split.
  { intros Hnone. unfold check_hourly, getitem. now rewrite Hnone. }
  intros ts Hget. split.
  - intros (i & a & b & Ha & Hb & Hlt).
    unfold check_hourly, getitem. rewrite Hget. cbn [bind to_datetime].
    destruct (is_monotonic_increasing ts) eqn:Em; [|reflexivity].
    exfalso. rewrite is_monotonic_increasing_iff in Em.
    specialize (Em (b - a) ltac:(apply diff_In; eauto 6)). lia.
  - intros Hasc Hgap.
    assert (Hm : is_monotonic_increasing ts = true).
    { apply is_monotonic_increasing_iff. intros d Hd. apply diff_In in Hd.
      destruct Hd as (i & a & b & Ha & Hb & ->).
      specialize (Hasc i a b Ha Hb). lia. }
    rewrite (check_hourly_sorted _ _ _ Hget Hm).
    destruct (issubset (unique (diff ts)) allowed) eqn:Es; [|reflexivity].
    exfalso. apply Hgap. apply steps_hourly_or_zero_diff.
    now apply issubset_unique_allowed.
Qed.

(** *** The steps of [build_train_features], one by one *)

Lemma take_list_map {A B : Type} (f : A -> B) (idx : list nat) (v : list A) :
  take_list idx (map f v) = map f (take_list idx v).
Proof.
  unfold take_list. induction idx as [|i idx IH]; [reflexivity|].
  cbn [flat_map]. rewrite map_app, IH, nth_error_map.
  now destruct (nth_error v i).
Qed.

Lemma to_float_take (s : Series) (v : list (option Q)) (idx : list nat) :
  to_float s = Ok v -> to_float (take_series idx s) = Ok (take_list idx v).
Proof.
  destruct s; cbn [to_float take_series]; intros [= <-];
    [now rewrite take_list_map | reflexivity].
Qed.

Lemma take_list_In {A : Type} (idx : list nat) (v : list A) (x : A) :
  In x (take_list idx v) -> exists i, In i idx /\ nth_error v i = Some x.
Proof.
  unfold take_list. intros Hin. apply in_flat_map in Hin.
  destruct Hin as (i & Hi & Hx). exists i. split; [exact Hi|].
  destruct (nth_error v i); [|contradiction].
  destruct Hx as [->|[]]. reflexivity.
Qed.

Lemma mask_index_from_nil (m : list bool) :
  forall k, mask_index_from k m = [] <-> forall b, In b m -> b = false.
Proof.
  induction m as [|b m IH]; intros k; cbn [mask_index_from].
  - split; [intros _ b [] | reflexivity].
  - destruct b.
    + split; [discriminate|]. intros Hall. specialize (Hall true (or_introl eq_refl)).
      discriminate.
    + rewrite IH. split.
      * intros Hall b [<-|Hb]; [reflexivity | now apply Hall].
      * intros Hall b Hb. apply Hall. now right.
Qed.

Lemma columns_get_col (df : DataFrame) (c : string) :
  In c (columns df) <-> exists s, get_col df c = Some s.
Proof.
  rewrite <- has_column_get_col. unfold has_column.
  rewrite existsb_exists. split.
  - intros Hin. exists c. split; [exact Hin | apply String.eqb_refl].
  - intros (x & Hx & Heq). apply String.eqb_eq in Heq. now subst.
Qed.

Lemma select_total (df : DataFrame) (cols : list string) :
  (forall c, In c cols -> In c (columns df)) ->
  exists out, select df cols = Ok out.
Proof.
  induction cols as [|c cols IH]; intros Hall; [now exists []|].
  destruct (proj1 (columns_get_col df c) (Hall c (or_introl eq_refl))) as (s & Hs).
  destruct IH as (rest & Hrest); [intros c' Hc'; apply Hall; now right|].
  exists ((c, s) :: rest). cbn [select]. unfold getitem.
  now rewrite Hs, Hrest.
Qed.

Section Steps.
Context `{Numpy}.

Lemma load_and_clip_eq (staging : DataFrame) (cutoff : Timestamp)
    (ts : list Timestamp) :
  get_col staging "time" = Some (STime ts) ->
  has_column staging "temp_obs" = true ->
  load_and_clip staging cutoff =
  (check_hourly (take (argsort ts) staging) "time" ;;;
   if Nat.eqb (nrows (select_mask (map (fun t => t <=? cutoff) (sorted_times ts))
                                  (take (argsort ts) staging))) 0
   then Raise (ValueError "Training data is empty after applying the cutoff.")
   else Ok (select_mask (map (fun t => t <=? cutoff) (sorted_times ts))
                        (take (argsort ts) staging))).
Proof.
  intros Hget Hobs. unfold load_and_clip.
  rewrite (proj2 (has_column_get_col staging "time")) by eauto.
  rewrite Hobs. cbn [negb orb]. unfold getitem at 1. rewrite Hget.
  cbn [bind to_datetime]. rewrite (setitem_same _ _ _ Hget).
  destruct (check_hourly (take (argsort ts) staging) "time"); [|reflexivity].
  cbn [bind]. unfold getitem. rewrite get_col_take, Hget.
  reflexivity.
Qed.

Lemma add_history_features_eq (df : DataFrame) :
  add_history_features df =
  (col <- getitem df "temp_obs" ;;
   obs <- to_float col ;;
   Ok (history_frame obs df)).
Proof. reflexivity. Qed.

Lemma train_features_eq (base : DataFrame) (ts : list Timestamp)
    (s : Series) (obs : list (option Q)) :
  get_col base "time" = Some (STime ts) ->
  get_col base "temp_obs" = Some s ->
  to_float s = Ok obs ->
  train_features base = Ok (history_frame obs (with_time_features ts base)).
Proof.
  intros Hget Hobs Hfl. unfold train_features.
  rewrite add_time_features_eq. unfold getitem at 1. rewrite Hget.
  cbn [bind to_datetime]. rewrite add_history_features_eq. unfold getitem.
  rewrite get_col_with_time_features.
  cbn [existsb time_feature_names String.eqb Ascii.eqb Bool.eqb orb].
  now rewrite Hobs; cbn [bind]; rewrite Hfl.
Qed.

Lemma frame_of_history_frame (obs : list (option Q)) (df : DataFrame) :
  frame_of (List.length obs) df -> frame_of (List.length obs) (history_frame obs df).
Proof.
  intros Hf. unfold history_frame. cbv zeta.
  repeat (apply frame_of_setitem;
          [|cbn [series_len];
            try rewrite series_sub_length by (now rewrite !shift_length);
            rewrite ?rolling_length, ?shift_length; reflexivity]).
  exact Hf.
Qed.

(** What [load_and_clip] returns, in terms of the staging columns. *)
Lemma load_and_clip_inv (staging base : DataFrame) (cutoff : Timestamp) :
  well_formed staging ->
  load_and_clip staging cutoff = Ok base ->
  exists ts s,
    get_col staging "time" = Some (STime ts)
    /\ get_col staging "temp_obs" = Some s
    /\ steps_hourly_or_zero (sorted_times ts)
    /\ base = train_base staging cutoff ts
    /\ well_formed base /\ base <> []
    /\ get_col base "time" = Some (STime (base_times cutoff ts))
    /\ get_col base "temp_obs"
       = Some (take_series (clip_rows cutoff ts) (take_series (argsort ts) s))
    /\ nrows base = List.length (base_times cutoff ts)
    /\ base_times cutoff ts <> []
    /\ columns base = columns staging.
Proof.
  intros Hwf Hbase.
  assert (Hcols : exists ts s, get_col staging "time" = Some (STime ts)
                               /\ get_col staging "temp_obs" = Some s).
  { unfold load_and_clip in Hbase.
    destruct (has_column staging "time") eqn:Ht; [|discriminate].
    destruct (has_column staging "temp_obs") eqn:Ho; [|discriminate].
    apply has_column_get_col in Ht, Ho.
    destruct Ht as (col & Hcol). destruct Ho as (s & Hs).
    cbn [negb orb] in Hbase. unfold getitem at 1 in Hbase. rewrite Hcol in Hbase.
    cbn [bind] in Hbase. destruct col as [ts|v|v]; try discriminate. eauto. }
  destruct Hcols as (ts & s & Hget & Hobs).
  rewrite (load_and_clip_eq staging cutoff ts Hget) in Hbase
    by (apply has_column_get_col; eauto).
  pose proof (well_formed_get_col _ _ _ Hwf Hget) as Hn. cbn [series_len] in Hn.
  assert (Hne : staging <> []) by (intros ->; discriminate).
  destruct (well_formed_take staging (argsort ts) Hwf) as [Hwf1 Hn1];
    [rewrite <- Hn; apply argsort_bound|]. specialize (Hn1 Hne).
  assert (Hget1 : get_col (take (argsort ts) staging) "time"
                  = Some (STime (sorted_times ts)))
    by (now rewrite get_col_take, Hget).
  pose proof (well_formed_get_col _ _ _ Hwf1 Hget1) as Hlen1.
  cbn [series_len] in Hlen1.
  destruct (check_hourly (take (argsort ts) staging) "time") as [[]|e] eqn:Hcheck;
    [|discriminate].
  apply (proj1 (check_hourly_spec _ _ _ Hget1)) in Hcheck.
  cbn [bind] in Hbase. unfold select_mask in Hbase.
  fold (clip_rows cutoff ts) in Hbase. fold (train_base staging cutoff ts) in Hbase.
  assert (Hidx : Forall (fun i => (i < nrows (take (argsort ts) staging))%nat)
                        (clip_rows cutoff ts)).
  { unfold clip_rows. eapply Forall_impl; [|apply mask_index_bound].
    intros i Hi. cbv beta in Hi. rewrite length_map in Hi. now rewrite <- Hlen1. }
  destruct (well_formed_take _ _ Hwf1 Hidx) as [Hwfb Hnb].
  specialize (Hnb (take_nonempty _ _ Hne)).
  fold (train_base staging cutoff ts) in Hwfb, Hnb.
  destruct (Nat.eqb (nrows (train_base staging cutoff ts)) 0) eqn:Hz; [discriminate|].
  injection Hbase as <-. apply Nat.eqb_neq in Hz.
  assert (Hgetb : get_col (train_base staging cutoff ts) "time"
                  = Some (STime (base_times cutoff ts)))
    by (unfold train_base; now rewrite get_col_take, Hget1).
  pose proof (well_formed_get_col _ _ _ Hwfb Hgetb) as Hlenb.
  cbn [series_len] in Hlenb.
  exists ts, s.
  split; [exact Hget|]. split; [exact Hobs|]. split; [exact Hcheck|].
  split; [reflexivity|]. split; [exact Hwfb|].
  split; [apply take_nonempty, take_nonempty, Hne|].
  split; [exact Hgetb|].
  split; [unfold train_base; now rewrite !get_col_take, Hobs|].
  split; [now rewrite Hlenb|].
  split; [intros Hnil; rewrite Hnil in Hlenb; cbn in Hlenb; lia|].
  unfold train_base. now rewrite !columns_take.
Qed.

(** What [train_features] returns on a well-formed base table. *)
Lemma train_features_inv (base feat : DataFrame) (ts : list Timestamp) :
  well_formed base -> base <> [] ->
  get_col base "time" = Some (STime ts) ->
  train_features base = Ok feat ->
  exists s obs,
    get_col base "temp_obs" = Some s /\ to_float s = Ok obs
    /\ List.length obs = List.length ts
    /\ feat = history_frame obs (with_time_features ts base)
    /\ frame_of (List.length ts) feat.
Proof.
  intros Hwf Hne Hget Hfeat.
  destruct (train_features_cols _ _ _ Hwf Hne Hget Hfeat)
    as (s & obs & Hobs & Hfl & Hlen & Hframe & _).
  rewrite (train_features_eq base ts s obs Hget Hobs Hfl) in Hfeat.
  injection Hfeat as <-.
  exists s, obs. repeat split; try assumption; apply Hframe.
Qed.

(** Dropping rows and ordering the columns. *)
Lemma dropna_select_inv (feat out : DataFrame) (ts : list Timestamp) :
  frame_of (List.length ts) feat ->
  get_col feat "time" = Some (STime ts) ->
  select (dropna feat)
         ("time" :: filter (fun c => negb (String.eqb c "time"))
                           (columns (dropna feat)))%string = Ok out ->
  columns out
  = ("time" :: filter (fun c => negb (String.eqb c "time")) (columns feat))%string
  /\ (forall c x, get_col feat c = Some x ->
                  get_col out c = Some (take_series (kept_rows feat) x))
  /\ nrows out = List.length (kept_rows feat)
  /\ Forall (fun i => (i < List.length ts)%nat) (kept_rows feat).
Proof.
  intros Hframe Hftime Hrun.
  destruct (dropna_kept _ _ Hframe) as [Hbound _].
  fold (kept_rows feat) in Hbound.
  unfold dropna, select_mask in Hrun. fold (kept_rows feat) in Hrun.
  apply select_get in Hrun. destruct Hrun as [Hcols Hsel].
  rewrite columns_take in Hcols, Hsel.
  assert (Hout : forall c x, get_col feat c = Some x ->
                             get_col out c = Some (take_series (kept_rows feat) x)).
  { intros c x Hx. rewrite Hsel, get_col_take, Hx; [reflexivity|].
    destruct (String.eqb c "time") eqn:E.
    - apply String.eqb_eq in E. subst c. now left.
    - right. apply filter_In. split; [now apply (get_col_columns _ _ x)|].
      now rewrite E. }
  split; [exact Hcols|]. split; [exact Hout|]. split; [|exact Hbound].
  destruct out as [|[c0 s0] out]; [discriminate|].
  cbn [columns map fst] in Hcols. injection Hcols as -> _.
  pose proof (Hout _ _ Hftime) as Hot. cbn [get_col] in Hot.
  rewrite String.eqb_refl in Hot. injection Hot as ->.
  cbn [nrows take_series series_len]. now apply take_list_length.
Qed.

End Steps.

(** *** Masks, positions and order *)

Lemma mask_index_from_sorted (m : list bool) :
  forall k, StronglySorted lt (mask_index_from k m).
Proof.
  induction m as [|b m IH]; intros k; cbn [mask_index_from]; [constructor|].
  destruct b; [|apply IH]. constructor; [apply IH|].
  apply Forall_forall. intros i Hi. apply mask_index_from_In in Hi. lia.
Qed.

Lemma sorted_lt_NoDup (l : list nat) : StronglySorted lt l -> NoDup l.
Proof.
  induction 1 as [|x l Hs IH Hx]; constructor; [|exact IH].
  intros Hin. rewrite Forall_forall in Hx. specialize (Hx x Hin). lia.
Qed.

Lemma take_list_sorted (v : list Timestamp) (idx : list nat) :
  StronglySorted Z.le v -> StronglySorted lt idx ->
  StronglySorted Z.le (take_list idx v).
Proof.
  intros Hv. induction 1 as [|i idx Hs IH Hi]; [constructor|].
  destruct (nth_error v i) as [x|] eqn:Ex.
  - rewrite (take_list_cons _ _ _ _ Ex). constructor; [exact IH|].
    apply Forall_forall. intros y Hy. apply take_list_In in Hy.
    destruct Hy as (k & Hk & Hy). rewrite Forall_forall in Hi.
    exact (sorted_nth_le v Hv i k x y (Hi k Hk) Ex Hy).
  - unfold take_list in *. cbn [flat_map]. rewrite Ex. exact IH.
Qed.

(** Selecting by a mask computed from the values is [filter]. *)
Lemma take_mask_filter {A : Type} (f : A -> bool) (v : list A) :
  forall pre,
    take_list (mask_index_from (List.length pre) (map f v)) (pre ++ v) = filter f v.
Proof.
  induction v as [|a v IH]; intros pre; [reflexivity|].
  cbn [map mask_index_from filter].
  assert (Hrest : take_list (mask_index_from (S (List.length pre)) (map f v))
                            (pre ++ a :: v) = filter f v).
  { specialize (IH (pre ++ [a])). rewrite length_app, <- app_assoc in IH.
    cbn [List.length app] in IH. now rewrite Nat.add_1_r in IH. }
  destruct (f a); [|exact Hrest].
  rewrite (take_list_cons _ _ _ a); [now rewrite Hrest|].
  rewrite nth_error_app2 by lia. now rewrite Nat.sub_diag.
Qed.

Lemma filter_length_perm {A : Type} (f : A -> bool) (l l' : list A) :
  Permutation l l' -> List.length (filter f l) = List.length (filter f l').
Proof.
  induction 1 as [|x l l' Hp IH|x y l|l l' l'' H1 IH1 H2 IH2];
    cbn [filter]; [reflexivity | | | congruence].
  - destruct (f x); cbn [List.length]; congruence.
  - destruct (f x), (f y); reflexivity.
Qed.

(** The rows at or before the cutoff, counted on the staging table. *)
Lemma base_times_filter (cutoff : Timestamp) (ts : list Timestamp) :
  base_times cutoff ts = filter (fun t => t <=? cutoff) (sorted_times ts).
Proof.
  unfold base_times, clip_rows.
  exact (take_mask_filter (fun t => t <=? cutoff) (sorted_times ts) []).
Qed.

Lemma base_times_length (cutoff : Timestamp) (ts : list Timestamp) :
  List.length (base_times cutoff ts)
  = List.length (filter (fun t => t <=? cutoff) ts).
Proof.
  rewrite base_times_filter. apply filter_length_perm, sorted_times_spec.
Qed.

Lemma base_times_sorted (cutoff : Timestamp) (ts : list Timestamp) :
  StronglySorted Z.le (base_times cutoff ts).
Proof.
  unfold base_times, clip_rows.
  apply take_list_sorted; [apply sorted_times_spec | apply mask_index_from_sorted].
Qed.

Lemma base_times_In (cutoff : Timestamp) (ts : list Timestamp) (t : Timestamp) :
  In t (base_times cutoff ts) <-> In t ts /\ t <= cutoff.
Proof.
  rewrite base_times_filter, filter_In, Z.leb_le.
  destruct (sorted_times_spec ts) as [_ Hp].
  split; intros [Hin Hle]; (split; [|exact Hle]).
  - exact (Permutation_in _ Hp Hin).
  - exact (Permutation_in _ (Permutation_sym Hp) Hin).
Qed.

Lemma series_sub_nth (a b : list (option Q)) :
  forall i, nth_error (series_sub a b) i =
            match nth_error a i, nth_error b i with
            | Some x, Some y => Some (sub_opt x y)
            | _, _ => None
            end.
Proof.
  unfold series_sub. revert b.
  induction a as [|x a IH]; intros b i.
  - cbn [combine map]. now destruct i.
  - destruct b as [|y b]; cbn [combine map].
    + destruct i as [|i]; cbn [nth_error]; [reflexivity|].
      now destruct (nth_error a i).
    + destruct i as [|i]; cbn [nth_error]; [reflexivity | apply IH].
Qed.

(** A window of [W] rows that lies inside the column is the rows
    [i-W+1 .. i]. *)
Lemma window_rows (W i : nat) (v : list (option Q)) :
  (W <= S i)%nat -> (i < List.length v)%nat ->
  List.length (window W i v) = W
  /\ forall k, (k < W)%nat ->
       nth_error (window W i v) k = nth_error v (S i - W + k).
Proof.
  intros HW Hi. unfold window. split.
  - rewrite length_skipn, length_firstn. lia.
  - intros k Hk. rewrite nth_error_skipn, nth_error_firstn.
    destruct (Nat.ltb_spec (S i - W + k) (S i)); [reflexivity | lia].
Qed.

(** When as many values are valid as there are cells, none is NaN. *)
Lemma valid_full (v : list (option Q)) :
  (List.length v <= List.length (valid v))%nat -> v = map Some (valid v).
Proof.
  assert (Hle : forall w, (List.length (valid w) <= List.length w)%nat).
  { induction w as [|[q|] w IH]; [cbn; lia | |].
    - change (valid (Some q :: w)) with (q :: valid w). cbn [List.length]. lia.
    - change (valid (None :: w)) with (valid w). cbn [List.length]. lia. }
  induction v as [|[q|] v IH]; intros Hlen; [reflexivity| |].
  - change (valid (Some q :: v)) with (q :: valid v) in *.
    cbn [List.length map] in *. f_equal. apply IH. lia.
  - change (valid (None :: v)) with (valid v) in Hlen.
    cbn [List.length] in Hlen. specialize (Hle v). lia.
Qed.

Section Training.
Context `{Numpy}.

(** The frames a successful [build_train_features] goes through. *)
Lemma build_train_features_inv (staging out : DataFrame) (cutoff : Timestamp) :
  well_formed staging ->
  build_train_features staging cutoff = Ok out ->
  exists ts base sb obs feat,
    get_col staging "time" = Some (STime ts)
    /\ steps_hourly_or_zero (sorted_times ts)
    /\ load_and_clip staging cutoff = Ok base
    /\ get_col base "time" = Some (STime (base_times cutoff ts))
    /\ (get_col base "temp_obs" = Some sb /\ to_float sb = Ok obs)
    /\ List.length obs = List.length (base_times cutoff ts)
    /\ columns base = columns staging
    /\ feat = history_frame obs (with_time_features (base_times cutoff ts) base)
    /\ frame_of (List.length (base_times cutoff ts)) feat
    /\ get_col feat "time" = Some (STime (base_times cutoff ts))
    /\ columns out
       = ("time" :: filter (fun c => negb (String.eqb c "time")) (columns feat))%string
    /\ (forall c x, get_col feat c = Some x ->
                    get_col out c = Some (take_series (kept_rows feat) x))
    /\ nrows out = List.length (kept_rows feat)
    /\ Forall (fun i => (i < List.length (base_times cutoff ts))%nat) (kept_rows feat).
Proof.
  intros Hwf Hrun. unfold build_train_features in Hrun.
  destruct (load_and_clip staging cutoff) as [base|e] eqn:Hbase; [|discriminate].
  cbn [bind] in Hrun.
  destruct (load_and_clip_inv _ _ _ Hwf Hbase)
    as (ts & s & Hget & Hobs & Hsteps & _ & Hwfb & Hneb & Hgetb & _ & _ & _ & Hcols).
  destruct (train_features base) as [feat|e] eqn:Hfeat; [|discriminate].
  cbn [bind] in Hrun.
  destruct (train_features_inv _ _ _ Hwfb Hneb Hgetb Hfeat)
    as (sb & obs & Hobsb & Hfl & Hlen & Hfeq & Hframe).
  assert (Hftime : get_col feat "time" = Some (STime (base_times cutoff ts))).
  { destruct (train_features_cols _ _ _ Hwfb Hneb Hgetb Hfeat)
      as (_ & _ & _ & _ & _ & _ & Ht & _). exact Ht. }
  destruct (dropna_select_inv _ _ _ Hframe Hftime Hrun)
    as (Hc & Hout & Hrows & Hbound).
  exists ts, base, sb, obs, feat.
  split; [exact Hget|]. split; [exact Hsteps|]. split; [reflexivity|].
  split; [exact Hgetb|]. split; [now split|].
  split; [exact Hlen|]. split; [exact Hcols|]. split; [exact Hfeq|].
  split; [exact Hframe|]. split; [exact Hftime|].
  split; [exact Hc|]. split; [exact Hout|].
  split; [exact Hrows | exact Hbound].
Qed.

(** X9.  The table [build_train_features] writes holds only rows of the
    staging table dated at or before the cutoff, in ascending order of
    time. *)
Theorem train_rows_within_cutoff (staging out : DataFrame) (cutoff : Timestamp) :
  well_formed staging ->
  build_train_features staging cutoff = Ok out ->
  exists ts ts_out,
    get_col staging "time" = Some (STime ts)
    /\ get_col out "time" = Some (STime ts_out)
    /\ nrows out = List.length ts_out
    /\ StronglySorted Z.le ts_out
    /\ forall t, In t ts_out -> In t ts /\ t <= cutoff.
Proof.
  intros Hwf Hrun.
  destruct (build_train_features_inv _ _ _ Hwf Hrun)
    as (ts & base & sb & obs & feat & Hget & _ & _ & _ & _ & _ & _ & _
        & _ & Hftime & _ & Hout & Hrows & Hbound).
  exists ts, (take_list (kept_rows feat) (base_times cutoff ts)).
  split; [exact Hget|].
  split; [exact (Hout _ _ Hftime)|].
  split; [now rewrite Hrows, take_list_length|].
  split.
  - apply take_list_sorted; [apply base_times_sorted|].
    apply mask_index_from_sorted.
  - intros t Ht. apply take_list_In in Ht. destruct Ht as (i & _ & Hi).
    apply base_times_In. eapply nth_error_In; exact Hi.
Qed.

(** The feature columns of the frame before rows are dropped. *)
Lemma history_frame_cols (obs : list (option Q)) (df : DataFrame) :
  get_col (history_frame obs df) "temp_lag_168" = Some (SFloat (shift 168 obs))
  /\ get_col (history_frame obs df) "temp_diff_1"
     = Some (SFloat (series_sub (shift 1 obs) (shift 2 obs)))
  /\ get_col (history_frame obs df) "roll_mean_24"
     = Some (SFloat (rolling 24 24 agg_mean obs))
  /\ get_col (history_frame obs df) "roll_std_24"
     = Some (SFloat (rolling 24 24 agg_std obs)).
Proof.
  unfold history_frame. cbv zeta.
  repeat split; rewrite !get_col_setitem; reflexivity.
Qed.

(** A retained row has a week of rows above it. *)
Lemma kept_rows_week (obs : list (option Q)) (df : DataFrame) (n i : nat) :
  frame_of n (history_frame obs df) -> List.length obs = n ->
  In i (kept_rows (history_frame obs df)) -> (168 <= i < n)%nat.
Proof.
  intros Hframe Hlen Hi. destruct (dropna_kept _ _ Hframe) as [Hbound Hnotna].
  fold (kept_rows (history_frame obs df)) in Hbound, Hnotna.
  rewrite Forall_forall in Hbound. pose proof (Hbound i Hi) as Hin.
  split; [|exact Hin].
  destruct (history_frame_cols obs df) as (Hlag & _).
  pose proof (Hnotna i Hi _ _ Hlag) as Hna. cbn [notna_at] in Hna.
  rewrite shift_nth in Hna by lia.
  destruct (Nat.ltb_spec i 168); [discriminate | assumption].
Qed.

(** X10.  The first 168 rows of the clipped table never reach the
    training table: it has at most as many rows as the staging table
    has at or before the cutoff, less 168, so a staging table with no
    more than a week of hours gives an empty table and no error. *)
Theorem train_needs_week_of_history (staging out : DataFrame) (cutoff : Timestamp) :
  well_formed staging ->
  build_train_features staging cutoff = Ok out ->
  exists ts,
    get_col staging "time" = Some (STime ts)
    /\ (nrows out <= List.length (filter (fun t => (t <=? cutoff)%Z) ts) - 168)%nat.
Proof.
  intros Hwf Hrun.
  destruct (build_train_features_inv _ _ _ Hwf Hrun)
    as (ts & base & sb & obs & feat & Hget & _ & _ & _ & _ & Hlen & _ & Hfeq
        & Hframe & _ & _ & _ & Hrows & _).
  exists ts. split; [exact Hget|].
  rewrite Hrows, <- base_times_length. subst feat.
  set (n := List.length (base_times cutoff ts)) in *.
  replace (n - 168)%nat with (List.length (seq 168 (n - 168))) by apply length_seq.
  apply NoDup_incl_length.
  - apply sorted_lt_NoDup, mask_index_from_sorted.
  - intros i Hi. apply in_seq.
    pose proof (kept_rows_week _ _ _ _ Hframe Hlen Hi). lia.
Qed.

(** X11.  No cell of the training table is NaN. *)
Theorem train_table_has_no_nan (staging out : DataFrame) (cutoff : Timestamp) :
  well_formed staging ->
  build_train_features staging cutoff = Ok out ->
  forall c i, float_at out c i <> Some None.
Proof.
  intros Hwf Hrun c i Hcell.
  destruct (build_train_features_inv _ _ _ Hwf Hrun)
    as (ts & base & sb & obs & feat & _ & _ & _ & _ & _ & _ & _ & _
        & Hframe & Hftime & Hcols & Hout & _ & _).
  destruct (dropna_kept _ _ Hframe) as [_ Hnotna].
  fold (kept_rows feat) in Hnotna.
  unfold float_at in Hcell.
  destruct (get_col out c) as [s|] eqn:Hc; [|discriminate].
  assert (Hin : In c (columns feat)).
  { pose proof (get_col_columns _ _ _ Hc) as Hin. rewrite Hcols in Hin.
    destruct Hin as [<-|Hin]; [exact (get_col_columns _ _ _ Hftime)|].
    now apply filter_In in Hin. }
  apply columns_get_col in Hin. destruct Hin as (x & Hx).
  rewrite (Hout _ _ Hx) in Hc. injection Hc as <-.
  destruct x as [v|v|v]; cbn [take_series to_float] in Hcell; [discriminate| |].
  - rewrite nth_error_map in Hcell.
    destruct (nth_error (take_list (kept_rows feat) v) i); discriminate.
  - apply nth_error_In, take_list_In in Hcell. destruct Hcell as (k & Hk & Hv).
    pose proof (Hnotna k Hk _ _ Hx) as Hna. cbn [notna_at] in Hna.
    rewrite Hv in Hna. discriminate.
Qed.

(** X12.  Every row of the training table is a row [i >= 168] of the
    sorted, clipped table, with its time and its [temp_obs]; its
    [temp_diff_1] is the observation of row [i-1] less that of row
    [i-2], and its [roll_mean_24] is the mean of the 24 observations of
    rows [i-23 .. i], none of them NaN, the last being the [temp_obs] of
    the row itself. *)
Theorem train_row_features (staging out : DataFrame) (cutoff : Timestamp) :
  well_formed staging ->
  build_train_features staging cutoff = Ok out ->
  exists base kept,
    load_and_clip staging cutoff = Ok base
    /\ nrows out = List.length kept
    /\ forall j i, nth_error kept j = Some i ->
         (168 <= i < nrows base)%nat
         /\ time_at out j = time_at base i
         /\ float_at out "temp_obs" j = float_at base "temp_obs" i
         /\ (exists a b,
               float_at base "temp_obs" (i - 1) = Some (Some a)
               /\ float_at base "temp_obs" (i - 2) = Some (Some b)
               /\ float_at out "temp_diff_1" j = Some (Some (a - b)%Q))
         /\ (exists qs,
               List.length qs = 24%nat
               /\ (forall k, (k < 24)%nat ->
                     float_at base "temp_obs" (i - 23 + k)
                     = option_map Some (nth_error qs k))
               /\ float_at out "roll_mean_24" j = Some (Some (Qmean qs))).
Proof.
  intros Hwf Hrun.
  destruct (build_train_features_inv _ _ _ Hwf Hrun)
    as (ts & base & sb & obs & feat & Hget & _ & Hbase & Hgetb & [Hsb Hfl] & Hlen
        & _ & Hfeq & Hframe & Hftime & _ & Hout & Hrows & Hbound).
  destruct (load_and_clip_inv _ _ _ Hwf Hbase)
    as (ts' & s & Hget' & _ & _ & _ & _ & _ & _ & _ & Hnb & _ & _).
  assert (ts' = ts) by congruence. subst ts'. clear Hget'.
  set (n := List.length (base_times cutoff ts)) in *.
  assert (Hcell : forall i, float_at base "temp_obs" i = nth_error obs i)
    by (intros i; unfold float_at; now rewrite Hsb, Hfl).
  assert (Hobsf : get_col feat "temp_obs" = Some sb).
  { rewrite Hfeq. unfold history_frame. cbv zeta. rewrite !get_col_setitem.
    cbn [String.eqb Ascii.eqb Bool.eqb].
    now rewrite (get_col_with_time_features (base_times cutoff ts) base). }
  destruct (history_frame_cols obs (with_time_features (base_times cutoff ts) base))
    as (_ & Hdiff & Hmean & _).
  rewrite <- Hfeq in Hdiff, Hmean.
  destruct (dropna_kept _ _ Hframe) as [_ Hnotna].
  fold (kept_rows feat) in Hnotna.
  assert (Hb : Forall (fun k => (k < List.length obs)%nat) (kept_rows feat))
    by (now rewrite Hlen).
  exists base, (kept_rows feat).
  split; [exact Hbase|]. split; [exact Hrows|].
  intros j i Hj.
  assert (Hi : In i (kept_rows feat)) by (eapply nth_error_In; exact Hj).
  assert (Hweek : (168 <= i < n)%nat).
  { rewrite Hfeq in Hi, Hframe. exact (kept_rows_week _ _ _ _ Hframe Hlen Hi). }
  split; [now rewrite Hnb|].
  split.
  { unfold time_at. rewrite (Hout _ _ Hftime), Hgetb. cbn [take_series].
    exact (take_list_nth _ _ Hbound j i Hj). }
  split.
  { rewrite Hcell. unfold float_at. rewrite (Hout _ _ Hobsf).
    rewrite (to_float_take _ _ _ Hfl).
    exact (take_list_nth _ _ Hb j i Hj). }
  split.
  { pose proof (Hnotna i Hi _ _ Hdiff) as Hna. cbn [notna_at] in Hna.
    rewrite series_sub_nth, !shift_nth in Hna by lia.
    destruct (Nat.ltb_spec i 1); [lia|]. destruct (Nat.ltb_spec i 2); [lia|].
    destruct (nth_error obs (i - 1)) as [[a|]|] eqn:Ha;
      [| | apply nth_error_None in Ha; lia];
      (destruct (nth_error obs (i - 2)) as [[b|]|] eqn:Hb2;
       [| | apply nth_error_None in Hb2; lia]);
      try discriminate Hna.
    exists a, b. rewrite !Hcell. split; [exact Ha|]. split; [exact Hb2|].
    unfold float_at. rewrite (Hout _ _ Hdiff). cbn [take_series to_float].
    assert (Hbd : Forall (fun k => (k < List.length (series_sub (shift 1 obs)
                                                        (shift 2 obs)))%nat)
                         (kept_rows feat))
      by (rewrite series_sub_length, shift_length by (now rewrite !shift_length);
          exact Hb).
    rewrite (take_list_nth _ _ Hbd j i Hj).
    rewrite series_sub_nth, !shift_nth by lia.
    destruct (Nat.ltb_spec i 1); [lia|]. destruct (Nat.ltb_spec i 2); [lia|].
    now rewrite Ha, Hb2. }
  pose proof (Hnotna i Hi _ _ Hmean) as Hna. cbn [notna_at] in Hna.
  rewrite rolling_nth in Hna by lia.
  destruct (window_rows 24 i obs ltac:(lia) ltac:(lia)) as [Hwlen Hwnth].
  destruct (Nat.leb_spec 24 (List.length (valid (window 24 i obs)))) as [Hfull|];
    [|discriminate].
  pose proof (valid_full (window 24 i obs) ltac:(lia)) as Hw.
  exists (valid (window 24 i obs)).
  split; [rewrite <- Hwlen at 2; rewrite Hw at 2; now rewrite length_map|].
  split.
  { intros k Hk. now rewrite Hcell, <- nth_error_map, <- Hw, (Hwnth k Hk). }
  unfold float_at. rewrite (Hout _ _ Hmean). cbn [take_series to_float].
  assert (Hbr : Forall (fun k => (k < List.length (rolling 24 24 agg_mean obs))%nat)
                       (kept_rows feat))
    by (now rewrite rolling_length).
  rewrite (take_list_nth _ _ Hbr j i Hj).
  rewrite rolling_nth by lia.
  destruct (Nat.leb_spec 24 (List.length (valid (window 24 i obs)))); [|lia].
  reflexivity.
Qed.

End Training.


(** *** The outcomes of [build_train_features] *)

Lemma train_base_frame (staging : DataFrame) (cutoff : Timestamp)
    (ts : list Timestamp) :
  well_formed staging ->
  get_col staging "time" = Some (STime ts) ->
  well_formed (train_base staging cutoff ts)
  /\ get_col (train_base staging cutoff ts) "time"
     = Some (STime (base_times cutoff ts))
  /\ nrows (train_base staging cutoff ts) = List.length (base_times cutoff ts).
Proof.
  intros Hwf Hget.
  pose proof (well_formed_get_col _ _ _ Hwf Hget) as Hn. cbn [series_len] in Hn.
  assert (Hne : staging <> []) by (intros ->; discriminate).
  destruct (well_formed_take staging (argsort ts) Hwf) as [Hwf1 Hn1];
    [rewrite <- Hn; apply argsort_bound|]. specialize (Hn1 Hne).
  assert (Hget1 : get_col (take (argsort ts) staging) "time"
                  = Some (STime (sorted_times ts)))
    by (now rewrite get_col_take, Hget).
  pose proof (well_formed_get_col _ _ _ Hwf1 Hget1) as Hlen1.
  cbn [series_len] in Hlen1.
  assert (Hidx : Forall (fun i => (i < nrows (take (argsort ts) staging))%nat)
                        (clip_rows cutoff ts)).
  { unfold clip_rows. eapply Forall_impl; [|apply mask_index_bound].
    intros i Hi. cbv beta in Hi. rewrite length_map in Hi. now rewrite <- Hlen1. }
  destruct (well_formed_take _ _ Hwf1 Hidx) as [Hwfb _].
  fold (train_base staging cutoff ts) in Hwfb.
  assert (Hgetb : get_col (train_base staging cutoff ts) "time"
                  = Some (STime (base_times cutoff ts)))
    by (unfold train_base; now rewrite get_col_take, Hget1).
  pose proof (well_formed_get_col _ _ _ Hwfb Hgetb) as Hlenb.
  cbn [series_len] in Hlenb. auto.
Qed.

Section Outcomes.
Context `{Numpy}.

(** X13.  On a staging table with a time column and a numeric
    [temp_obs] column, [build_train_features] sorts the rows itself and
    so never reports unsorted timestamps.  It raises "Found non-hourly
    gaps in the time series." when two consecutive sorted timestamps
    are neither equal nor one hour apart; otherwise it raises "Training
    data is empty after applying the cutoff." when every row is after
    the cutoff, and returns a table when some row is not. *)
Theorem build_train_features_outcomes (staging : DataFrame) (cutoff : Timestamp)
    (ts : list Timestamp) (s : Series) (obs : list (option Q)) :
  well_formed staging ->
  get_col staging "time" = Some (STime ts) ->
  get_col staging "temp_obs" = Some s ->
  to_float s = Ok obs ->
  (~ steps_hourly_or_zero (sorted_times ts) ->
   build_train_features staging cutoff
   = Raise (ValueError "Found non-hourly gaps in the time series."))
  /\ (steps_hourly_or_zero (sorted_times ts) ->
      (forall t, In t ts -> cutoff < t) ->
      build_train_features staging cutoff
      = Raise (ValueError "Training data is empty after applying the cutoff."))
  /\ (steps_hourly_or_zero (sorted_times ts) ->
      (exists t, In t ts /\ t <= cutoff) ->
      exists out, build_train_features staging cutoff = Ok out).
Proof.
  intros Hwf Hget Hobs Hfl.
  assert (Hhas : has_column staging "temp_obs" = true)
    by (apply has_column_get_col; eauto).
  assert (Hget1 : get_col (take (argsort ts) staging) "time"
                  = Some (STime (sorted_times ts)))
    by (now rewrite get_col_take, Hget).
  assert (Hm : is_monotonic_increasing (sorted_times ts) = true)
    by (apply sorted_le_monotonic, sorted_times_spec).
  pose proof (load_and_clip_eq staging cutoff ts Hget Hhas) as Hload.
  rewrite (check_hourly_sorted _ _ _ Hget1 Hm) in Hload.
  unfold select_mask in Hload. fold (clip_rows cutoff ts) in Hload.
  fold (train_base staging cutoff ts) in Hload.
  destruct (train_base_frame staging cutoff ts Hwf Hget) as (Hwfb & Hgetb & Hnb).
  rewrite Hnb, base_times_length in Hload.
  assert (Hsteps : steps_hourly_or_zero (sorted_times ts)
                   <-> issubset (unique (diff (sorted_times ts))) allowed = true)
    by (now rewrite steps_hourly_or_zero_diff, issubset_unique_allowed).
  unfold build_train_features. split; [|split].
  - intros Hgap. rewrite Hload.
    destruct (issubset _ _); [|reflexivity]. exfalso. now apply Hgap, Hsteps.
  - intros Hs Hall. rewrite Hload, (proj1 Hsteps Hs). cbn [bind].
    replace (filter (fun t => t <=? cutoff) ts) with (@nil Timestamp); [reflexivity|].
    symmetry. clear -Hall. induction ts as [|t ts IH]; [reflexivity|].
    cbn [filter]. destruct (Z.leb_spec t cutoff) as [Hle|_].
    + specialize (Hall t (or_introl eq_refl)). lia.
    + apply IH. intros u Hu. apply Hall. now right.
  - intros Hs (t & Hin & Hle). rewrite Hload, (proj1 Hsteps Hs). cbn [bind].
    assert (Hpos : Nat.eqb (List.length (filter (fun t => t <=? cutoff) ts)) 0 = false).
    { apply Nat.eqb_neq. intros Hz. apply length_zero_iff_nil in Hz.
      assert (Hf : In t (filter (fun t => t <=? cutoff) ts))
        by (apply filter_In; split; [exact Hin | now apply Z.leb_le]).
      rewrite Hz in Hf. contradiction. }
    rewrite Hpos. cbn [bind].
    assert (Hobsb : get_col (train_base staging cutoff ts) "temp_obs"
                    = Some (take_series (clip_rows cutoff ts)
                              (take_series (argsort ts) s)))
      by (unfold train_base; now rewrite !get_col_take, Hobs).
    rewrite (train_features_eq _ _ _ _ Hgetb Hobsb
               (to_float_take _ _ _ (to_float_take _ _ _ Hfl))).
    cbn [bind]. apply select_total.
    intros c [<-|Hc]; [|apply filter_In in Hc; exact (proj1 Hc)].
    unfold dropna, select_mask. rewrite columns_take.
    apply columns_get_col. eexists.
    unfold history_frame. cbv zeta. rewrite !get_col_setitem.
    cbn [String.eqb Ascii.eqb Bool.eqb].
    rewrite (get_col_with_time_features (base_times cutoff ts)
               (train_base staging cutoff ts)).
    exact Hgetb.
Qed.

End Outcomes.

(** *** The columns of the training table *)

Lemma columns_setitem_add (df : DataFrame) (c : string) (s : Series) :
  columns (setitem df c s) = add_name (columns df) c.
Proof. apply columns_setitem. Qed.

Lemma add_names_fresh (names : list string) :
  NoDup names ->
  forall cols, (forall c, In c names -> ~ In c cols) ->
               fold_left add_name names cols = cols ++ names.
Proof.
  induction 1 as [|x l Hx Hnd IH]; intros cols Hfresh.
  - now rewrite app_nil_r.
  - cbn [fold_left]. unfold add_name at 2.
    destruct (existsb (String.eqb x) cols) eqn:E.
    + exfalso. apply existsb_exists in E. destruct E as (y & Hy & Heq).
      apply String.eqb_eq in Heq. subst y.
      exact (Hfresh x (or_introl eq_refl) Hy).
    + rewrite IH; [now rewrite <- app_assoc|].
      intros c Hc Hin. apply in_app_or in Hin. destruct Hin as [Hin|[<-|[]]].
      * exact (Hfresh c (or_intror Hc) Hin).
      * exact (Hx Hc).
Qed.

Section Columns.
Context `{Numpy}.

(** X14.  The training table starts with [time]; then come the other
    columns of the staging table in their order, the seven calendar
    columns and the ten history columns, when the staging table has no
    column of these names.  For a staging table of [time] and
    [temp_obs] these are the nineteen columns of [train_columns]. *)
Theorem train_columns_order (staging out : DataFrame) (cutoff : Timestamp) :
  well_formed staging ->
  build_train_features staging cutoff = Ok out ->
  (forall c, In c (time_feature_names ++ history_feature_names) ->
             ~ In c (columns staging)) ->
  columns out
  = ("time"%string
     :: filter (fun c => negb (String.eqb c "time")) (columns staging))
    ++ time_feature_names ++ history_feature_names
  /\ (columns staging = ["time"; "temp_obs"]%string -> columns out = train_columns).
Proof.
  intros Hwf Hrun Hfresh.
  destruct (build_train_features_inv _ _ _ Hwf Hrun)
    as (ts & base & sb & obs & feat & _ & _ & _ & _ & _ & _ & Hcb & Hfeq
        & _ & _ & Hcols & _ & _ & _).
  assert (Hfeat : columns feat
                  = fold_left add_name (time_feature_names ++ history_feature_names)
                              (columns staging)).
  { rewrite Hfeq, <- Hcb. unfold history_frame, with_time_features. cbv zeta.
    rewrite !columns_setitem_add.
    unfold time_feature_names, history_feature_names.
    cbn [app fold_left]. reflexivity. }
  rewrite add_names_fresh in Hfeat; [| |exact Hfresh].
  - assert (Hall : columns out
                   = ("time"%string
                      :: filter (fun c => negb (String.eqb c "time")) (columns staging))
                     ++ time_feature_names ++ history_feature_names).
    { rewrite Hcols, Hfeat, filter_app. reflexivity. }
    split; [exact Hall|]. intros H2. rewrite Hall, H2. reflexivity.
  - replace (time_feature_names ++ history_feature_names)
      with (nodup string_dec (time_feature_names ++ history_feature_names))
      by (vm_compute; reflexivity).
    apply NoDup_nodup.
Qed.

End Columns.

(** *** The sample tables *)

Lemma build_train_features_outcomes_witness :
  well_formed ramp_staging
  /\ (steps_hourly_or_zero (sorted_times (hourly fall_back 170)) ->
      (exists t, In t (hourly fall_back 170) /\ t <= late_cutoff) ->
      exists out, @build_train_features sample_numpy ramp_staging late_cutoff = Ok out).
Proof.
  split; [reflexivity|].
  apply (@build_train_features_outcomes sample_numpy ramp_staging late_cutoff
           (hourly fall_back 170) (SFloat (ramp 0 170)) (ramp 0 170));
    reflexivity.
Defined.

Lemma train_rows_within_cutoff_witness :
  exists out ts ts_out,
    @build_train_features sample_numpy ramp_staging late_cutoff = Ok out
    /\ get_col ramp_staging "time" = Some (STime ts)
    /\ get_col out "time" = Some (STime ts_out)
    /\ nrows out = List.length ts_out
    /\ StronglySorted Z.le ts_out
    /\ forall t, In t ts_out -> In t ts /\ t <= late_cutoff.
Proof.
  assert (Hwf : well_formed ramp_staging) by reflexivity.
  destruct (@build_train_features sample_numpy ramp_staging late_cutoff)
    as [out|e] eqn:Hrun; [|vm_compute in Hrun; discriminate].
  destruct (@train_rows_within_cutoff sample_numpy ramp_staging out late_cutoff Hwf Hrun)
    as (ts & ts_out & Hrest).
  exists out, ts, ts_out. split; [reflexivity | exact Hrest].
Defined.

Lemma train_needs_week_of_history_witness :
  exists out ts,
    @build_train_features sample_numpy short_staging late_cutoff = Ok out
    /\ get_col short_staging "time" = Some (STime ts)
    /\ (nrows out <= List.length (filter (fun t => (t <=? late_cutoff)%Z) ts) - 168)%nat.
Proof.
  assert (Hwf : well_formed short_staging) by reflexivity.
  destruct (@build_train_features sample_numpy short_staging late_cutoff)
    as [out|e] eqn:Hrun; [|vm_compute in Hrun; discriminate].
  destruct (@train_needs_week_of_history sample_numpy short_staging out late_cutoff
              Hwf Hrun) as (ts & Hrest).
  exists out, ts. split; [reflexivity | exact Hrest].
Defined.

Lemma train_table_has_no_nan_witness :
  exists out,
    @build_train_features sample_numpy ramp_staging late_cutoff = Ok out
    /\ forall c i, float_at out c i <> Some None.
Proof.
  assert (Hwf : well_formed ramp_staging) by reflexivity.
  destruct (@build_train_features sample_numpy ramp_staging late_cutoff)
    as [out|e] eqn:Hrun; [|vm_compute in Hrun; discriminate].
  exists out. split; [reflexivity|].
  exact (@train_table_has_no_nan sample_numpy ramp_staging out late_cutoff Hwf Hrun).
Defined.

Lemma train_row_features_witness :
  exists out base kept,
    @build_train_features sample_numpy ramp_staging late_cutoff = Ok out
    /\ load_and_clip ramp_staging late_cutoff = Ok base
    /\ nrows out = List.length kept
    /\ forall j i, nth_error kept j = Some i ->
         (168 <= i < nrows base)%nat
         /\ time_at out j = time_at base i
         /\ float_at out "temp_obs" j = float_at base "temp_obs" i
         /\ (exists a b,
               float_at base "temp_obs" (i - 1) = Some (Some a)
               /\ float_at base "temp_obs" (i - 2) = Some (Some b)
               /\ float_at out "temp_diff_1" j = Some (Some (a - b)%Q))
         /\ (exists qs,
               List.length qs = 24%nat
               /\ (forall k, (k < 24)%nat ->
                     float_at base "temp_obs" (i - 23 + k)
                     = option_map Some (nth_error qs k))
               /\ float_at out "roll_mean_24" j = Some (Some (Qmean qs))).
Proof.
  assert (Hwf : well_formed ramp_staging) by reflexivity.
  destruct (@build_train_features sample_numpy ramp_staging late_cutoff)
    as [out|e] eqn:Hrun; [|vm_compute in Hrun; discriminate].
  destruct (@train_row_features sample_numpy ramp_staging out late_cutoff Hwf Hrun)
    as (base & kept & Hrest).
  exists out, base, kept. split; [reflexivity | exact Hrest].
Defined.

Lemma train_columns_order_witness :
  exists out,
    @build_train_features sample_numpy ramp_staging late_cutoff = Ok out
    /\ columns out = train_columns.
Proof.
  assert (Hwf : well_formed ramp_staging) by reflexivity.
  destruct (@build_train_features sample_numpy ramp_staging late_cutoff)
    as [out|e] eqn:Hrun; [|vm_compute in Hrun; discriminate].
  exists out. split; [reflexivity|].
  assert (Hfresh : forall c, In c (time_feature_names ++ history_feature_names) ->
                             ~ In c (columns ramp_staging)).
  { intros c Hc [<-|[<-|[]]]; revert Hc; vm_compute; intuition discriminate. }
  exact (proj2 (@train_columns_order sample_numpy ramp_staging out late_cutoff
                  Hwf Hrun Hfresh) eq_refl).
Defined.

End PipelineFacts.

(* ================================================================== *)
(** ** The inference frame *)

Module InferFacts.
Import Calendar CalendarFacts BuildFeatures FrameFacts CadenceFacts TrainFacts.

Lemma date_range_rows (start end_ : Timestamp) :
  (end_ < start -> date_range start end_ = [])
  /\ (start <= end_ ->
      List.length (date_range start end_)
      = S (Z.to_nat ((end_ - start) / NS_PER_HOUR))
      /\ (forall i t, nth_error (date_range start end_) i = Some t ->
            t = start + hours (Z.of_nat i) /\ t <= end_)
      /\ (forall k, 0 <= k -> start + hours k <= end_ ->
            nth_error (date_range start end_) (Z.to_nat k) = Some (start + hours k))).
Proof.
  unfold date_range. split.
  - intros Hlt. destruct (Z.ltb_spec end_ start); [reflexivity | lia].
  - intros Hle. destruct (Z.ltb_spec end_ start); [lia|].
    set (n := Z.to_nat ((end_ - start) / NS_PER_HOUR)).
    assert (Hdiv : 0 <= (end_ - start) / NS_PER_HOUR)
      by (apply Z.div_pos; unfold NS_PER_HOUR; lia).
    split; [now rewrite length_map, length_seq|]. split.
    + intros i t Hi. rewrite nth_error_map, nth_error_seq in Hi.
      destruct (Nat.ltb_spec i (S n)); [|discriminate].
      cbn [option_map Nat.add] in Hi. injection Hi as <-. split; [reflexivity|].
      assert (Z.of_nat i <= (end_ - start) / NS_PER_HOUR) by lia.
      assert (HH : 0 < NS_PER_HOUR) by (unfold NS_PER_HOUR; lia).
      pose proof (Z.mul_div_le (end_ - start) NS_PER_HOUR HH).
      unfold hours. nia.
    + intros k Hk Hin. rewrite nth_error_map, nth_error_seq.
      assert (Hkn : k <= (end_ - start) / NS_PER_HOUR).
      { apply Z.div_le_lower_bound; unfold hours, NS_PER_HOUR in *; lia. }
      destruct (Nat.ltb_spec (Z.to_nat k) (S n)); [|lia].
      cbn [option_map Nat.add]. now rewrite Z2Nat.id.
Qed.

Section Infer.
Context `{Numpy}.

(** X15.  [build_infer_features(t0, t1)] has one row per hour from
    [t0] to [t1 + 23h], in order: row [i] is dated [t0 + i] hours, no
    row is later than [t1 + 23h] and every hour up to it is there; for
    [t1] a whole number [d] of days after [t0] that is [24 * (d + 1)]
    rows, and when [t1 + 23h] is before [t0] the frame is empty. *)
Theorem build_infer_features_rows (t0 t1 : Timestamp) :
  exists df ts,
    build_infer_features t0 t1 = Ok df
    /\ get_col df "time" = Some (STime ts)
    /\ nrows df = List.length ts
    /\ (t1 + hours 23 < t0 -> ts = [])
    /\ (forall i t, nth_error ts i = Some t ->
          t = t0 + hours (Z.of_nat i) /\ t <= t1 + hours 23)
    /\ (forall k, 0 <= k -> t0 + hours k <= t1 + hours 23 ->
          nth_error ts (Z.to_nat k) = Some (t0 + hours k))
    /\ (forall d, 0 <= d -> t1 = t0 + d * NS_PER_DAY ->
          List.length ts = Z.to_nat (24 * (d + 1))).
Proof.
  unfold build_infer_features. rewrite add_time_features_eq.
  set (ts := date_range t0 (t1 + hours 23)).
  exists (with_time_features ts [("time"%string, STime ts)]), ts.
  destruct (date_range_rows t0 (t1 + hours 23)) as [Hempty Hrows].
  fold ts in Hempty, Hrows.
  split; [reflexivity|]. split; [reflexivity|]. split; [reflexivity|].
  split; [exact Hempty|]. split; [|split].
  - intros i t Hi. destruct (Z.lt_ge_cases (t1 + hours 23) t0) as [Hlt|Hge].
    + rewrite (Hempty Hlt) in Hi. destruct i; discriminate.
    + now apply (proj1 (proj2 (Hrows Hge))).
  - intros k Hk Hin.
    assert (Hge : t0 <= t1 + hours 23).
    { assert (0 <= hours k) by (unfold hours, NS_PER_HOUR; lia). lia. }
    now apply (proj2 (proj2 (Hrows Hge))).
  - intros d Hd ->.
    destruct Hrows as (Hlen & _); [unfold hours, NS_PER_DAY, NS_PER_HOUR; lia|].
    rewrite Hlen.
    replace ((t0 + d * NS_PER_DAY + hours 23 - t0) / NS_PER_HOUR) with (24 * d + 23).
    + lia.
    + unfold hours, NS_PER_DAY, NS_PER_HOUR.
      apply Z.div_unique with (r := 0); lia.
Qed.

End Infer.

End InferFacts.

(* ================================================================== *)
(** ** The test features and the rows they read *)

Module ClimatologyFacts.
Import Calendar CalendarFacts TestTruth TestTruthFacts.

Lemma gather_length (history : History) (years : list Z) (ts : list Timestamp) :
  (List.length (gather history years ts) <= List.length ts)%nat.
Proof.
  induction ts as [|t ts IH]; [reflexivity|].
  cbn [gather]. destruct (0 <? List.length (real_at history t))%nat;
    [cbn [List.length]; lia|].
  destruct (0 <? List.length (climatology_at history years t))%nat;
    cbn [List.length]; lia.
Qed.

Lemma threshold_ge_24 (window_hours : Z) : 24 <= threshold window_hours.
Proof. unfold threshold. lia. Qed.


Lemma filter_filter_impl {A : Type} (f g : A -> bool) (l : list A) :
  (forall x, f x = true -> g x = true) ->
  filter f (filter g l) = filter f l.
Proof.
  intros Himp. induction l as [|x l IH]; [reflexivity|].
  cbn [filter]. destruct (g x) eqn:Eg; cbn [filter].
  - now rewrite IH.
  - rewrite IH. destruct (f x) eqn:Ef; [|reflexivity].
    rewrite (Himp x Ef) in Eg. discriminate.
Qed.

Lemma real_at_earlier (history : History) (years : list Z) (t u : Timestamp) :
  u < t ->
  real_at (filter (before_or_reference t years) history) u = real_at history u.
Proof.
  intros Hu. unfold real_at. f_equal. apply filter_filter_impl.
  intros r Hr. apply Z.eqb_eq in Hr. unfold before_or_reference.
  apply orb_true_iff. left. apply Z.ltb_lt. lia.
Qed.

Lemma climatology_at_reference (history : History) (years : list Z)
    (t u : Timestamp) :
  climatology_at (filter (before_or_reference t years) history) years u
  = climatology_at history years u.
Proof.
  unfold climatology_at. f_equal. apply filter_filter_impl.
  intros r Hr. unfold same_slot in Hr. apply andb_true_iff in Hr.
  unfold before_or_reference. apply orb_true_iff. right. apply Hr.
Qed.

Lemma gather_earlier (history : History) (years : list Z) (t : Timestamp)
    (ts : list Timestamp) :
  Forall (fun u => u < t) ts ->
  gather (filter (before_or_reference t years) history) years ts
  = gather history years ts.
Proof.
  induction 1 as [|u ts Hu Hall IH]; [reflexivity|].
  cbn [gather]. now rewrite (real_at_earlier _ _ _ _ Hu),
                            climatology_at_reference, IH.
Qed.

Lemma times_needed_earlier (target_time : Timestamp) (window_hours : Z) :
  Forall (fun u => u < target_time) (times_needed target_time window_hours).
Proof.
  unfold times_needed. apply Forall_forall. intros u Hu.
  apply in_map_iff in Hu. destruct Hu as (i & <- & Hi).
  apply in_seq in Hi. unfold hours, NS_PER_HOUR. lia.
Qed.

Section Stats.
Context `{Numpy}.

(** X16.  A window shorter than 24 hours never gives statistics:
    [get_rolling_stats] returns two missing values for it, whatever the
    history holds. *)
Theorem get_rolling_stats_short_window (target_time : Timestamp)
    (window_hours : Z) (history : History) (years : list Z) :
  window_hours < 24 ->
  get_rolling_stats target_time window_hours history years = (None, None).
Proof.
  intros Hw. unfold get_rolling_stats.
  pose proof (gather_length history years (times_needed target_time window_hours)) as Hlen.
  unfold times_needed at 2 in Hlen. rewrite length_map, length_seq in Hlen.
  pose proof (threshold_ge_24 window_hours) as Hth.
  destruct (Z.leb_spec (threshold window_hours)
              (Z.of_nat (List.length (gather history years
                                        (times_needed target_time window_hours)))));
    [lia | reflexivity].
Qed.


(** X18.  The features of a test hour come only from rows dated before
    it and from rows of the reference years: dropping every other row
    of the history changes neither the result of [get_rolling_stats]
    nor, for a lag of an hour or more, that of [get_lag_value]. *)
Theorem test_features_ignore_later_rows (target_time : Timestamp)
    (history : History) (years : list Z) :
  (forall window_hours,
      get_rolling_stats target_time window_hours
        (filter (before_or_reference target_time years) history) years
      = get_rolling_stats target_time window_hours history years)
  /\ (forall lag_hours, 0 < lag_hours ->
        get_lag_value target_time lag_hours
          (filter (before_or_reference target_time years) history) years
        = get_lag_value target_time lag_hours history years).
Proof.
  split.
  - intros window_hours. unfold get_rolling_stats.
    now rewrite (gather_earlier _ _ _ _ (times_needed_earlier _ _)).
  - intros lag_hours Hlag. unfold get_lag_value. cbv zeta.
    rewrite real_at_earlier, climatology_at_reference; [reflexivity|].
    unfold hours, NS_PER_HOUR. lia.
Qed.

End Stats.

Lemma get_rolling_stats_short_window_witness :
  @get_rolling_stats BuildFeatures.sample_numpy (mk_time 2025 9 17 0 0) 23
    sample_history default_years = (None, None).
Proof.
  apply (@get_rolling_stats_short_window BuildFeatures.sample_numpy). lia.
Defined.


End ClimatologyFacts.
